(** * warpSOL: the position lifecycle engine of [src/bot.ts]

    A shallow embedding of the [Bot] class: the momentum indicators
    ([calculateMACDv2], [calculateRSIv2]), the entry gate
    ([waitForBuySignal]), the admission check and the buy and sell
    pipelines ([buy], [sell], [filterMatch]) and the exit monitor
    ([waitForSellSignal]).

    - JavaScript numbers that carry prices and indicator values are IEEE-754
      binary64 values: Rocq's primitive [float] (same format, same rounding).
    - Configuration counts, retries, intervals and durations are integers,
      [Z]. The configuration numbers that the bot hands to the SDK's amount
      arithmetic (the three percentages and the sell slippage) are [float]s:
      the SDK parses each one where it is used and throws for a number that is
      not a whole number below [2^53 - 1].
    - A [TokenAmount] of the quote token is its raw integer amount ([Z]); the
      SDK's [BN.div] is truncating division ([Z.quot]).
    - [this.stopLoss] (a [Map<string, TokenAmount>]) is a [gmap string Z].
    - External collaborators (pool quotes, caches, the pool filters, the
      transaction executor, the clock) are oracles passed in an environment
      record; each oracle answers with a value or with a thrown exception,
      and is indexed by the tick or the attempt that consults it.
    - [logger.*], [sleep] and the fire-and-forget notifications complete
      normally and leave the bot's state alone; they are not modelled. *)

From Stdlib Require Import ZArith List Bool Lia Floats.
From stdpp Require Import base option list gmap strings.
Import ListNotations.

#[local] Open Scope Z_scope.

(* ================================================================== *)
(** ** JavaScript control flow and values *)

Module JS.

(** How a statement list finishes: it falls through with a value, breaks
    out of the enclosing loop, returns from the function, or throws. *)
Inductive completion (R A : Type) : Type :=
| Normal (a : A)
| Break
| Return (r : R)
| Throw.
Arguments Normal {R A} a.
Arguments Break {R A}.
Arguments Return {R A} r.
Arguments Throw {R A}.

(** What an awaited external call settles to, or what a synchronous call
    of a library function that may throw comes to. *)
Inductive outcome (A : Type) : Type :=
| Resolved (a : A)
| Rejected.
Arguments Resolved {A} a.
Arguments Rejected {A}.

(** A block of statements over the mutable state [S] of the object it
    runs on. [None] is a run that does not complete: an [await] on a
    promise that nothing in the run settles (the function stays suspended
    and none of its remaining code, [finally] blocks included, runs), or a
    loop cut short by its fuel. The properties below show that neither
    happens in the modelled methods. *)
Definition M (S R A : Type) : Type := S -> option (completion R A * S).

Section Blocks.
Context {S R : Type}.

Definition ret {A} (a : A) : M S R A := fun s => Some (Normal a, s).

Definition bind {A B} (m : M S R A) (k : A -> M S R B) : M S R B :=
  fun s =>
    match m s with
    | Some (Normal a, s') => k a s'
    | Some (Break, s') => Some (Break, s')
    | Some (Return r, s') => Some (Return r, s')
    | Some (Throw, s') => Some (Throw, s')
    | None => None
    end.

(** [return r;] *)
Definition return_ {A} (r : R) : M S R A := fun s => Some (Return r, s).
(** [break;] *)
Definition break_ {A} : M S R A := fun s => Some (Break, s).
(** [await p] for a promise that settles to [o]. *)
Definition await {A} (o : outcome A) : M S R A :=
  fun s => match o with
           | Resolved a => Some (Normal a, s)
           | Rejected => Some (Throw, s)
           end.
(** A synchronous call that comes to [o]: its value, or the exception it
    throws. *)
Definition sync {A} (o : outcome A) : M S R A :=
  fun s => match o with
           | Resolved a => Some (Normal a, s)
           | Rejected => Some (Throw, s)
           end.
(** A statement that only updates the state. *)
Definition modify (f : S -> S) : M S R unit := fun s => Some (Normal tt, f s).
Definition get : M S R S := fun s => Some (Normal s, s).

(** [try { m } catch (e) { h }] *)
Definition try_catch {A} (m h : M S R A) : M S R A :=
  fun s =>
    match m s with
    | Some (Throw, s') => h s'
    | r => r
    end.

(** [try { m } finally { f }]: [f] runs however [m] completes, and the
    completion of [m] stands unless [f] itself completes abruptly. *)
Definition try_finally {A} (m : M S R A) (f : M S R unit) : M S R A :=
  fun s =>
    match m s with
    | Some (c, s') =>
        match f s' with
        | Some (Normal _, s'') => Some (c, s'')
        | Some (Break, s'') => Some (Break, s'')
        | Some (Return r, s'') => Some (Return r, s'')
        | Some (Throw, s'') => Some (Throw, s'')
        | None => None
        end
    | None => None
    end.

(** [for (let i = 0; i < n; i++) { body }], as the list of the values
    [i] takes: [break] leaves the loop, [return] and an uncaught
    exception leave the function. *)
Fixpoint for_each (indices : list nat) (body : nat -> M S R unit) : M S R unit :=
  match indices with
  | [] => ret tt
  | i :: rest =>
      fun s =>
        match body i s with
        | Some (Normal _, s') => for_each rest body s'
        | Some (Break, s') => Some (Normal tt, s')
        | Some (Return r, s') => Some (Return r, s')
        | Some (Throw, s') => Some (Throw, s')
        | None => None
        end
  end.

Definition for_upto (n : Z) (body : nat -> M S R unit) : M S R unit :=
  for_each (seq 0 (Z.to_nat n)) body.

(** A call of a function with body [body], seen from the caller:
    [return r] makes the call evaluate to [r], falling off the end of the
    body makes it evaluate to [dflt] ([undefined] for a function that
    returns nothing), and an exception propagates into the caller. A
    [break] cannot leave a function body. *)
Definition call {R'} (dflt : R) (body : M S R unit) : M S R' R :=
  fun s =>
    match body s with
    | Some (Normal _, s') => Some (Normal dflt, s')
    | Some (Break, s') => Some (Normal dflt, s')
    | Some (Return r, s') => Some (Normal r, s')
    | Some (Throw, s') => Some (Throw, s')
    | None => None
    end.
End Blocks.

Notation "x <- m ;; k" := (bind m (fun x => k))
  (at level 100, m at next level, right associativity).
Notation "m ;;; k" := (bind m (fun _ => k))
  (at level 100, right associativity).

(** [n < d / i] for integers [n], [d] and [i <> 0], the quotient taken
    exactly: JavaScript compares the counter with the quotient of the
    two configuration numbers. (The callers return before the division
    when [i] is [0].) *)
Definition below_ratio (n d i : Z) : bool :=
  if 0 <? i then n * i <? d else d <? n * i.

(** [for (let i = a; i < b; i++) body] over a loop-carried state, for a
    body that neither breaks nor returns. *)
Definition for_range {S : Type} (a b : nat) (body : nat -> S -> S) (init : S) : S :=
  fold_left (fun s i => body i s) (seq a (b - a)) init.

(** [arr[i]] read as a number: an index past the end gives [undefined],
    which every arithmetic operator, comparison and [Math.abs] coerces
    to NaN. *)
Definition at_ (arr : list float) (i : nat) : float := nth i arr nan.

(** [arr[arr.length - 1]], with the same coercion when [arr] is empty. *)
Definition at_last (arr : list float) : float := List.last arr nan.

(** [arr.slice(0, n)] *)
Definition slice0 (arr : list float) (n : nat) : list float := firstn n arr.

(** [arr.reduce((acc, val) => acc + val, 0)] *)
Definition sum_reduce (arr : list float) : float :=
  fold_left (fun acc val => (acc + val)%float) arr 0%float.

(** Truthiness of a value of type [number | null]: [null], [0], [-0] and
    NaN are falsy. *)
Definition truthy (v : option float) : bool :=
  match v with
  | None => false
  | Some x => negb (x =? 0)%float && negb (is_nan x)
  end.

(** [a > b] on values of type [number | null] that are known truthy where
    it is evaluated; [null] is kept falsy here and never reaches [>]. *)
Definition gt_num (a b : option float) : bool :=
  match a, b with
  | Some x, Some y => (y <? x)%float
  | _, _ => false
  end.

End JS.
Import JS.

(* ================================================================== *)
(** ** MomentumSignal: [calculateMACDv2] and [calculateRSIv2] *)

Module Indicators.

#[local] Open Scope float_scope.

Definition shortPeriod : nat := 12.
Definition longPeriod : nat := 26.
Definition signalPeriod : nat := 9.

(** The returned object [{ macd, signal }]; [None] is [null]. *)
Record MACD : Type := { macd : option float; signal : option float }.

Definition shortMultiplier : float := 2 / (12 + 1).
Definition longMultiplier : float := 2 / (26 + 1).
Definition signalMultiplier : float := 2 / (9 + 1).

(** State of the MACD-line loop: [shortEMA], [longEMA], [macdLine]. *)
Definition macd_body (data : list float) (i : nat)
    (st : float * float * list float) : float * float * list float :=
  let '(shortEMA, longEMA, macdLine) := st in
  let shortEMA' := (at_ data i - shortEMA) * shortMultiplier + shortEMA in
  let longEMA' := (at_ data i - longEMA) * longMultiplier + longEMA in
  let macdValue := shortEMA' - longEMA' in
  (shortEMA', longEMA', macdLine ++ [macdValue]).

(** [macdLine] as it stands after the first loop. *)
Definition macdLine_of (data : list float) : list float :=
  let shortEMA := sum_reduce (slice0 data shortPeriod) / 12 in
  let longEMA := sum_reduce (slice0 data longPeriod) / 26 in
  snd (for_range longPeriod (length data) (macd_body data) (shortEMA, longEMA, [])).

(** The indices of [macdLine] read by the seed loop
    [for (let i = 0; i < signalPeriod; i++) sum += macdLine[i]]. *)
Definition seed_reads : list nat := seq 0 signalPeriod.

Definition signal_seed (macdLine : list float) : float :=
  fold_left (fun sum i => sum + at_ macdLine i) seed_reads 0 / 9.

(** State of the signal-line loop: [signalEMA], [signal]. *)
Definition signal_body (macdLine : list float) (i : nat)
    (st : float * list float) : float * list float :=
  let '(signalEMA, sig) := st in
  let signalEMA' := (at_ macdLine i - signalEMA) * signalMultiplier + signalEMA in
  (signalEMA', sig ++ [signalEMA']).

Definition signal_of (macdLine : list float) : list float :=
  let signalEMA := signal_seed macdLine in
  snd (for_range signalPeriod (length macdLine) (signal_body macdLine)
         (signalEMA, [signalEMA])).

Definition calculateMACDv2 (data : list float) : MACD :=
  if (length data <? longPeriod + signalPeriod - 1)%nat then
    {| macd := None; signal := None |}
  else
    let macdLine := macdLine_of data in
    let sig := signal_of macdLine in
    {| macd := Some (at_last macdLine); signal := Some (at_last sig) |}.

(** Every index read from [data], [macdLine] and [signal] on an input that
    passes the length guard, each paired with the length of the array it
    is read from: the MACD-line loop, the seed loop, the signal loop, and
    the two final reads ([arr.length - 1] is [-1] on an empty array; it is
    kept as the length itself so that it shows as out of range). *)
Definition macd_reads (data : list float) : list (nat * nat) :=
  let macdLine := macdLine_of data in
  let sig := signal_of macdLine in
  let last_index (n : nat) := match n with O => O | S k => k end in
  map (fun i => (i, length data)) (seq longPeriod (length data - longPeriod))
  ++ map (fun i => (i, length macdLine)) seed_reads
  ++ map (fun i => (i, length macdLine))
       (seq signalPeriod (length macdLine - signalPeriod))
  ++ [(last_index (length macdLine), length macdLine);
      (last_index (length sig), length sig)].

Definition in_bounds (r : nat * nat) : Prop := (fst r < snd r)%nat.

(** *** RSI *)

Definition period : nat := 14.

(** [delta], filled by [for (let i = 1; i < prices.length; i++)]. *)
Definition delta_of (prices : list float) : list float :=
  for_range 1 (length prices)
    (fun i delta => delta ++ [at_ prices i - at_ prices (i - 1)]) [].

(** State of the first-period loop: [gainSum], [lossSum]. *)
Definition sums_body (delta : list float) (i : nat)
    (st : float * float) : float * float :=
  let '(gainSum, lossSum) := st in
  if 0 <? at_ delta i then (gainSum + at_ delta i, lossSum)
  else (gainSum, lossSum + abs (at_ delta i)).

(** State of the smoothing loop: [prevAvgGain], [prevAvgLoss], [cRSI]. *)
Definition rsi_body (delta : list float) (i : nat)
    (st : float * float * float) : float * float * float :=
  let '(prevAvgGain, prevAvgLoss, _) := st in
  let gain := if 0 <? at_ delta i then at_ delta i else 0 in
  let loss := if at_ delta i <? 0 then abs (at_ delta i) else 0 in
  let avgGain := ((prevAvgGain * (14 - 1)) + gain) / 14 in
  let avgLoss := ((prevAvgLoss * (14 - 1)) + loss) / 14 in
  let RS := avgGain / avgLoss in
  let cRSI := 100 - (100 / (1 + RS)) in
  (avgGain, avgLoss, cRSI).

Definition calculateRSIv2 (prices : list float) : float :=
  let delta := delta_of prices in
  let '(gainSum, lossSum) := for_range 0 period (sums_body delta) (0, 0) in
  let initialAvgGain := gainSum / 14 in
  let initialAvgLoss := lossSum / 14 in
  snd (for_range period (length prices) (rsi_body delta)
         (initialAvgGain, initialAvgLoss, 0)).

End Indicators.
Import Indicators.

(* ================================================================== *)
(** ** Configuration and collaborators *)

Module Config.
(** The fields of [BotConfig] that the modelled methods read.
    [quoteAmount] is a [TokenAmount], in raw quote-token units. [takeProfit],
    [stopLoss], [skipSellingIfLostMoreThan] and [sellSlippage] are the
    JavaScript numbers that [waitForSellSignal] passes to the SDK
    ([TokenAmount.mul], [new Percent]); the other numbers are integers. *)
Record BotConfig : Type := {
  quoteAmount : Z;
  maxTokensAtTheTime : Z;
  useSnipeList : bool;
  autoBuyDelay : Z;
  autoSellDelay : Z;
  maxBuyRetries : Z;
  maxSellRetries : Z;
  takeProfit : float;
  stopLoss : float;
  trailingStopLoss : bool;
  skipSellingIfLostMoreThan : float;
  sellSlippage : float;
  priceCheckInterval : Z;
  priceCheckDuration : Z;
  filterCheckInterval : Z;
  filterCheckDuration : Z;
  consecutiveMatchCount : Z
}.
End Config.
Import Config.

(** The result of [txExecutor.executeAndConfirm]. *)
Record SwapResult : Type := { confirmed : bool }.

(* ================================================================== *)
(** ** EntryGate: [waitForBuySignal] *)

Module EntryGate.

Definition timesToCheck : nat := (10 * 60) / 2.
Definition maxSignalWaitTries : nat := 60.

(** The locals of [waitForBuySignal], and the durations of the
    [sleep] calls made so far. *)
Record GateState : Type := {
  timesChecked : nat;
  prices : list float;
  slept : list Z
}.

(** [prices] after the deduplicating push of one fetched price. *)
Definition push_price (prices : list float) (price : float) : list float :=
  if (length prices =? 0)%nat || negb (price =? at_last prices)%float
  then prices ++ [price] else prices.

(** The entry condition of line 247. *)
Definition buy_condition (currentRSI : float) (m : MACD) : bool :=
  (0 <? currentRSI)%float && (currentRSI <? 30)%float
  && truthy (macd m) && truthy (signal m) && gt_num (macd m) (signal m).

(** The early-abort condition of line 242. *)
Definition abort_condition (timesChecked : nat) (currentRSI : float) (m : MACD) : bool :=
  (maxSignalWaitTries <=? timesChecked)%nat && (currentRSI =? 0)%float
  && negb (truthy (macd m)).

(** The [try] block of one tick. [fetched] is the price
    [parseFloat(tokenPriceBN.toFixed(16))] computed from the pool's quote,
    or [Rejected] when fetching or computing it throws. *)
Definition signal_try (fetched : outcome float) (st : GateState)
    : completion bool unit * GateState :=
  match fetched with
  | Rejected => (Throw, st)
  | Resolved price =>
      let prices' := push_price (prices st) price in
      let currentRSI := calculateRSIv2 prices' in
      let m := calculateMACDv2 prices' in
      let st' := {| timesChecked := timesChecked st; prices := prices'; slept := slept st |} in
      if abort_condition (timesChecked st) currentRSI m then (Return false, st')
      else if buy_condition currentRSI m then (Return true, st')
      else (Normal tt,
            {| timesChecked := timesChecked st; prices := prices';
               slept := slept st ++ [1000] |})
  end.

(** One pass through [try / catch / finally]: the [catch] swallows the
    exception and the [finally] counts the tick. *)
Definition signal_tick (fetched : outcome float) (st : GateState)
    : completion bool unit * GateState :=
  let '(c, st') := signal_try fetched st in
  let c' := match c with Throw => Normal tt | _ => c end in
  (c', {| timesChecked := S (timesChecked st'); prices := prices st';
          slept := slept st' |}).

(** [do { ... } while (timesChecked < timesToCheck); return false;]
    [feed k] is what the fetch of the tick with [timesChecked = k] gives. *)
Fixpoint signal_loop (fuel : nat) (feed : nat -> outcome float) (st : GateState)
    : option (bool * GateState) :=
  match fuel with
  | O => None
  | S fuel' =>
      match signal_tick (feed (timesChecked st)) st with
      | (Return b, st') => Some (b, st')
      | (_, st') =>
          if (timesChecked st' <? timesToCheck)%nat
          then signal_loop fuel' feed st'
          else Some (false, st')
      end
  end.

(** [waitForBuySignal(poolKeys)]. Of [this.config] the method reads only
    [quoteToken], inside the price fetch that [feed] stands for. *)
Definition waitForBuySignal (cfg : BotConfig) (feed : nat -> outcome float)
    : option (bool * GateState) :=
  signal_loop timesToCheck feed {| timesChecked := 0; prices := []; slept := [] |}.

End EntryGate.
Import EntryGate.

(* ================================================================== *)
(** ** The bot's mutable state *)

(** The counting semaphore of [async-mutex] (version 0.4 and later, where
    [release()] gives back one permit), holding [value] free permits. *)
Module Semaphore.
Definition getValue (value : Z) : Z := value.
Definition isLocked (value : Z) : bool := value <=? 0.
(** [acquire()] takes a permit at once when one is free; otherwise the
    caller is queued until a [release] ([None]). *)
Definition acquire (value : Z) : option Z :=
  if 0 <? value then Some (value - 1) else None.
Definition release (value : Z) : Z := value + 1.
End Semaphore.

(** What a run does that its caller can observe from outside: permits taken
    and given back, swaps handed to the executor (with the retry index [i]),
    and calls of [waitForSellSignal] (with the retry index of the caller). *)
Inductive Event : Type :=
| EvAcquire
| EvRelease
| EvBuySwap (i : nat)
| EvSellSwap (i : nat)
| EvSellSignal (i : nat).

#[global] Instance Event_eq_dec : EqDecision Event.
Proof. solve_decision. Defined.

Record Bot : Type := {
  semaphore : Z;
  sellExecutionCount : Z;
  stopLoss : gmap string Z;
  trace : list Event
}.

Definition log_event {R} (e : Event) : M Bot R unit :=
  modify (fun b => {| semaphore := semaphore b;
                      sellExecutionCount := sellExecutionCount b;
                      stopLoss := stopLoss b;
                      trace := trace b ++ [e] |}).

Definition set_semaphore (v : Z) (b : Bot) : Bot :=
  {| semaphore := v; sellExecutionCount := sellExecutionCount b;
     stopLoss := stopLoss b; trace := trace b |}.

Definition set_sellExecutionCount (v : Z) (b : Bot) : Bot :=
  {| semaphore := semaphore b; sellExecutionCount := v;
     stopLoss := stopLoss b; trace := trace b |}.

Definition set_stopLoss (m : gmap string Z) (b : Bot) : Bot :=
  {| semaphore := semaphore b; sellExecutionCount := sellExecutionCount b;
     stopLoss := m; trace := trace b |}.

(** [await this.semaphore.acquire()] *)
Definition semaphore_acquire {R} : M Bot R unit :=
  fun b =>
    match Semaphore.acquire (semaphore b) with
    | Some v => log_event EvAcquire (set_semaphore v b)
    | None => None
    end.

(** [this.semaphore.release()] *)
Definition semaphore_release {R} : M Bot R unit :=
  fun b => log_event EvRelease (set_semaphore (Semaphore.release (semaphore b)) b).

(* ================================================================== *)
(** ** ExitMonitor: [waitForSellSignal] *)

Module ExitMonitor.

(** The SDK's [MAX_SAFE], [0x1fffffffffffff]. *)
Definition MAX_SAFE : Z := 9007199254740991.

(** [parseBigNumberish(value)] of the SDK for a JavaScript number, which
    [Fraction.mul] and the [Fraction] constructor (so [new Percent]) apply
    to a number they are given. It throws for a number with a fractional
    part ([value % 1] is neither [0] nor [NaN]) and for one at or beyond
    [MAX_SAFE] in absolute value (the infinities included), and else gives
    the integer as a [BN]. [NaN] passes both tests and the [BN] constructor
    rejects its string. A finite [float] is [m * 2^e] up to its sign. *)
Definition parseBigNumberish (value : float) : outcome Z :=
  match Prim2SF value with
  | SpecFloat.S754_zero _ => Resolved 0
  | SpecFloat.S754_finite negative m e =>
      let scale := 2 ^ Z.abs e in
      if (e <? 0) && negb (Z.pos m mod scale =? 0) then Rejected
      else
        let magnitude := if e <? 0 then Z.pos m / scale else Z.pos m * scale in
        if MAX_SAFE <=? magnitude then Rejected
        else Resolved (if negative then - magnitude else magnitude)
  | SpecFloat.S754_infinity _ => Rejected
  | SpecFloat.S754_nan => Rejected
  end.

(** [x.numerator.div(new BN(100))] for the product [x] of a raw [amount]
    and the integer [pct]. *)
Definition fraction_of (amount pct : Z) : Z := Z.quot (amount * pct) 100.

(** [amount.mul(pct).numerator.div(new BN(100))] for a raw [amount] and a
    JavaScript number [pct]: [mul] parses [pct], and throws when
    [parseBigNumberish] does. *)
Definition percent_of {R} (amount : Z) (pct : float) : M Bot R Z :=
  parsed <- sync (parseBigNumberish pct) ;;
  ret (fraction_of amount parsed).

Definition stopLoss_set {R} (mint : string) (v : Z) : M Bot R unit :=
  modify (fun b => set_stopLoss (<[mint := v]> (stopLoss b)) b).

Definition stopLoss_delete {R} (mint : string) : M Bot R unit :=
  modify (fun b => set_stopLoss (delete mint (stopLoss b)) b).

(** Lines 655-668: the trailing update; evaluates to the local
    [stopLoss] after it. The product of line 656 throws before anything is
    assigned. *)
Definition trailing_update (cfg : BotConfig) (mint : string) (amountOut stopLoss : Z)
    : M Bot bool Z :=
  if trailingStopLoss cfg then
    trailingLossFraction <- percent_of amountOut (Config.stopLoss cfg) ;;
    let trailingStopLoss := amountOut - trailingLossFraction in
    if stopLoss <? trailingStopLoss then
      stopLoss_set mint trailingStopLoss ;;;
      ret trailingStopLoss
    else ret stopLoss
  else ret stopLoss.

(** Lines 670-688: the drawdown check. [skipSellingIfLostMoreThan > 0]
    and [100 - skipSellingIfLostMoreThan] are evaluated on JavaScript
    numbers; the product of line 672 may throw. *)
Definition drawdown_check (cfg : BotConfig) (mint : string) (amountOut : Z)
    : M Bot bool unit :=
  if (0 <? skipSellingIfLostMoreThan cfg)%float then
    stopSellingAmount <-
      percent_of (quoteAmount cfg) (100 - skipSellingIfLostMoreThan cfg)%float ;;
    if amountOut <? stopSellingAmount
    then stopLoss_delete mint ;;; return_ false
    else ret tt
  else ret tt.

(** Lines 670-725: what the [try] block does after the trailing update,
    for the local [takeProfit] of line 623 and the local [stopLoss] as the
    update left it. *)
Definition monitor_checks (cfg : BotConfig) (mint : string) (takeProfit : Z)
    (amountOut stopLoss : Z) : M Bot bool unit :=
  drawdown_check cfg mint amountOut ;;;
  (if amountOut <? stopLoss
   then stopLoss_delete mint ;;; break_
   else ret tt) ;;;
  (if takeProfit <? amountOut
   then stopLoss_delete mint ;;; break_
   else ret tt) ;;;
  (* await sleep(this.config.priceCheckInterval) *)
  ret tt.

(** The [try] block of one monitoring tick. [quoted] is the [amountOut]
    the pool quotes for the held tokens, or [Rejected] when fetching or
    computing it throws. Evaluates to the local [stopLoss].

    The function keeps [stopLoss] in a local variable, which the [catch]
    of line 727 (a log entry) leaves alone: after an exception the variable
    holds what was last assigned to it. Here the variable is passed by
    value, so the exceptions thrown after the assignment of line 666 (the
    product of line 672) are caught where the updated value is at hand, and
    the earlier ones (the fetch, the product of line 656) in
    [monitor_tick]; both handlers stand for the one [catch] of the
    source. *)
Definition monitor_try (cfg : BotConfig) (mint : string) (takeProfit : Z)
    (quoted : outcome Z) (stopLoss : Z) : M Bot bool Z :=
  amountOut <- await quoted ;;
  stopLoss <- trailing_update cfg mint amountOut stopLoss ;;
  try_catch
    (monitor_checks cfg mint takeProfit amountOut stopLoss ;;; ret stopLoss)
    (ret stopLoss).

(** [try { ... } catch (e) { log }]: after an exception caught here the
    local [stopLoss] is the one the tick started with. *)
Definition monitor_tick (cfg : BotConfig) (mint : string) (takeProfit : Z)
    (quoted : outcome Z) (stopLoss : Z) : M Bot bool Z :=
  try_catch (monitor_try cfg mint takeProfit quoted stopLoss) (ret stopLoss).

(** [do { try ... finally { timesChecked++ } } while (timesChecked < timesToCheck)]
    followed by [return true]. [feed k] is the quote of the tick with
    [timesChecked = k]. *)
Fixpoint monitor_loop (fuel : nat) (cfg : BotConfig) (mint : string) (takeProfit : Z)
    (feed : nat -> outcome Z) (timesChecked : nat) (stopLoss : Z)
    : M Bot bool unit :=
  match fuel with
  | O => fun _ => None
  | S fuel' =>
      fun b =>
        match monitor_tick cfg mint takeProfit (feed timesChecked) stopLoss b with
        | Some (Normal stopLoss', b') =>
            if below_ratio (Z.of_nat (S timesChecked))
                 (priceCheckDuration cfg) (priceCheckInterval cfg)
            then monitor_loop fuel' cfg mint takeProfit feed (S timesChecked) stopLoss' b'
            else Some (Return true, b')
        | Some (Break, b') => Some (Return true, b')
        | Some (Return r, b') => Some (Return r, b')
        | Some (Throw, b') => Some (Throw, b')
        | None => None
        end
  end.

(** Enough iterations for any run: [timesChecked < duration / interval]
    fails once [timesChecked] exceeds [|duration|]. *)
Definition monitor_fuel (cfg : BotConfig) : nat :=
  S (Z.abs_nat (priceCheckDuration cfg)).

(** Lines 626-634: create the entry on first use, else read it. Only the
    first use computes the product of line 627. *)
Definition stopLoss_init (cfg : BotConfig) (mint : string) : M Bot bool Z :=
  b <- get ;;
  match stopLoss b !! mint with
  | None =>
      lossFraction <- percent_of (quoteAmount cfg) (Config.stopLoss cfg) ;;
      let stopLoss := quoteAmount cfg - lossFraction in
      stopLoss_set mint stopLoss ;;;
      ret stopLoss
  | Some stopLoss => ret stopLoss
  end.

(** The body of [waitForSellSignal(amountIn, poolKeys)], with
    [mint = poolKeys.baseMint.toString()]. Lines 621, 627 and 636 run
    before the [try] of the loop: an exception of theirs leaves the
    function. *)
Definition waitForSellSignal_body (cfg : BotConfig) (mint : string)
    (feed : nat -> outcome Z) : M Bot bool unit :=
  if (priceCheckDuration cfg =? 0) || (priceCheckInterval cfg =? 0)
  then return_ true
  else
    profitFraction <- percent_of (quoteAmount cfg) (takeProfit cfg) ;;
    let takeProfit := quoteAmount cfg + profitFraction in
    stopLoss <- stopLoss_init cfg mint ;;
    (* const slippage = new Percent(this.config.sellSlippage, 100) *)
    sync (parseBigNumberish (sellSlippage cfg)) ;;;
    monitor_loop (monitor_fuel cfg) cfg mint takeProfit feed 0 stopLoss.

(** A call of [waitForSellSignal] from a function that returns [R]. *)
Definition waitForSellSignal {R} (cfg : BotConfig) (mint : string)
    (feed : nat -> outcome Z) : M Bot R bool :=
  call true (waitForSellSignal_body cfg mint feed).

End ExitMonitor.
Import ExitMonitor.

(* ================================================================== *)
(** ** ExecutionPipeline: [filterMatch], [buy], [sell] *)

Module Pipeline.

(** The [try] block of one filter tick, up to its closing
    [await sleep(this.config.filterCheckInterval)]; evaluates to
    [matchCount]. *)
Definition filter_try (cfg : BotConfig) (executed : outcome bool) (matchCount : Z)
    : M Bot bool Z :=
  shouldBuy <- await executed ;;
  (if shouldBuy : bool then
     let matchCount := matchCount + 1 in
     if consecutiveMatchCount cfg <=? matchCount then return_ true
     else ret matchCount
   else ret 0).

(** [do { try ... finally { timesChecked++ } } while (timesChecked < timesToCheck)]
    followed by [return false]; there is no [catch], so an exception of
    [filters.execute] leaves the function. *)
Fixpoint filter_loop (fuel : nat) (cfg : BotConfig) (feed : nat -> outcome bool)
    (timesChecked : nat) (matchCount : Z) : M Bot bool unit :=
  match fuel with
  | O => fun _ => None
  | S fuel' =>
      fun b =>
        match filter_try cfg (feed timesChecked) matchCount b with
        | Some (Normal matchCount', b') =>
            if below_ratio (Z.of_nat (S timesChecked))
                 (filterCheckDuration cfg) (filterCheckInterval cfg)
            then filter_loop fuel' cfg feed (S timesChecked) matchCount' b'
            else Some (Return false, b')
        | Some (Break, b') => Some (Return false, b')
        | Some (Return r, b') => Some (Return r, b')
        | Some (Throw, b') => Some (Throw, b')
        | None => None
        end
  end.

Definition filter_fuel (cfg : BotConfig) : nat :=
  S (Z.abs_nat (filterCheckDuration cfg)).

Definition filterMatch_body (cfg : BotConfig) (feed : nat -> outcome bool)
    : M Bot bool unit :=
  if (filterCheckInterval cfg =? 0) || (filterCheckDuration cfg =? 0)
  then return_ true
  else filter_loop (filter_fuel cfg) cfg feed 0 0.

Definition filterMatch {R} (cfg : BotConfig) (feed : nat -> outcome bool)
    : M Bot R bool :=
  call false (filterMatch_body cfg feed).

(** A call of [waitForBuySignal], which touches no state of the bot. *)
Definition waitForBuySignal_call {R} (cfg : BotConfig) (feed : nat -> outcome float)
    : M Bot R bool :=
  fun b =>
    match waitForBuySignal cfg feed with
    | Some (r, _) => Some (Normal r, b)
    | None => None
    end.

(** *** Admission (lines 284-292) *)

Definition numberOfActionsBeingProcessed (cfg : BotConfig) (b : Bot) : Z :=
  maxTokensAtTheTime cfg - Semaphore.getValue (semaphore b) + sellExecutionCount b.

Definition admission_denied (cfg : BotConfig) (b : Bot) : bool :=
  Semaphore.isLocked (semaphore b)
  || (maxTokensAtTheTime cfg <=? numberOfActionsBeingProcessed cfg b).

(** *** [buy] *)

(** What the collaborators answer during one run of [buy]. *)
Record BuyEnv : Type := {
  inSnipeList : bool;                   (* snipeListCache.isInList(mint) *)
  buyLookups : outcome unit;            (* Promise.all([marketStorage.get, getAssociatedTokenAddress]) *)
  buyPoolKeys : outcome unit;           (* createPoolKeys *)
  filterFeed : nat -> outcome bool;     (* filters.execute, by tick *)
  priceFeed : nat -> outcome float;     (* the entry gate's price fetch, by tick *)
  startTime : Z;                        (* Date.now() before the loop *)
  now : nat -> Z;                       (* Date.now() in attempt i *)
  buySwap : nat -> outcome SwapResult   (* this.swap(..., 'buy') in attempt i *)
}.

(** The [try] block of one buy attempt (lines 321-367). *)
Definition buy_attempt (cfg : BotConfig) (env : BuyEnv) (i : nat) : M Bot unit unit :=
  (if 10000 <? now env i - startTime env then return_ tt else ret tt) ;;;
  log_event (EvBuySwap i) ;;;
  result <- await (buySwap env i) ;;
  if confirmed result then break_ else ret tt.

(** The outer [try] block (lines 296-371). *)
Definition buy_try (cfg : BotConfig) (env : BuyEnv) : M Bot unit unit :=
  await (buyLookups env) ;;;
  await (buyPoolKeys env) ;;;
  (if negb (useSnipeList cfg) then
     matched <- filterMatch cfg (filterFeed env) ;;
     if negb matched then return_ tt else ret tt
   else ret tt) ;;;
  buySignal <- waitForBuySignal_call cfg (priceFeed env) ;;
  (if negb buySignal then return_ tt else ret tt) ;;;
  for_upto (maxBuyRetries cfg)
    (fun i => try_catch (buy_attempt cfg env i) (ret tt)).

Definition buy (cfg : BotConfig) (env : BuyEnv) : M Bot unit unit :=
  (if useSnipeList cfg && negb (inSnipeList env) then return_ tt else ret tt) ;;;
  (* if (autoBuyDelay > 0) await sleep(autoBuyDelay) *)
  b <- get ;;
  (if admission_denied cfg b then return_ tt else ret tt) ;;;
  semaphore_acquire ;;;
  try_finally
    (try_catch (buy_try cfg env) (ret tt))
    semaphore_release.

(** *** [sell] *)

Record SellEnv : Type := {
  poolData : outcome (option string);   (* poolStorage.get: the pool's baseMint, if cached *)
  sellMarket : outcome unit;            (* marketStorage.get *)
  sellPoolKeys : outcome unit;          (* createPoolKeys *)
  quoteFeed : nat -> outcome Z;         (* the exit monitor's quote, by tick *)
  sellSwap : nat -> outcome SwapResult  (* this.swap(..., 'sell') in attempt i *)
}.

(** The [try] block of one sell attempt (lines 409-489). *)
Definition sell_attempt (cfg : BotConfig) (env : SellEnv) (mint : string) (i : nat)
    : M Bot unit unit :=
  (if (i <? 1)%nat then
     log_event (EvSellSignal i) ;;;
     shouldSell <- waitForSellSignal cfg mint (quoteFeed env) ;;
     if negb shouldSell then return_ tt else ret tt
   else ret tt) ;;;
  log_event (EvSellSwap i) ;;;
  result <- await (sellSwap env i) ;;
  if confirmed result then break_ else ret tt.

(** The outer [try] block (lines 383-493); [amount] is
    [rawAccount.amount]. *)
Definition sell_try (cfg : BotConfig) (env : SellEnv) (amount : Z) : M Bot unit unit :=
  found <- await (poolData env) ;;
  match found with
  | None => return_ tt
  | Some mint =>
      (if amount =? 0 then return_ tt else ret tt) ;;;
      (* if (autoSellDelay > 0) await sleep(autoSellDelay) *)
      await (sellMarket env) ;;;
      await (sellPoolKeys env) ;;;
      for_upto (maxSellRetries cfg)
        (fun i => try_catch (sell_attempt cfg env mint i) (ret tt))
  end.

Definition sell (cfg : BotConfig) (env : SellEnv) (amount : Z) : M Bot unit unit :=
  modify (fun b => set_sellExecutionCount (sellExecutionCount b + 1) b) ;;;
  try_finally
    (try_catch (sell_try cfg env amount) (ret tt))
    (modify (fun b => set_sellExecutionCount (sellExecutionCount b - 1) b)).

End Pipeline.
Import Pipeline.

(* ================================================================== *)
(** ** AdmissionController: pipelines in flight

    The scheduler is cooperative: a run of [buy] touches the semaphore when
    it passes the check and acquires (no [await] lies between the two) and
    when its [finally] releases; a run of [sell] touches
    [sellExecutionCount] on entry and in its [finally]. Each of these is one
    step of the system below, which counts the runs in flight. *)

Module Admission.

Record Sys : Type := {
  bot : Bot;
  buysInFlight : nat;
  sellsInFlight : nat
}.

Definition boot (cfg : BotConfig) : Sys :=
  {| bot := {| semaphore := maxTokensAtTheTime cfg; sellExecutionCount := 0;
               stopLoss := ∅; trace := [] |};
     buysInFlight := 0; sellsInFlight := 0 |}.

Inductive step (cfg : BotConfig) : Sys -> Sys -> Prop :=
| buy_denied s :
    admission_denied cfg (bot s) = true ->
    step cfg s s
| buy_admitted s b' :
    admission_denied cfg (bot s) = false ->
    semaphore_acquire (R := unit) (bot s) = Some (Normal tt, b') ->
    step cfg s {| bot := b'; buysInFlight := S (buysInFlight s);
                  sellsInFlight := sellsInFlight s |}
| buy_finished s n b' :
    buysInFlight s = S n ->
    semaphore_release (R := unit) (bot s) = Some (Normal tt, b') ->
    step cfg s {| bot := b'; buysInFlight := n; sellsInFlight := sellsInFlight s |}
| sell_entered s :
    step cfg s {| bot := set_sellExecutionCount (sellExecutionCount (bot s) + 1) (bot s);
                  buysInFlight := buysInFlight s;
                  sellsInFlight := S (sellsInFlight s) |}
| sell_finished s n :
    sellsInFlight s = S n ->
    step cfg s {| bot := set_sellExecutionCount (sellExecutionCount (bot s) - 1) (bot s);
                  buysInFlight := buysInFlight s;
                  sellsInFlight := n |}
| in_flight_progress s b' :
    (* whatever else a run in flight does: the stop-loss map, swaps *)
    semaphore b' = semaphore (bot s) ->
    sellExecutionCount b' = sellExecutionCount (bot s) ->
    step cfg s {| bot := b'; buysInFlight := buysInFlight s;
                  sellsInFlight := sellsInFlight s |}.

Inductive reachable (cfg : BotConfig) : Sys -> Prop :=
| reach_boot : reachable cfg (boot cfg)
| reach_step s s' : reachable cfg s -> step cfg s s' -> reachable cfg s'.

End Admission.
Import Admission.

(* ================================================================== *)
(** ** The entry rule as the specification words it *)

(** "0 < RSI < 30 AND macd.macd > macd.signal (both non-null)". *)
Definition spec_entry_rule (currentRSI : float) (m : MACD) : bool :=
  (0 <? currentRSI)%float && (currentRSI <? 30)%float
  && match macd m, signal m with
     | Some a, Some b => (b <? a)%float
     | _, _ => false
     end.

(* ================================================================== *)
(** ** Concrete runs *)

Module Scenario.

(** A configuration with one permit, a 20% take-profit, a 10% stop-loss,
    a 50% drawdown abort, and three monitoring ticks (6000 / 2000);
    [quoteAmount] is 1.0 of a 9-decimal quote token. *)
Definition cfg : BotConfig :=
  {| quoteAmount := 1000000000; maxTokensAtTheTime := 1; useSnipeList := false;
     autoBuyDelay := 0; autoSellDelay := 0; maxBuyRetries := 3; maxSellRetries := 3;
     takeProfit := 20; Config.stopLoss := 10; trailingStopLoss := true;
     skipSellingIfLostMoreThan := 50; sellSlippage := 20;
     priceCheckInterval := 2000; priceCheckDuration := 6000;
     filterCheckInterval := 0; filterCheckDuration := 0;
     consecutiveMatchCount := 1 |}.


(** [cfg] with an initial amount whose half is not a whole number of raw
    units. *)
Definition cfg_odd : BotConfig :=
  {| quoteAmount := 123456789; maxTokensAtTheTime := 1; useSnipeList := false;
     autoBuyDelay := 0; autoSellDelay := 0; maxBuyRetries := 3; maxSellRetries := 3;
     takeProfit := 20; Config.stopLoss := 10; trailingStopLoss := true;
     skipSellingIfLostMoreThan := 50; sellSlippage := 20;
     priceCheckInterval := 2000; priceCheckDuration := 6000;
     filterCheckInterval := 0; filterCheckDuration := 0;
     consecutiveMatchCount := 1 |}.

(** [cfg] with a take-profit of 12.5 percent. *)
Definition cfg_fraction : BotConfig :=
  {| quoteAmount := 1000000000; maxTokensAtTheTime := 1; useSnipeList := false;
     autoBuyDelay := 0; autoSellDelay := 0; maxBuyRetries := 3; maxSellRetries := 3;
     takeProfit := 12.5; Config.stopLoss := 10; trailingStopLoss := true;
     skipSellingIfLostMoreThan := 50; sellSlippage := 20;
     priceCheckInterval := 2000; priceCheckDuration := 6000;
     filterCheckInterval := 0; filterCheckDuration := 0;
     consecutiveMatchCount := 1 |}.

(** [cfg] with a drawdown setting of [2^54]. *)
Definition cfg_huge_skip : BotConfig :=
  {| quoteAmount := 1000000000; maxTokensAtTheTime := 1; useSnipeList := false;
     autoBuyDelay := 0; autoSellDelay := 0; maxBuyRetries := 3; maxSellRetries := 3;
     takeProfit := 20; Config.stopLoss := 10; trailingStopLoss := true;
     skipSellingIfLostMoreThan := 18014398509481984; sellSlippage := 20;
     priceCheckInterval := 2000; priceCheckDuration := 6000;
     filterCheckInterval := 0; filterCheckDuration := 0;
     consecutiveMatchCount := 1 |}.

Definition fresh : Bot :=
  {| semaphore := 1; sellExecutionCount := 0; stopLoss := ∅; trace := [] |}.

(** The bot while one buy holds the only permit. *)
Definition saturated : Bot :=
  {| semaphore := 0; sellExecutionCount := 0; stopLoss := ∅; trace := [EvAcquire] |}.

Definition mint : string := "So1anaMint".

(** The bot while it holds a position in [mint] whose floor is 0.9. *)
Definition holding : Bot :=
  {| semaphore := 1; sellExecutionCount := 1;
     stopLoss := {[ mint := 900000000 ]}; trace := [EvSellSignal 0] |}.

(** 35 successive prices, each different from the one before: a crash
    from 50 to 2, a slide to 1, a jump to 10 and a slide to 9.79, then
    9.7835556983481595 (written exactly). *)
#[warnings="-inexact-float"] Definition series : list float :=
  [50; 2; 1.9; 1.8; 1.7; 1.6; 1.5; 1.4; 1.3; 1.2; 1.1; 1;
   10; 9.99; 9.98; 9.97; 9.96; 9.95; 9.94; 9.93; 9.92; 9.91; 9.9;
   9.89; 9.88; 9.87; 9.86; 9.85; 9.84; 9.83; 9.82; 9.81; 9.8; 9.79;
   0x1.3912e3665ffe4p+3]%float.

(** The pool quotes [series], one price per tick, and keeps quoting the
    last one. *)
Definition series_feed (k : nat) : outcome float :=
  Resolved (nth k series 0x1.3912e3665ffe4p+3%float).

(** The gate's locals when the tick with [timesChecked = 34] starts. *)
Definition before_tick_34 : GateState :=
  {| timesChecked := 34; prices := firstn 34 series; slept := repeat 1000 34 |}.


(** Quotes of the exit monitor, one per tick, from a list; a tick past
    the list fails to fetch. *)
Definition quotes (l : list Z) (k : nat) : outcome Z :=
  match nth_error l k with
  | Some a => Resolved a
  | None => Rejected
  end.

(** A sell whose collaborators all answer and whose swaps never confirm. *)
Definition sell_env (found : option string) (l : list Z) : SellEnv :=
  {| poolData := Resolved found; sellMarket := Resolved tt;
     sellPoolKeys := Resolved tt; quoteFeed := quotes l;
     sellSwap := fun _ => Resolved {| confirmed := false |} |}.

(** A buy whose filter passes at once (no filter ticks configured) and
    whose entry gate sees [series_feed], which gives no buy signal. *)
Definition buy_env : BuyEnv :=
  {| inSnipeList := false; buyLookups := Resolved tt; buyPoolKeys := Resolved tt;
     filterFeed := fun _ => Resolved true; priceFeed := series_feed;
     startTime := 0; now := fun i => Z.of_nat i;
     buySwap := fun _ => Resolved {| confirmed := false |} |}.

(** The first 34 prices of [series] followed by 9.875: at the 35th tick
    the entry rule of the code holds. *)
Definition entry_feed (k : nat) : outcome float :=
  Resolved (nth k (firstn 34 series ++ [9.875%float]) 9.875%float).

(** A buy that passes both gates; attempt [i] reads the clock at
    [clock i] ms after the start and its swap confirms when
    [confirms i]. *)
Definition entering_env (confirms : nat -> bool) (clock : nat -> Z) : BuyEnv :=
  {| inSnipeList := false; buyLookups := Resolved tt; buyPoolKeys := Resolved tt;
     filterFeed := fun _ => Resolved true; priceFeed := entry_feed;
     startTime := 0; now := clock;
     buySwap := fun i => Resolved {| confirmed := confirms i |} |}.

(** A configuration whose filter check asks for 2 positive ticks in a row
    within 4 ticks (4000 / 1000). *)
Definition cfg_filter : BotConfig :=
  {| quoteAmount := 1000000000; maxTokensAtTheTime := 2; useSnipeList := false;
     autoBuyDelay := 0; autoSellDelay := 0; maxBuyRetries := 3; maxSellRetries := 3;
     takeProfit := 20; Config.stopLoss := 10; trailingStopLoss := true;
     skipSellingIfLostMoreThan := 50; sellSlippage := 20;
     priceCheckInterval := 2000; priceCheckDuration := 6000;
     filterCheckInterval := 1000; filterCheckDuration := 4000;
     consecutiveMatchCount := 2 |}.

(** Filter evaluations from a list, one per tick; a tick past the list
    throws. *)
Definition evaluations (l : list bool) (k : nat) : outcome bool :=
  match nth_error l k with
  | Some v => Resolved v
  | None => Rejected
  end.

(** The system after a buy was admitted and a sell then entered. *)
Definition one_buy : Sys :=
  {| bot := saturated; buysInFlight := 1; sellsInFlight := 0 |}.
Definition one_buy_one_sell : Sys :=
  {| bot := set_sellExecutionCount 1 saturated; buysInFlight := 1; sellsInFlight := 1 |}.

End Scenario.

(** How many calls of [waitForSellSignal] a trace records. *)
Definition signal_calls (evs : list Event) : nat :=
  length (List.filter (fun e => match e with EvSellSignal _ => true | _ => false end) evs).

Definition is_swap (e : Event) : Prop :=
  match e with EvBuySwap _ | EvSellSwap _ => True | _ => False end.

(* ================================================================== *)
(** ** Vocabulary of the properties *)

(** The parts of the bot a monitoring run leaves alone. *)
Definition same_counters (b b' : Bot) : Prop :=
  semaphore b' = semaphore b
  /\ sellExecutionCount b' = sellExecutionCount b
  /\ trace b' = trace b.

(** A configuration number that the SDK accepts. *)
Definition parses (value : float) : bool :=
  match parseBigNumberish value with
  | Resolved _ => true
  | Rejected => false
  end.

(** The amounts of [waitForSellSignal] for percentages that parsed to the
    integers [pct]: the take-profit amount, the floor of a fresh position,
    the candidate floor of a tick that observes [amountOut], and the
    threshold of the drawdown check ([rest] is what
    [100 - skipSellingIfLostMoreThan] parsed to). *)
Definition takeProfit_amount (cfg : BotConfig) (pct : Z) : Z :=
  quoteAmount cfg + fraction_of (quoteAmount cfg) pct.

Definition initial_stopLoss (cfg : BotConfig) (pct : Z) : Z :=
  quoteAmount cfg - fraction_of (quoteAmount cfg) pct.

Definition trailing_candidate (pct amountOut : Z) : Z :=
  amountOut - fraction_of amountOut pct.

Definition stopSellingAmount (cfg : BotConfig) (rest : Z) : Z :=
  fraction_of (quoteAmount cfg) rest.

(** The floor a run of [waitForSellSignal] starts with: the entry it
    finds, or the one it creates; [None] when creating it throws. *)
Definition entry_floor (cfg : BotConfig) (mint : string) (b : Bot) : option Z :=
  match stopLoss b !! mint with
  | Some v => Some v
  | None =>
      match parseBigNumberish (Config.stopLoss cfg) with
      | Resolved pct => Some (initial_stopLoss cfg pct)
      | Rejected => None
      end
  end.

(** The local [stopLoss] after the trailing update of a tick that started
    with [sl] and fetched [amountOut], or the exception of line 656. *)
Definition trailing_floor (cfg : BotConfig) (amountOut sl : Z) : outcome Z :=
  if trailingStopLoss cfg then
    match parseBigNumberish (Config.stopLoss cfg) with
    | Resolved pct => Resolved (Z.max sl (trailing_candidate pct amountOut))
    | Rejected => Rejected
    end
  else Resolved sl.

(** The threshold of the drawdown check, if one is configured, or the
    exception of line 672. *)
Definition veto_threshold (cfg : BotConfig) : outcome (option Z) :=
  if (0 <? skipSellingIfLostMoreThan cfg)%float then
    match parseBigNumberish (100 - skipSellingIfLostMoreThan cfg)%float with
    | Resolved rest => Resolved (Some (stopSellingAmount cfg rest))
    | Rejected => Rejected
    end
  else Resolved None.

Definition vetoes (threshold : option Z) (amountOut : Z) : bool :=
  match threshold with
  | Some t => amountOut <? t
  | None => false
  end.

(** The three SDK calls in front of the monitoring loop (lines 621, 627,
    636) all accept their number; line 627 runs only when the mint has no
    entry yet. *)
Definition prelude_passes (cfg : BotConfig) (mint : string) (b : Bot) : bool :=
  parses (takeProfit cfg)
  && match stopLoss b !! mint with
     | Some _ => true
     | None => parses (Config.stopLoss cfg)
     end
  && parses (sellSlippage cfg).

(** A run that leaves the two admission counters alone and appends to the
    trace only events that satisfy [ok]. *)
Definition emits (ok : Event -> Prop) (b b' : Bot) : Prop :=
  semaphore b' = semaphore b
  /\ sellExecutionCount b' = sellExecutionCount b
  /\ exists evs, trace b' = trace b ++ evs /\ Forall ok evs.

Definition not_signal (e : Event) : Prop :=
  match e with EvSellSignal _ => False | _ => True end.

(** A run that calls [waitForSellSignal] once, with retry index 0, and
    leaves the two admission counters alone. *)
Definition signals_once (b b' : Bot) : Prop :=
  semaphore b' = semaphore b
  /\ sellExecutionCount b' = sellExecutionCount b
  /\ exists evs, trace b' = trace b ++ EvSellSignal 0 :: evs /\ Forall not_signal evs.

(** The pool entry and the token balance that lead [sell] into its retry
    loop. *)
Definition reaches_retries (env : SellEnv) (amount : Z) : Prop :=
  (exists mint, poolData env = Resolved (Some mint))
  /\ amount <> 0
  /\ sellMarket env = Resolved tt
  /\ sellPoolKeys env = Resolved tt.

(** What the counters of the bot say about the runs in flight. *)
Definition counters_agree (cfg : BotConfig) (s : Sys) : Prop :=
  semaphore (bot s) = maxTokensAtTheTime cfg - Z.of_nat (buysInFlight s)
  /\ sellExecutionCount (bot s) = Z.of_nat (sellsInFlight s)
  /\ Z.of_nat (buysInFlight s) <= Z.max 0 (maxTokensAtTheTime cfg).

(** No entry of a price list equals ([===]) the entry before it. *)
Definition no_repeat (l : list float) : Prop :=
  forall i : nat, (S i < length l)%nat -> (at_ l (S i) =? at_ l i)%float = false.

(** How many of the first [n] fetches of a feed succeed. *)
Definition fetched_count {A : Type} (feed : nat -> outcome A) (n : nat) : nat :=
  length (List.filter (fun k => match feed k with Resolved _ => true | Rejected => false end)
            (seq 0 n)).

(** Whether a swap attempt came back confirmed. *)
Definition confirms (o : outcome SwapResult) : bool :=
  match o with
  | Resolved r => confirmed r
  | Rejected => false
  end.

(** The bot after [log_event e]. *)
Definition recorded (e : Event) (b : Bot) : Bot :=
  {| semaphore := semaphore b; sellExecutionCount := sellExecutionCount b;
     stopLoss := stopLoss b; trace := trace b ++ [e] |}.

(** The parts of the bot that a swap attempt leaves alone. *)
Definition same_but_trace (b b' : Bot) : Prop :=
  semaphore b' = semaphore b
  /\ sellExecutionCount b' = sellExecutionCount b
  /\ stopLoss b' = stopLoss b.

(** What an evaluation of the exit signal came to: a boolean, or [None]
    for an exception; and the completion of [waitForSellSignal]'s body that
    says so. *)
Definition answer_completion (answer : option bool) : completion bool unit :=
  match answer with
  | Some r => Return r
  | None => Throw
  end.

(** The index of the first attempt of [sell] that can swap: attempt 0
    after an answer, attempt 1 when the evaluation threw. *)
Definition first_swap (answer : option bool) : nat :=
  match answer with
  | Some _ => 0
  | None => 1
  end.

(** Both gates of [buy] let it through: the lookups and the pool keys
    succeed, the filter check (skipped in snipe-list mode) answers [true],
    and the entry gate gives a buy signal. *)
Definition gates_passed (cfg : BotConfig) (env : BuyEnv) : Prop :=
  buyLookups env = Resolved tt
  /\ buyPoolKeys env = Resolved tt
  /\ (useSnipeList cfg = false ->
      forall b0 : Bot,
        filterMatch (R := unit) cfg (filterFeed env) b0 = Some (Normal true, b0))
  /\ exists st : GateState, waitForBuySignal cfg (priceFeed env) = Some (true, st).

(** Break every hypothesis [a && b = true] into its two halves. *)
Ltac split_andb :=
  repeat match goal with
         | H : (_ && _)%bool = true |- _ =>
             let H1 := fresh H in
             let H2 := fresh H in
             apply andb_prop in H; destruct H as [H1 H2]
         end.

(* ================================================================== *)
(** * Properties *)

(** ** Loops over index ranges *)

Lemma for_range_empty {S : Type} (a b : nat) (body : nat -> S -> S) (init : S) :
  (b <= a)%nat -> for_range a b body init = init.
Proof.
  intros Hle. unfold for_range.
  replace (b - a)%nat with 0%nat by lia. reflexivity.
Qed.

(** A loop whose body pushes one element per iteration onto the list that
    [proj] selects from its state grows that list by the number of
    iterations. *)
Lemma fold_push_length {S : Type} (proj : S -> list float) (body : nat -> S -> S) :
  (forall i s, length (proj (body i s)) = Datatypes.S (length (proj s))) ->
  forall (l : list nat) (s : S),
    length (proj (fold_left (fun s i => body i s) l s)) = (length (proj s) + length l)%nat.
Proof.
  intros Hpush l. induction l as [|i l IH]; intros s; simpl.
  - lia.
  - rewrite IH, Hpush. lia.
Qed.

Lemma macdLine_length (data : list float) :
  length (macdLine_of data) = (length data - longPeriod)%nat.
Proof.
  unfold macdLine_of, for_range.
  rewrite (fold_push_length snd (macd_body data)).
  - simpl. rewrite length_seq. reflexivity.
  - intros i [[s l] line]. simpl. rewrite length_app. simpl. lia.
Qed.

Lemma signal_length (macdLine : list float) :
  length (signal_of macdLine) = Datatypes.S (length macdLine - signalPeriod).
Proof.
  unfold signal_of, for_range.
  rewrite (fold_push_length snd (signal_body macdLine)).
  - simpl. rewrite length_seq. reflexivity.
  - intros i [e sig]. simpl. rewrite length_app. simpl. lia.
Qed.

(** ** NaN *)

Lemma is_nan_of_spec (x : float) : Prim2SF x = SpecFloat.S754_nan -> is_nan x = true.
Proof.
  intros H. unfold is_nan. rewrite FloatAxioms.eqb_spec, H. reflexivity.
Qed.

Lemma add_nan_r (x : float) : Prim2SF (x + nan)%float = SpecFloat.S754_nan.
Proof.
  rewrite FloatAxioms.add_spec. change (Prim2SF nan) with SpecFloat.S754_nan.
  destruct (Prim2SF x); reflexivity.
Qed.

Lemma div_nan_l (x y : float) :
  Prim2SF x = SpecFloat.S754_nan -> Prim2SF (x / y)%float = SpecFloat.S754_nan.
Proof.
  intros H. rewrite FloatAxioms.div_spec, H. reflexivity.
Qed.

(** With eight MACD values the ninth read of the seed loop is past the end
    and the seed is NaN. *)
Lemma signal_seed_nan (macdLine : list float) :
  length macdLine = 8%nat -> is_nan (signal_seed macdLine) = true.
Proof.
  intros Hlen. apply is_nan_of_spec. unfold signal_seed. apply div_nan_l.
  unfold seed_reads, signalPeriod.
  change (seq 0 9) with (seq 0 8 ++ [8%nat]).
  rewrite fold_left_app. simpl fold_left at 1.
  replace (at_ macdLine 8) with nan.
  - apply add_nan_r.
  - unfold at_. symmetry. apply nth_overflow. lia.
Qed.

(** ** MomentumSignal *)

Lemma macd_null_below_guard (data : list float) :
  (length data < 34)%nat -> calculateMACDv2 data = {| macd := None; signal := None |}.
Proof.
  intros Hlen. unfold calculateMACDv2.
  replace (length data <? longPeriod + signalPeriod - 1)%nat with true; [reflexivity|].
  symmetry. apply Nat.ltb_lt. unfold longPeriod, signalPeriod. simpl. lia.
Qed.

Lemma macd_values_from_guard (data : list float) :
  (34 <= length data)%nat ->
  calculateMACDv2 data =
    {| macd := Some (at_last (macdLine_of data));
       signal := Some (at_last (signal_of (macdLine_of data))) |}.
Proof.
  intros Hlen. unfold calculateMACDv2.
  replace (length data <? longPeriod + signalPeriod - 1)%nat with false; [reflexivity|].
  symmetry. apply Nat.ltb_ge. unfold longPeriod, signalPeriod. simpl. lia.
Qed.

(** On every input of exactly 34 samples, the shortest the guard lets
    through, [macdLine] has 8 entries, the seed loop reads [macdLine[8]],
    and the returned signal is NaN. *)
Lemma macd_34_samples (data : list float) :
  length data = 34%nat ->
  In (8, 8)%nat (macd_reads data)
  /\ ~ Forall in_bounds (macd_reads data)
  /\ exists m s, calculateMACDv2 data = {| macd := Some m; signal := Some s |}
                 /\ is_nan s = true.
Proof.
  intros Hlen.
  assert (Hline : length (macdLine_of data) = 8%nat).
  { rewrite macdLine_length, Hlen. reflexivity. }
  assert (Hin : In (8, 8)%nat (macd_reads data)).
  { unfold macd_reads. rewrite Hline. apply in_or_app. right.
    apply in_or_app. left. simpl. do 8 right. left. reflexivity. }
  split; [exact Hin|]. split.
  - intros Hall. rewrite List.Forall_forall in Hall.
    specialize (Hall _ Hin). unfold in_bounds in Hall. simpl in Hall. lia.
  - exists (at_last (macdLine_of data)), (at_last (signal_of (macdLine_of data))).
    split; [apply macd_values_from_guard; lia|].
    unfold signal_of. rewrite for_range_empty by (rewrite Hline; unfold signalPeriod; lia).
    simpl. apply signal_seed_nan, Hline.
Qed.

(** From 35 samples on, every read of [macdLine] and [signal] is in
    range and both returned values are numbers. *)
Lemma macd_35_samples (data : list float) :
  (35 <= length data)%nat ->
  Forall in_bounds (macd_reads data)
  /\ exists m s, calculateMACDv2 data = {| macd := Some m; signal := Some s |}.
Proof.
  intros Hlen.
  assert (Hline : (9 <= length (macdLine_of data))%nat).
  { rewrite macdLine_length. unfold longPeriod. lia. }
  split.
  - unfold macd_reads. rewrite !List.Forall_app. repeat split.
    + apply List.Forall_forall. intros [i n] Hi. apply in_map_iff in Hi.
      destruct Hi as (j & Hj & Hseq). inversion Hj; subst.
      apply in_seq in Hseq. unfold in_bounds. simpl. lia.
    + apply List.Forall_forall. intros [i n] Hi. apply in_map_iff in Hi.
      destruct Hi as (j & Hj & Hseq). inversion Hj; subst.
      unfold seed_reads, signalPeriod in Hseq. apply in_seq in Hseq.
      unfold in_bounds. simpl. lia.
    + apply List.Forall_forall. intros [i n] Hi. apply in_map_iff in Hi.
      destruct Hi as (j & Hj & Hseq). inversion Hj; subst.
      unfold signalPeriod in Hseq. apply in_seq in Hseq.
      unfold in_bounds. simpl. lia.
    + repeat constructor; unfold in_bounds; simpl.
      * destruct (length (macdLine_of data)); lia.
      * rewrite signal_length. lia.
  - eexists _, _. apply macd_values_from_guard. lia.
Qed.

(** C8, at the shortest input the guard of [calculateMACDv2] lets through:
    for the first 34 prices of [Scenario.series] the function does not
    return the null pair, its seed loop reads [macdLine[8]] although
    [macdLine] holds only 8 values, and the signal it returns is NaN. *)
Theorem macd_guard_lets_34_samples_through :
  let data := firstn 34 Scenario.series in
  length data = 34%nat
  /\ length (macdLine_of data) = 8%nat
  /\ In (8, 8)%nat (macd_reads data)
  /\ exists m s, calculateMACDv2 data = {| macd := Some m; signal := Some s |}
                 /\ is_nan s = true.
Proof.
  intros data.
  assert (Hlen : length data = 34%nat) by reflexivity.
  destruct (macd_34_samples data Hlen) as (Hin & _ & Hnan).
  split; [exact Hlen|]. split; [|split; assumption].
  rewrite macdLine_length, Hlen. reflexivity.
Qed.

(** C10: on fewer than 15 prices the smoothing loop of [calculateRSIv2]
    does not run and the function returns exactly 0; from the 60th tick
    on, [waitForBuySignal]'s early-abort condition then holds (MACD is
    null on so short a history). *)
Theorem rsi_zero_below_15_samples (prices : list float) :
  (length prices < 15)%nat ->
  calculateRSIv2 prices = 0%float
  /\ forall timesChecked : nat,
       (60 <= timesChecked)%nat ->
       abort_condition timesChecked (calculateRSIv2 prices) (calculateMACDv2 prices) = true.
Proof.
  intros Hlen.
  assert (Hrsi : calculateRSIv2 prices = 0%float).
  { unfold calculateRSIv2.
    destruct (for_range 0 period (sums_body (delta_of prices)) (0%float, 0%float))
      as [gainSum lossSum].
    rewrite for_range_empty by (unfold period; lia). reflexivity. }
  split; [exact Hrsi|].
  intros tc Htc. unfold abort_condition.
  rewrite Hrsi, macd_null_below_guard by lia.
  replace (maxSignalWaitTries <=? tc)%nat with true
    by (symmetry; apply Nat.leb_le; unfold maxSignalWaitTries; lia).
  reflexivity.
Qed.

Lemma rsi_zero_below_15_samples_witness :
  (length (firstn 14 Scenario.series) < 15)%nat
  /\ calculateRSIv2 (firstn 14 Scenario.series) = 0%float.
Proof.
  split.
  - simpl. lia.
  - apply (rsi_zero_below_15_samples (firstn 14 Scenario.series)). simpl. lia.
Defined.

(** ** EntryGate *)

Lemma timesToCheck_300 : timesToCheck = 300%nat.
Proof. reflexivity. Qed.

#[local] Opaque timesToCheck.

(** A positive number is not equal to zero. *)
Lemma positive_not_zero (r : float) : (0 <? r)%float = true -> (r =? 0)%float = false.
Proof.
  rewrite FloatAxioms.ltb_spec, FloatAxioms.eqb_spec.
  change (Prim2SF 0) with (SpecFloat.S754_zero false).
  destruct (Prim2SF r) as [s|s| |s m e]; cbn; try discriminate; auto;
    destruct s; cbn; try discriminate; auto.
Qed.

(** The rule of the code implies the rule of the specification. *)
Lemma buy_condition_sound (r : float) (m : MACD) :
  buy_condition r m = true -> spec_entry_rule r m = true.
Proof.
  unfold buy_condition, spec_entry_rule, gt_num.
  intros H. split_andb. rewrite !andb_true_iff. repeat split; assumption.
Qed.

(** The converse needs both MACD values to be truthy, not merely
    non-null. *)
Lemma buy_condition_complete (r : float) (m : MACD) :
  spec_entry_rule r m = true ->
  truthy (macd m) = true -> truthy (signal m) = true ->
  buy_condition r m = true.
Proof.
  unfold buy_condition, spec_entry_rule, gt_num.
  intros H Hm Hs. split_andb. rewrite !andb_true_iff. repeat split; assumption.
Qed.

(** A tick returns [true] exactly when the code's rule holds at it. *)
Lemma signal_try_true (price : float) (st : GateState) :
  let prices' := push_price (prices st) price in
  fst (signal_try (Resolved price) st) = Return true
  <-> buy_condition (calculateRSIv2 prices') (calculateMACDv2 prices') = true.
Proof.
  intros prices'. unfold signal_try. fold prices'.
  destruct (abort_condition _ _ _) eqn:Habort.
  - cbn [fst]. split; [discriminate|]. intros Hbuy. exfalso.
    unfold abort_condition in Habort. unfold buy_condition in Hbuy.
    split_andb.
    match goal with
    | Hpos : (0 <? _)%float = true |- _ => apply positive_not_zero in Hpos
    end.
    congruence.
  - destruct (buy_condition _ _); cbn [fst]; split; intros; congruence.
Qed.

(** What one tick does to the counter and to the sleeps. *)
Lemma signal_tick_effect (fetched : outcome float) (st : GateState) :
  timesChecked (snd (signal_tick fetched st)) = S (timesChecked st)
  /\ (slept (snd (signal_tick fetched st)) = slept st
      \/ slept (snd (signal_tick fetched st)) = slept st ++ [1000]).
Proof.
  unfold signal_tick, signal_try. destruct fetched as [price|].
  - destruct (abort_condition _ _ _); [cbn [snd timesChecked slept]; auto|].
    destruct (buy_condition _ _); cbn [snd timesChecked slept]; auto.
  - cbn [snd timesChecked slept]. auto.
Qed.

Lemma signal_loop_unfold (fuel : nat) (feed : nat -> outcome float) (st : GateState) :
  signal_loop (S fuel) feed st =
    match signal_tick (feed (timesChecked st)) st with
    | (Return b, st') => Some (b, st')
    | (_, st') =>
        if (timesChecked st' <? timesToCheck)%nat
        then signal_loop fuel feed st'
        else Some (false, st')
    end.
Proof. reflexivity. Qed.

(** With the fuel [waitForBuySignal] gives it the loop always finishes,
    after at most 300 ticks, and sleeps 1000 ms or not at all in each. *)
Lemma signal_loop_finishes (feed : nat -> outcome float) (fuel : nat) :
  forall st : GateState,
    (timesChecked st < 300)%nat ->
    (300 <= timesChecked st + fuel)%nat ->
    Forall (eq 1000) (slept st) ->
    exists (b : bool) (st' : GateState),
      signal_loop fuel feed st = Some (b, st')
      /\ (timesChecked st < timesChecked st' <= 300)%nat
      /\ Forall (eq 1000) (slept st').
Proof.
  induction fuel as [|fuel IH]; intros st Hlt Hfuel Hslept; [lia|].
  rewrite signal_loop_unfold.
  destruct (signal_tick_effect (feed (timesChecked st)) st) as [Htc Hsl].
  destruct (signal_tick (feed (timesChecked st)) st) as [c st'] eqn:Htick.
  cbn [snd] in Htc, Hsl.
  assert (Hslept' : Forall (eq 1000) (slept st')).
  { destruct Hsl as [-> | ->]; [assumption|].
    apply List.Forall_app. split; [assumption|]. repeat constructor. }
  assert (Hdone : forall b : bool, exists (b0 : bool) (st0 : GateState),
             Some (b, st') = Some (b0, st0)
             /\ (timesChecked st < timesChecked st0 <= 300)%nat
             /\ Forall (eq 1000) (slept st0)).
  { intros b. exists b, st'. repeat split; try assumption; lia. }
  assert (Hnext : exists (b : bool) (st0 : GateState),
             (if (timesChecked st' <? timesToCheck)%nat
              then signal_loop fuel feed st' else Some (false, st')) = Some (b, st0)
             /\ (timesChecked st < timesChecked st0 <= 300)%nat
             /\ Forall (eq 1000) (slept st0)).
  { rewrite timesToCheck_300.
    destruct (Nat.ltb_spec (timesChecked st') 300) as [Hcmp|Hcmp].
    - destruct (IH st') as (b & st0 & Hrun & Hb & Hs); [lia|lia|assumption|].
      exists b, st0. repeat split; try assumption; lia.
    - apply Hdone. }
  destruct c; try exact Hnext. apply Hdone.
Qed.

Lemma fetched_count_S {A : Type} (feed : nat -> outcome A) (n : nat) :
  fetched_count feed (S n)
  = (fetched_count feed n
     + match feed n with Resolved _ => 1 | Rejected => 0 end)%nat.
Proof.
  unfold fetched_count. rewrite seq_S, List.filter_app, length_app. simpl.
  destruct (feed n); reflexivity.
Qed.





(** C7 fails at a tick whose MACD value is exactly 0: when the gate has
    seen the first 34 prices of [Scenario.series] and fetches the 35th, RSI
    is a number strictly between 0 and 30, the MACD value is 0 and the signal
    value is negative, both non-null with MACD above signal, so the rule of the
    specification holds; the code's rule does not, the tick does not return
    [true], and the whole run returns [false] after 300 ticks. *)
Theorem buy_signal_missed_at_zero_macd :
  let prices := push_price (firstn 34 Scenario.series) 0x1.3912e3665ffe4p+3%float in
  let r := calculateRSIv2 prices in
  let m := calculateMACDv2 prices in
  prices = Scenario.series
  /\ (0 <? r)%float = true /\ (r <? 30)%float = true
  /\ macd m = Some 0%float
  /\ (exists s, signal m = Some s /\ (s <? 0)%float = true)
  /\ spec_entry_rule r m = true
  /\ buy_condition r m = false
  /\ fst (signal_try (Resolved 0x1.3912e3665ffe4p+3%float) Scenario.before_tick_34)
     = Normal tt
  /\ option_map (fun r => (fst r, timesChecked (snd r)))
       (waitForBuySignal Scenario.cfg Scenario.series_feed) = Some (false, 300%nat).
Proof.
  cbv zeta. repeat split; try (vm_compute; reflexivity).
  eexists. split; vm_compute; reflexivity.
Qed.

(** [Scenario.before_tick_34] is where the gate really stands after 34
    ticks on [Scenario.series_feed]: resuming from it gives the result of
    the whole run. *)
Lemma series_feed_reaches_tick_34 :
  exists fuel,
    fuel = 266%nat
    /\ signal_loop fuel Scenario.series_feed Scenario.before_tick_34
       = waitForBuySignal Scenario.cfg Scenario.series_feed.
Proof.
  exists 266%nat. split; [reflexivity|]. vm_compute. reflexivity.
Qed.

(** ** ExitMonitor *)

(** The trailing update in closed form. *)
Lemma trailing_update_cases (cfg : BotConfig) (mint : string) (a sl : Z) (b : Bot) :
  trailing_update cfg mint a sl b =
    match trailing_floor cfg a sl with
    | Resolved sl' =>
        Some (Normal sl',
              if sl <? sl' then set_stopLoss (<[mint := sl']> (stopLoss b)) b else b)
    | Rejected => Some (Throw, b)
    end.
Proof.
  unfold trailing_update, trailing_floor, percent_of, bind, sync, ret, stopLoss_set, modify.
  destruct (trailingStopLoss cfg); [|rewrite Z.ltb_irrefl; reflexivity].
  destruct (parseBigNumberish (Config.stopLoss cfg)) as [pct|]; [|reflexivity].
  fold (trailing_candidate pct a).
  destruct (Z.ltb_spec sl (trailing_candidate pct a)) as [Hraise | Hkeep].
  - rewrite Z.max_r by lia.
    replace (sl <? trailing_candidate pct a) with true
      by (symmetry; apply Z.ltb_lt; exact Hraise).
    reflexivity.
  - rewrite Z.max_l by lia. rewrite Z.ltb_irrefl. reflexivity.
Qed.

(** The drawdown check in closed form. *)
Lemma drawdown_check_cases (cfg : BotConfig) (mint : string) (a : Z) (b : Bot) :
  drawdown_check cfg mint a b =
    match veto_threshold cfg with
    | Resolved threshold =>
        if vetoes threshold a
        then Some (Return false, set_stopLoss (delete mint (stopLoss b)) b)
        else Some (Normal tt, b)
    | Rejected => Some (Throw, b)
    end.
Proof.
  unfold drawdown_check, veto_threshold, vetoes, percent_of, bind, sync, ret, return_,
    stopLoss_delete, modify.
  destruct (0 <? skipSellingIfLostMoreThan cfg)%float; [|reflexivity].
  destruct (parseBigNumberish (100 - skipSellingIfLostMoreThan cfg)%float) as [rest|];
    [|reflexivity].
  fold (stopSellingAmount cfg rest).
  destruct (a <? stopSellingAmount cfg rest); reflexivity.
Qed.

(** One monitoring tick that fetched [amountOut], in closed form: the
    trailing update first, then the drawdown veto, then the stop-loss and
    take-profit triggers. An exception of line 656 ends the tick with
    nothing changed; one of line 672 ends it after the raise of the floor. *)
Lemma monitor_tick_fetched (cfg : BotConfig) (mint : string) (tp amountOut sl : Z)
    (b : Bot) :
  monitor_tick cfg mint tp (Resolved amountOut) sl b =
    match trailing_floor cfg amountOut sl with
    | Rejected => Some (Normal sl, b)
    | Resolved sl' =>
        let b1 := if sl <? sl' then set_stopLoss (<[mint := sl']> (stopLoss b)) b else b in
        let closed := set_stopLoss (delete mint (stopLoss b1)) b1 in
        match veto_threshold cfg with
        | Rejected => Some (Normal sl', b1)
        | Resolved threshold =>
            if vetoes threshold amountOut then Some (Return false, closed)
            else if amountOut <? sl' then Some (Break, closed)
            else if tp <? amountOut then Some (Break, closed)
            else Some (Normal sl', b1)
        end
    end.
Proof.
  unfold monitor_tick, monitor_try. unfold try_catch at 1. unfold bind at 1.
  cbn [await]. unfold bind at 1. rewrite trailing_update_cases.
  destruct (trailing_floor cfg amountOut sl) as [sl'|]; [|reflexivity].
  cbv zeta.
  set (b1 := if sl <? sl' then set_stopLoss (<[mint := sl']> (stopLoss b)) b else b).
  unfold try_catch, monitor_checks. unfold bind at 1 2. rewrite drawdown_check_cases.
  destruct (veto_threshold cfg) as [threshold|]; [|reflexivity].
  destruct (vetoes threshold amountOut); [reflexivity|].
  unfold bind, ret, break_, stopLoss_delete, modify.
  destruct (amountOut <? sl'); [reflexivity|].
  destruct (tp <? amountOut); reflexivity.
Qed.

(** A tick whose fetch fails changes nothing. *)
Lemma monitor_tick_failed (cfg : BotConfig) (mint : string) (tp sl : Z) (b : Bot) :
  monitor_tick cfg mint tp Rejected sl b = Some (Normal sl, b).
Proof. reflexivity. Qed.

Lemma lookup_set_stopLoss (m : gmap string Z) (b : Bot) :
  stopLoss (set_stopLoss m b) = m.
Proof. reflexivity. Qed.

Lemma same_counters_refl (b : Bot) : same_counters b b.
Proof. repeat split. Qed.

Lemma same_counters_trans (b1 b2 b3 : Bot) :
  same_counters b1 b2 -> same_counters b2 b3 -> same_counters b1 b3.
Proof. unfold same_counters. intros (?&?&?) (?&?&?). repeat split; congruence. Qed.

Lemma same_counters_set_stopLoss (m : gmap string Z) (b : Bot) :
  same_counters b (set_stopLoss m b).
Proof. repeat split. Qed.

(** What the trailing update leaves: a local [sl' >= sl], stored when it
    was raised. *)
Lemma trailing_floor_raised (cfg : BotConfig) (mint : string) (a sl sl' : Z) (b : Bot) :
  trailing_floor cfg a sl = Resolved sl' ->
  let b1 := if sl <? sl' then set_stopLoss (<[mint := sl']> (stopLoss b)) b else b in
  sl <= sl'
  /\ same_counters b b1
  /\ (forall other : string, other <> mint -> stopLoss b1 !! other = stopLoss b !! other)
  /\ (stopLoss b !! mint = Some sl -> stopLoss b1 !! mint = Some sl')
  /\ (sl' <> sl ->
      trailingStopLoss cfg = true
      /\ exists pct, parseBigNumberish (Config.stopLoss cfg) = Resolved pct
                     /\ sl' = trailing_candidate pct a /\ sl < sl').
Proof.
  intros Hfloor b1. unfold trailing_floor in Hfloor.
  assert (Hle : sl <= sl' /\ (sl' <> sl ->
            trailingStopLoss cfg = true
            /\ exists pct, parseBigNumberish (Config.stopLoss cfg) = Resolved pct
                           /\ sl' = trailing_candidate pct a /\ sl < sl')).
  { destruct (trailingStopLoss cfg).
    - destruct (parseBigNumberish (Config.stopLoss cfg)) as [pct|]; [|discriminate].
      inversion Hfloor; subst sl'. split; [lia|]. intros Hne.
      split; [reflexivity|]. exists pct. split; [reflexivity|]. lia.
    - inversion Hfloor; subst sl'. split; [lia|]. intros Hne. congruence. }
  destruct Hle as [Hle Hraised]. split; [exact Hle|].
  subst b1. destruct (Z.ltb_spec sl sl') as [Hlt | Hge].
  - split; [apply same_counters_set_stopLoss|]. split.
    + intros other Hne. rewrite lookup_set_stopLoss. apply lookup_insert_ne. congruence.
    + split; [|exact Hraised]. intros _. rewrite lookup_set_stopLoss. apply lookup_insert_eq.
  - assert (sl' = sl) by lia. subst sl'.
    split; [apply same_counters_refl|]. split; [reflexivity|]. split; [auto | exact Hraised].
Qed.

(** What one tick does to the stored floor, when the local [stopLoss]
    equals the stored one as the tick starts. *)
Lemma monitor_tick_floor (cfg : BotConfig) (mint : string) (tp : Z)
    (quoted : outcome Z) (sl : Z) (b : Bot) :
  stopLoss b !! mint = Some sl ->
  exists c b',
    monitor_tick cfg mint tp quoted sl b = Some (c, b')
    /\ same_counters b b'
    /\ match stopLoss b' !! mint with
       | Some v =>
           sl <= v /\ c = Normal v
           /\ (v <> sl ->
               trailingStopLoss cfg = true
               /\ exists a pct,
                    quoted = Resolved a
                    /\ parseBigNumberish (Config.stopLoss cfg) = Resolved pct
                    /\ v = trailing_candidate pct a /\ sl < v)
       | None => c = Break \/ c = Return false
       end.
Proof.
  intros Hentry. destruct quoted as [a|].
  - rewrite monitor_tick_fetched.
    destruct (trailing_floor cfg a sl) as [sl'|] eqn:Hfloor.
    2:{ exists (Normal sl), b. split; [reflexivity|]. split; [apply same_counters_refl|].
        rewrite Hentry. split; [lia|]. split; [reflexivity|]. intros Hne. congruence. }
    destruct (trailing_floor_raised cfg mint a sl sl' b Hfloor)
      as (Hle & Hsame & _ & Hstored & Hraised).
    specialize (Hstored Hentry). cbv zeta.
    set (b1 := if sl <? sl' then set_stopLoss (<[mint := sl']> (stopLoss b)) b else b) in *.
    assert (Hkept : exists c b',
              Some (@Normal bool Z sl', b1) = Some (c, b')
              /\ same_counters b b'
              /\ match stopLoss b' !! mint with
                 | Some v => sl <= v /\ c = Normal v
                     /\ (v <> sl -> trailingStopLoss cfg = true
                         /\ exists a0 pct, Resolved a = Resolved a0
                              /\ parseBigNumberish (Config.stopLoss cfg) = Resolved pct
                              /\ v = trailing_candidate pct a0 /\ sl < v)
                 | None => c = Break \/ c = Return false
                 end).
    { exists (Normal sl'), b1. split; [reflexivity|]. split; [exact Hsame|].
      rewrite Hstored. split; [exact Hle|]. split; [reflexivity|].
      intros Hne. destruct (Hraised Hne) as (Htr & pct & Hpct & Hv & Hlt).
      split; [exact Htr|]. exists a, pct. auto. }
    assert (Hclosed : forall c, c = Break \/ c = Return false ->
              exists c0 b',
                Some (c, set_stopLoss (delete mint (stopLoss b1)) b1) = Some (c0, b')
                /\ same_counters b b'
                /\ match stopLoss b' !! mint with
                   | Some v => sl <= v /\ c0 = Normal v
                       /\ (v <> sl -> trailingStopLoss cfg = true
                           /\ exists a0 pct, Resolved a = Resolved a0
                                /\ parseBigNumberish (Config.stopLoss cfg) = Resolved pct
                                /\ v = trailing_candidate pct a0 /\ sl < v)
                   | None => c0 = Break \/ c0 = Return false
                   end).
    { intros c Hc. eexists _, _. split; [reflexivity|]. split.
      - eapply same_counters_trans; [exact Hsame | apply same_counters_set_stopLoss].
      - rewrite lookup_set_stopLoss, lookup_delete_eq. exact Hc. }
    destruct (veto_threshold cfg) as [threshold|]; [|exact Hkept].
    destruct (vetoes threshold a); [apply Hclosed; auto|].
    destruct (a <? sl'); [apply Hclosed; auto|].
    destruct (tp <? a); [apply Hclosed; auto | exact Hkept].
  - rewrite monitor_tick_failed. exists (Normal sl), b.
    split; [reflexivity|]. split; [apply same_counters_refl|].
    rewrite Hentry. split; [lia|]. split; [reflexivity|]. intros Hne. congruence.
Qed.

Lemma below_ratio_bound (n d i : Z) :
  i <> 0 -> 0 <= n -> below_ratio n d i = true -> n <= Z.abs d.
Proof.
  unfold below_ratio. intros Hi Hn.
  destruct (Z.ltb_spec 0 i) as [Hpos|Hneg]; intros H.
  - apply Z.ltb_lt in H. nia.
  - apply Z.ltb_lt in H. nia.
Qed.

(** With the fuel [waitForSellSignal] gives it the monitoring loop always
    returns; the stored floor is then gone or not below the floor the run
    started with, and nothing else of the bot has changed. *)
Lemma monitor_loop_returns (cfg : BotConfig) (mint : string) (tp : Z)
    (feed : nat -> outcome Z) :
  priceCheckInterval cfg <> 0 ->
  forall (fuel timesChecked : nat) (sl : Z) (b : Bot),
    (timesChecked <= Z.abs_nat (priceCheckDuration cfg))%nat ->
    (Z.abs_nat (priceCheckDuration cfg) < timesChecked + fuel)%nat ->
    stopLoss b !! mint = Some sl ->
    exists r b',
      monitor_loop fuel cfg mint tp feed timesChecked sl b = Some (Return r, b')
      /\ same_counters b b'
      /\ match stopLoss b' !! mint with
         | Some v => sl <= v /\ r = true
         | None => True
         end.
Proof.
  intros Hi fuel. induction fuel as [|fuel IH]; intros tc sl b Htc Hfuel Hentry; [lia|].
  cbn [monitor_loop].
  destruct (monitor_tick_floor cfg mint tp (feed tc) sl b Hentry)
    as (c & b' & Htick & Hsame & Hfloor).
  rewrite Htick.
  destruct (stopLoss b' !! mint) as [v|] eqn:Hv.
  - destruct Hfloor as (Hle & -> & _).
    destruct (below_ratio _ _ _) eqn:Hmore.
    + apply below_ratio_bound in Hmore; [|assumption|lia].
      destruct (IH (S tc) v b') as (r & b'' & Hrun & Hsame' & Hfloor'); [lia|lia|assumption|].
      exists r, b''. split; [exact Hrun|]. split.
      * eapply same_counters_trans; eassumption.
      * destruct (stopLoss b'' !! mint); [|exact I].
        destruct Hfloor' as [Hle' Hr]. split; [lia|assumption].
    + exists true, b'. split; [reflexivity|]. split; [assumption|].
      rewrite Hv. split; [assumption|reflexivity].
  - destruct Hfloor as [-> | ->].
    + exists true, b'. split; [reflexivity|]. split; [assumption|]. rewrite Hv. exact I.
    + exists false, b'. split; [reflexivity|]. split; [assumption|]. rewrite Hv. exact I.
Qed.

(** [stopLoss_init] in closed form. *)
Lemma stopLoss_init_cases (cfg : BotConfig) (mint : string) (b : Bot) :
  stopLoss_init cfg mint b =
    match stopLoss b !! mint with
    | Some v => Some (Normal v, b)
    | None =>
        match parseBigNumberish (Config.stopLoss cfg) with
        | Resolved pct =>
            Some (Normal (initial_stopLoss cfg pct),
                  set_stopLoss (<[mint := initial_stopLoss cfg pct]> (stopLoss b)) b)
        | Rejected => Some (Throw, b)
        end
    end.
Proof.
  unfold stopLoss_init, percent_of, bind, get, sync, ret, stopLoss_set, modify.
  destruct (stopLoss b !! mint) as [v|]; [reflexivity|].
  destruct (parseBigNumberish (Config.stopLoss cfg)); reflexivity.
Qed.

(** What [stopLoss_init] leaves when it does not throw. *)
Lemma stopLoss_init_entry (cfg : BotConfig) (mint : string) (b b1 : Bot) (sl : Z) :
  stopLoss_init cfg mint b = Some (Normal sl, b1) ->
  entry_floor cfg mint b = Some sl
  /\ same_counters b b1
  /\ stopLoss b1 = <[mint := sl]> (stopLoss b)
  /\ stopLoss b1 !! mint = Some sl.
Proof.
  rewrite stopLoss_init_cases. unfold entry_floor.
  destruct (stopLoss b !! mint) as [v|] eqn:Hv.
  - intros H. inversion H; subst. split; [reflexivity|]. split; [apply same_counters_refl|].
    split; [symmetry; apply insert_id; exact Hv | exact Hv].
  - destruct (parseBigNumberish (Config.stopLoss cfg)) as [pct|]; [|discriminate].
    intros H. inversion H; subst. split; [reflexivity|].
    split; [apply same_counters_set_stopLoss|]. rewrite lookup_set_stopLoss.
    split; [reflexivity | apply lookup_insert_eq].
Qed.

(** The body of [waitForSellSignal] with monitoring switched on, in
    closed form: the three SDK calls in front of the loop, then the loop. *)
Lemma waitForSellSignal_body_cases (cfg : BotConfig) (mint : string)
    (feed : nat -> outcome Z) (b : Bot) :
  priceCheckDuration cfg <> 0 -> priceCheckInterval cfg <> 0 ->
  waitForSellSignal_body cfg mint feed b =
    match parseBigNumberish (takeProfit cfg) with
    | Rejected => Some (Throw, b)
    | Resolved pct =>
        match entry_floor cfg mint b with
        | None => Some (Throw, b)
        | Some sl =>
            let b1 := set_stopLoss (<[mint := sl]> (stopLoss b)) b in
            match parseBigNumberish (sellSlippage cfg) with
            | Rejected => Some (Throw, b1)
            | Resolved _ =>
                monitor_loop (monitor_fuel cfg) cfg mint (takeProfit_amount cfg pct)
                  feed 0 sl b1
            end
        end
    end.
Proof.
  intros Hd Hi. unfold waitForSellSignal_body.
  replace (priceCheckDuration cfg =? 0) with false by (symmetry; apply Z.eqb_neq; exact Hd).
  replace (priceCheckInterval cfg =? 0) with false by (symmetry; apply Z.eqb_neq; exact Hi).
  cbn [orb]. unfold percent_of. unfold bind at 1 2. unfold sync at 1.
  destruct (parseBigNumberish (takeProfit cfg)) as [pct|]; [|reflexivity].
  unfold ret at 1. unfold bind at 1. rewrite stopLoss_init_cases. unfold entry_floor.
  fold (takeProfit_amount cfg pct).
  destruct (stopLoss b !! mint) as [v|] eqn:Hv.
  - replace (set_stopLoss (<[mint := v]> (stopLoss b)) b) with b.
    + unfold bind, sync. destruct (parseBigNumberish (sellSlippage cfg)); reflexivity.
    + rewrite insert_id by exact Hv. destruct b; reflexivity.
  - destruct (parseBigNumberish (Config.stopLoss cfg)) as [p|]; [|reflexivity].
    unfold bind, sync. destruct (parseBigNumberish (sellSlippage cfg)); reflexivity.
Qed.

Lemma prelude_passes_spec (cfg : BotConfig) (mint : string) (b : Bot) :
  prelude_passes cfg mint b = true <->
  exists pct sl slippage,
    parseBigNumberish (takeProfit cfg) = Resolved pct
    /\ entry_floor cfg mint b = Some sl
    /\ parseBigNumberish (sellSlippage cfg) = Resolved slippage.
Proof.
  unfold prelude_passes, parses, entry_floor.
  destruct (parseBigNumberish (takeProfit cfg)) as [pct|]; cbn [andb].
  2:{ split; [discriminate | intros (? & ? & ? & H & _); discriminate H]. }
  destruct (parseBigNumberish (sellSlippage cfg)) as [s|].
  2:{ rewrite andb_false_r.
      split; [discriminate | intros (? & ? & ? & _ & _ & H); discriminate H]. }
  rewrite andb_true_r.
  destruct (stopLoss b !! mint) as [v|].
  - split; [intros _; eauto 10 | reflexivity].
  - destruct (parseBigNumberish (Config.stopLoss cfg)) as [p|].
    + split; [intros _; eauto 10 | reflexivity].
    + split; [discriminate | intros (? & ? & ? & _ & H & _); discriminate H].
Qed.

(** [waitForSellSignal] always completes, by a [return] or by an
    exception of one of the SDK calls in front of its loop, and touches
    nothing of the bot but the stop-loss map; the floor it leaves, if any,
    is not below the one it started with. *)
Lemma waitForSellSignal_body_runs (cfg : BotConfig) (mint : string)
    (feed : nat -> outcome Z) (b : Bot) :
  exists c b',
    waitForSellSignal_body cfg mint feed b = Some (c, b')
    /\ same_counters b b'
    /\ (c = Return true \/ c = Return false \/ c = Throw)
    /\ (c = Throw <->
        priceCheckDuration cfg <> 0 /\ priceCheckInterval cfg <> 0
        /\ prelude_passes cfg mint b = false)
    /\ (forall v0, entry_floor cfg mint b = Some v0 ->
        match stopLoss b' !! mint with
        | Some v => v0 <= v /\ c <> Return false
        | None => True
        end).
Proof.
  destruct (Z.eq_dec (priceCheckDuration cfg) 0) as [Hd | Hd];
    [|destruct (Z.eq_dec (priceCheckInterval cfg) 0) as [Hi | Hi]].
  - exists (Return true), b. unfold waitForSellSignal_body.
    replace (priceCheckDuration cfg =? 0) with true by (symmetry; apply Z.eqb_eq; exact Hd).
    cbn [orb]. split; [reflexivity|]. split; [apply same_counters_refl|].
    split; [auto|]. split; [split; [discriminate | intros (H & _); contradiction]|].
    intros v0. unfold entry_floor. destruct (stopLoss b !! mint) as [v|]; [|auto].
    intros H. inversion H; subst. split; [lia | discriminate].
  - exists (Return true), b. unfold waitForSellSignal_body.
    replace (priceCheckInterval cfg =? 0) with true by (symmetry; apply Z.eqb_eq; exact Hi).
    rewrite orb_true_r. split; [reflexivity|]. split; [apply same_counters_refl|].
    split; [auto|]. split; [split; [discriminate | intros (_ & H & _); contradiction]|].
    intros v0. unfold entry_floor. destruct (stopLoss b !! mint) as [v|]; [|auto].
    intros H. inversion H; subst. split; [lia | discriminate].
  - rewrite (waitForSellSignal_body_cases cfg mint feed b Hd Hi).
    assert (Hkeep : forall v0, entry_floor cfg mint b = Some v0 ->
              match stopLoss b !! mint with
              | Some v => v0 <= v /\ @Throw bool unit <> Return false
              | None => True
              end).
    { intros v0. unfold entry_floor. destruct (stopLoss b !! mint) as [v|]; [|auto].
      intros H. inversion H; subst. split; [lia | discriminate]. }
    unfold prelude_passes, parses. fold (entry_floor cfg mint b).
    destruct (parseBigNumberish (takeProfit cfg)) as [pct|].
    2:{ exists Throw, b. split; [reflexivity|]. split; [apply same_counters_refl|].
        split; [auto|]. split; [split; auto|]. exact Hkeep. }
    assert (Hfloor : match stopLoss b !! mint with
                     | Some _ => true
                     | None => match parseBigNumberish (Config.stopLoss cfg) with
                               | Resolved _ => true
                               | Rejected => false
                               end
                     end = match entry_floor cfg mint b with
                           | Some _ => true
                           | None => false
                           end).
    { unfold entry_floor. destruct (stopLoss b !! mint); [reflexivity|].
      destruct (parseBigNumberish (Config.stopLoss cfg)); reflexivity. }
    rewrite Hfloor. clear Hfloor.
    destruct (entry_floor cfg mint b) as [sl|] eqn:Hsl.
    2:{ exists Throw, b. split; [reflexivity|]. split; [apply same_counters_refl|].
        split; [auto|]. split; [split; auto|]. intros v0 H. discriminate H. }
    cbv zeta. set (b1 := set_stopLoss (<[mint := sl]> (stopLoss b)) b).
    assert (Hentry : stopLoss b1 !! mint = Some sl)
      by (subst b1; rewrite lookup_set_stopLoss; apply lookup_insert_eq).
    destruct (parseBigNumberish (sellSlippage cfg)) as [slippage|].
    2:{ exists Throw, b1. split; [reflexivity|]. split; [apply same_counters_set_stopLoss|].
        split; [auto|]. split; [split; auto|].
        intros v0 H. inversion H; subst. rewrite Hentry. split; [lia | discriminate]. }
    destruct (monitor_loop_returns cfg mint (takeProfit_amount cfg pct) feed Hi
                (monitor_fuel cfg) 0 sl b1) as (r & b' & Hrun & Hsame & Hleft);
      [lia | unfold monitor_fuel; lia | exact Hentry |].
    exists (Return r), b'. split; [exact Hrun|].
    split; [eapply same_counters_trans; [apply same_counters_set_stopLoss | exact Hsame]|].
    split; [destruct r; auto|].
    split; [split; [discriminate | intros (_ & _ & H); discriminate H]|].
    intros v0 H. inversion H; subst.
    destruct (stopLoss b' !! mint); [|exact I].
    destruct Hleft as [Hle ->]. split; [exact Hle | discriminate].
Qed.

(** A call of [waitForSellSignal]: it evaluates to the boolean the body
    returns, or throws what the body throws. *)
Lemma waitForSellSignal_runs {R : Type} (cfg : BotConfig) (mint : string)
    (feed : nat -> outcome Z) (b : Bot) :
  exists b',
    same_counters b b'
    /\ ((exists r, waitForSellSignal (R := R) cfg mint feed b = Some (Normal r, b')
                   /\ waitForSellSignal_body cfg mint feed b = Some (Return r, b'))
        \/ (waitForSellSignal (R := R) cfg mint feed b = Some (Throw, b')
            /\ waitForSellSignal_body cfg mint feed b = Some (Throw, b'))).
Proof.
  destruct (waitForSellSignal_body_runs cfg mint feed b)
    as (c & b' & Hrun & Hsame & Hc & _).
  exists b'. split; [exact Hsame|]. unfold waitForSellSignal, call. rewrite Hrun.
  destruct Hc as [-> | [-> | ->]]; [left; exists true | left; exists false | right]; auto.
Qed.



(** The tick of the witness above does raise the floor, from 0.9 to 0.99. *)
Example trailing_tick_raises_floor :
  exists b',
    monitor_tick Scenario.cfg Scenario.mint 1200000000 (Resolved 1100000000) 900000000
      Scenario.holding = Some (Normal 990000000, b')
    /\ stopLoss b' !! Scenario.mint = Some 990000000.
Proof. eexists. split; vm_compute; reflexivity. Qed.


(** C4 fails when the monitoring loop runs out of ticks: three ticks at
    the initial amount trigger nothing, [waitForSellSignal] returns [true]
    by default, and the entry it created on entry (0.9 for a floor of 10%)
    is still in the map. *)
Theorem stop_loss_entry_left_after_timeout :
  stopLoss Scenario.fresh !! Scenario.mint = None
  /\ exists b',
       waitForSellSignal (R := unit) Scenario.cfg Scenario.mint
         (Scenario.quotes [1000000000; 1000000000; 1000000000]) Scenario.fresh
       = Some (Normal true, b')
       /\ stopLoss b' !! Scenario.mint = Some 900000000.
Proof.
  split; [reflexivity|]. eexists. split; vm_compute; reflexivity.
Qed.

(** The three other exits of the same scenario delete the entry: a
    stop-loss trigger, a take-profit trigger, and a drawdown veto. *)
Example stop_loss_entry_deleted_on_triggers :
  (exists b',
     waitForSellSignal (R := unit) Scenario.cfg Scenario.mint
       (Scenario.quotes [1000000000; 890000000]) Scenario.fresh = Some (Normal true, b')
     /\ stopLoss b' !! Scenario.mint = None)
  /\ (exists b',
        waitForSellSignal (R := unit) Scenario.cfg Scenario.mint
          (Scenario.quotes [1000000000; 1250000000]) Scenario.fresh = Some (Normal true, b')
        /\ stopLoss b' !! Scenario.mint = None)
  /\ (exists b',
        waitForSellSignal (R := unit) Scenario.cfg Scenario.mint
          (Scenario.quotes [1000000000; 400000000]) Scenario.fresh = Some (Normal false, b')
        /\ stopLoss b' !! Scenario.mint = None).
Proof.
  repeat split; eexists; split; vm_compute; reflexivity.
Qed.

(** ** ExecutionPipeline *)

Lemma emits_refl (ok : Event -> Prop) (b : Bot) : emits ok b b.
Proof.
  repeat split. exists []. split; [symmetry; apply app_nil_r | constructor].
Qed.

Lemma emits_trans (ok : Event -> Prop) (b1 b2 b3 : Bot) :
  emits ok b1 b2 -> emits ok b2 b3 -> emits ok b1 b3.
Proof.
  intros (Hs1 & Hc1 & e1 & Ht1 & Hok1) (Hs2 & Hc2 & e2 & Ht2 & Hok2).
  split; [congruence|]. split; [congruence|].
  exists (e1 ++ e2). split.
  - rewrite Ht2, Ht1, app_assoc. reflexivity.
  - apply List.Forall_app. split; assumption.
Qed.

Lemma emits_same_counters (ok : Event -> Prop) (b b' : Bot) :
  same_counters b b' -> emits ok b b'.
Proof.
  intros (Hs & Hc & Ht). split; [assumption|]. split; [assumption|].
  exists []. split; [rewrite app_nil_r; assumption | constructor].
Qed.

Lemma emits_log {R : Type} (ok : Event -> Prop) (e : Event) (b : Bot) :
  ok e ->
  exists b', log_event (R := R) e b = Some (Normal tt, b')
             /\ trace b' = trace b ++ [e] /\ emits ok b b'.
Proof.
  intros Hok. eexists. split; [reflexivity|]. split; [reflexivity|].
  repeat split. exists [e]. split; [reflexivity | repeat constructor; assumption].
Qed.

(** *** [filterMatch] and the entry gate, as [buy] sees them *)

Lemma filter_try_cases (cfg : BotConfig) (executed : outcome bool) (mc : Z) (b : Bot) :
  exists c, filter_try cfg executed mc b = Some (c, b)
            /\ (c = Throw \/ (exists r, c = Return r) \/ exists mc', c = Normal mc').
Proof.
  unfold filter_try, bind, await, ret, return_.
  destruct executed as [[|]|].
  - destruct (consecutiveMatchCount cfg <=? mc + 1); eauto 6.
  - eauto 6.
  - eauto.
Qed.

Lemma filter_loop_returns (cfg : BotConfig) (feed : nat -> outcome bool) :
  filterCheckInterval cfg <> 0 ->
  forall (fuel timesChecked : nat) (mc : Z) (b : Bot),
    (timesChecked <= Z.abs_nat (filterCheckDuration cfg))%nat ->
    (Z.abs_nat (filterCheckDuration cfg) < timesChecked + fuel)%nat ->
    exists c, filter_loop fuel cfg feed timesChecked mc b = Some (c, b)
              /\ (c = Throw \/ exists r, c = Return r).
Proof.
  intros Hi fuel. induction fuel as [|fuel IH]; intros tc mc b Htc Hfuel; [lia|].
  cbn [filter_loop].
  destruct (filter_try_cases cfg (feed tc) mc b) as (c & Htry & Hc). rewrite Htry.
  destruct Hc as [-> | [[r ->] | [mc' ->]]]; eauto.
  destruct (below_ratio _ _ _) eqn:Hmore; [|eauto].
  apply below_ratio_bound in Hmore; [|assumption|lia].
  apply IH; lia.
Qed.

Lemma filterMatch_runs {R : Type} (cfg : BotConfig) (feed : nat -> outcome bool) (b : Bot) :
  exists c, filterMatch (R := R) cfg feed b = Some (c, b)
            /\ (c = Throw \/ exists r, c = Normal r).
Proof.
  unfold filterMatch, call, filterMatch_body.
  destruct (Z.eqb_spec (filterCheckInterval cfg) 0) as [Hi|Hi]; cbn [orb].
  - cbn. eauto.
  - destruct (filterCheckDuration cfg =? 0); [cbn; eauto|].
    destruct (filter_loop_returns cfg feed Hi (filter_fuel cfg) 0 0 b) as (c & Hrun & Hc);
      [lia | unfold filter_fuel; lia |].
    rewrite Hrun. destruct Hc as [-> | [r ->]]; eauto.
Qed.

Lemma waitForBuySignal_call_runs {R : Type} (cfg : BotConfig)
    (feed : nat -> outcome float) (b : Bot) :
  exists r, waitForBuySignal_call (R := R) cfg feed b = Some (Normal r, b).
Proof.
  unfold waitForBuySignal_call, waitForBuySignal.
  destruct (signal_loop_finishes feed timesToCheck
              {| timesChecked := 0; prices := []; slept := [] |})
    as (r & st & Hrun & _); cbn [timesChecked slept].
  - lia.
  - rewrite timesToCheck_300. lia.
  - constructor.
  - rewrite Hrun. eauto.
Qed.

(** *** Retry loops *)

(** A retry loop whose attempts catch their own exceptions ends normally
    or by a [return]; what holds of every attempt holds of the loop. *)
Lemma for_each_runs (P : Bot -> Bot -> Prop) (body : nat -> M Bot unit unit) (l : list nat) :
  (forall b, P b b) ->
  (forall b1 b2 b3, P b1 b2 -> P b2 b3 -> P b1 b3) ->
  (forall i b, In i l -> exists c b', body i b = Some (c, b') /\ c <> Throw /\ P b b') ->
  forall b, exists c b',
    for_each l body b = Some (c, b')
    /\ (c = Normal tt \/ c = Return tt) /\ P b b'.
Proof.
  intros Hrefl Htrans. induction l as [|i l IH]; intros Hbody b.
  - exists (Normal tt), b. cbn. auto.
  - cbn [for_each].
    destruct (Hbody i b) as (c & b1 & Hrun & Hc & HP); [left; reflexivity|].
    rewrite Hrun.
    destruct c as [[]| |[]|]; try congruence.
    + destruct (IH (fun j b0 Hj => Hbody j b0 (or_intror Hj)) b1) as (c' & b' & Hrest & Hc' & HP').
      exists c', b'. split; [exact Hrest|]. split; [exact Hc'|]. eapply Htrans; eassumption.
    + exists (Normal tt), b1. auto.
    + exists (Return tt), b1. auto.
Qed.

Lemma buy_attempt_runs (cfg : BotConfig) (env : BuyEnv) (i : nat) (b : Bot) :
  exists c b',
    try_catch (buy_attempt cfg env i) (ret tt) b = Some (c, b')
    /\ c <> Throw /\ emits is_swap b b'.
Proof.
  unfold buy_attempt, try_catch, bind, return_, ret.
  destruct (10000 <? now env i - startTime env).
  - exists (Return tt), b. split; [reflexivity|]. split; [discriminate | apply emits_refl].
  - destruct (emits_log (R := unit) is_swap (EvBuySwap i) b I) as (b1 & Hlog & _ & Hem).
    rewrite Hlog. unfold await, break_.
    destruct (buySwap env i) as [[[|]]|]; eexists _, b1;
      (split; [reflexivity|]; split; [discriminate | exact Hem]).
Qed.

(** The guarded part of [buy]: whatever the collaborators answer, it
    completes normally or by a [return], and only hands swaps to the
    executor. *)
Lemma buy_guarded_runs (cfg : BotConfig) (env : BuyEnv) (b : Bot) :
  exists c b',
    try_catch (buy_try cfg env) (ret tt) b = Some (c, b')
    /\ (c = Normal tt \/ c = Return tt) /\ emits is_swap b b'.
Proof.
  assert (Hstop : forall c : completion unit unit, c = Normal tt \/ c = Return tt ->
            exists c0 b', Some (c, b) = Some (c0, b')
                          /\ (c0 = Normal tt \/ c0 = Return tt) /\ emits is_swap b b').
  { intros c Hc. exists c, b. split; [reflexivity|]. split; [exact Hc | apply emits_refl]. }
  unfold buy_try. unfold try_catch at 1. unfold bind, ret, return_.
  destruct (buyLookups env) as [[]|]; cbn [await]; [|apply Hstop; auto].
  destruct (buyPoolKeys env) as [[]|]; cbn [await]; [|apply Hstop; auto].
  assert (Hgate :
    exists c0 b',
      try_catch
        (buySignal <- waitForBuySignal_call cfg (priceFeed env) ;;
         (if negb buySignal then return_ tt else ret tt) ;;;
         for_upto (maxBuyRetries cfg)
           (fun i => try_catch (buy_attempt cfg env i) (ret tt)))
        (ret tt) b = Some (c0, b')
      /\ (c0 = Normal tt \/ c0 = Return tt) /\ emits is_swap b b').
  { unfold try_catch at 1. unfold bind, ret, return_.
    destruct (waitForBuySignal_call_runs (R := unit) cfg (priceFeed env) b) as (r & Hsig).
    rewrite Hsig. destruct r; cbn [negb]; [|apply Hstop; auto].
    destruct (for_each_runs (emits is_swap)
                (fun i => try_catch (buy_attempt cfg env i) (ret tt))
                (seq 0 (Z.to_nat (maxBuyRetries cfg)))
                (emits_refl is_swap) (emits_trans is_swap)
                (fun i b0 _ => buy_attempt_runs cfg env i b0) b)
      as (c & b' & Hloop & Hc & Hem).
    unfold for_upto. unfold ret in Hloop. rewrite Hloop.
    exists c, b'. destruct Hc as [-> | ->]; auto. }
  unfold try_catch at 1 in Hgate. unfold bind, ret, return_ in Hgate.
  destruct (useSnipeList cfg); cbn [negb]; [exact Hgate|].
  destruct (filterMatch_runs (R := unit) cfg (filterFeed env) b) as (c & Hfil & Hc).
  rewrite Hfil. destruct Hc as [-> | [[|] ->]]; cbn [negb].
  - apply Hstop; auto.
  - exact Hgate.
  - apply Hstop; auto.
Qed.

Lemma swaps_hold_no_permit_event (swaps : list Event) :
  Forall is_swap swaps ->
  count_occ Event_eq_dec swaps EvAcquire = 0%nat
  /\ count_occ Event_eq_dec swaps EvRelease = 0%nat.
Proof.
  induction 1 as [|e swaps He _ [IHa IHr]]; [split; reflexivity|].
  destruct e; try contradiction; cbn; auto.
Qed.

(** C2: whatever its collaborators answer (values or exceptions, at any
    step, with any clock readings), a run of [buy] returns without throwing
    and leaves the semaphore as it found it; either it took no permit and did
    nothing observable, or its trace is one [acquire], then only swaps, then
    one [release]: the permit it took is given back exactly once. *)
Theorem buy_releases_its_permit_once (cfg : BotConfig) (env : BuyEnv) (b : Bot) :
  exists c b' evs,
    buy cfg env b = Some (c, b')
    /\ (c = Normal tt \/ c = Return tt)
    /\ semaphore b' = semaphore b
    /\ trace b' = trace b ++ evs
    /\ (evs = [] \/ exists swaps, evs = EvAcquire :: swaps ++ [EvRelease]
                                  /\ Forall is_swap swaps)
    /\ count_occ Event_eq_dec evs EvRelease = count_occ Event_eq_dec evs EvAcquire
    /\ (count_occ Event_eq_dec evs EvAcquire <= 1)%nat.
Proof.
  assert (Hskip : exists c b' evs,
            Some (Return tt, b) = Some (c, b')
            /\ (c = Normal tt \/ c = Return tt)
            /\ semaphore b' = semaphore b
            /\ trace b' = trace b ++ evs
            /\ (evs = [] \/ exists swaps, evs = EvAcquire :: swaps ++ [EvRelease]
                                          /\ Forall is_swap swaps)
            /\ count_occ Event_eq_dec evs EvRelease = count_occ Event_eq_dec evs EvAcquire
            /\ (count_occ Event_eq_dec evs EvAcquire <= 1)%nat).
  { exists (Return tt), b, []. rewrite app_nil_r. cbn. auto 10. }
  unfold buy, bind, get, return_, ret.
  destruct (useSnipeList cfg && negb (inSnipeList env)); [exact Hskip|].
  destruct (admission_denied cfg b) eqn:Hadm; [exact Hskip|].
  unfold admission_denied in Hadm. apply orb_false_elim in Hadm as [Hlocked _].
  unfold Semaphore.isLocked in Hlocked. apply Z.leb_gt in Hlocked.
  unfold semaphore_acquire, Semaphore.acquire.
  replace (0 <? semaphore b) with true by (symmetry; apply Z.ltb_lt; assumption).
  set (b1 := set_semaphore (semaphore b - 1) b).
  destruct (emits_log (R := unit) (fun _ => True) EvAcquire b1 I) as (b2 & Hlog & Ht2 & Hem2).
  rewrite Hlog.
  destruct (buy_guarded_runs cfg env b2) as (c & b3 & Hrun & Hc & Hs3 & _ & swaps & Ht3 & Hswaps).
  unfold try_finally. unfold ret in Hrun. rewrite Hrun.
  unfold semaphore_release.
  set (b4 := set_semaphore (Semaphore.release (semaphore b3)) b3).
  destruct (emits_log (R := unit) (fun _ => True) EvRelease b4 I) as (b5 & Hlog5 & Ht5 & Hem5).
  rewrite Hlog5.
  exists c, b5, (EvAcquire :: swaps ++ [EvRelease]).
  destruct Hem2 as (Hs2 & _). destruct Hem5 as (Hs5 & _).
  destruct (swaps_hold_no_permit_event swaps Hswaps) as [Hacq Hrel].
  split; [reflexivity|]. split; [exact Hc|]. split; [|split; [|split; [|split]]].
  - rewrite Hs5. subst b4. cbn. rewrite Hs3, Hs2. subst b1. cbn.
    unfold Semaphore.release. lia.
  - rewrite Ht5. subst b4. cbn. rewrite Ht3, Ht2. subst b1. cbn.
    rewrite <- !app_assoc. reflexivity.
  - right. exists swaps. split; [reflexivity | exact Hswaps].
  - cbn. rewrite !count_occ_app, Hacq, Hrel. cbn. lia.
  - cbn. rewrite !count_occ_app, Hacq. cbn. lia.
Qed.

(** *** [sell] *)

Lemma sell_attempt_later (cfg : BotConfig) (env : SellEnv) (mint : string) (i : nat) (b : Bot) :
  (1 <= i)%nat ->
  exists c b',
    try_catch (sell_attempt cfg env mint i) (ret tt) b = Some (c, b')
    /\ c <> Throw /\ emits not_signal b b'.
Proof.
  intros Hi. unfold sell_attempt, try_catch, bind, ret.
  replace (i <? 1)%nat with false by (symmetry; apply Nat.ltb_ge; assumption).
  destruct (emits_log (R := unit) not_signal (EvSellSwap i) b I) as (b1 & Hlog & _ & Hem).
  rewrite Hlog. unfold await, break_.
  destruct (sellSwap env i) as [[[|]]|]; eexists _, b1;
    (split; [reflexivity|]; split; [discriminate | exact Hem]).
Qed.

Lemma signals_once_then (b1 b2 b3 : Bot) :
  signals_once b1 b2 -> emits not_signal b2 b3 -> signals_once b1 b3.
Proof.
  intros (Hs1 & Hc1 & e1 & Ht1 & Hok1) (Hs2 & Hc2 & e2 & Ht2 & Hok2).
  split; [congruence|]. split; [congruence|].
  exists (e1 ++ e2). split.
  - rewrite Ht2, Ht1, <- app_assoc. reflexivity.
  - apply List.Forall_app. split; assumption.
Qed.

(** The first attempt calls [waitForSellSignal] and then returns (a
    veto: no swap is attempted), attempts its swap, or, when the call
    threw, ends without a swap and leaves the loop running. *)
Lemma sell_attempt_first (cfg : BotConfig) (env : SellEnv) (mint : string) (b : Bot) :
  exists c b',
    try_catch (sell_attempt cfg env mint 0) (ret tt) b = Some (c, b')
    /\ c <> Throw /\ signals_once b b'
    /\ (forall b1 b2,
          log_event (R := bool) (EvSellSignal 0) b = Some (Normal tt, b1) ->
          waitForSellSignal_body cfg mint (quoteFeed env) b1 = Some (Return false, b2) ->
          c = Return tt /\ b' = b2).
Proof.
  unfold sell_attempt, try_catch. unfold bind at 1 2.
  cbn [Nat.ltb Nat.leb].
  destruct (emits_log (R := unit) (fun _ => True) (EvSellSignal 0) b I)
    as (b1 & Hlog & Ht1 & Hs1 & Hc1 & _).
  rewrite Hlog.
  destruct (waitForSellSignal_runs (R := unit) cfg mint (quoteFeed env) b1)
    as (b2 & (Hs2 & Hc2 & Ht2) & [(r & Hcall & Hbody) | (Hcall & Hbody)]).
  - unfold bind at 1. rewrite Hcall.
    assert (Honce : signals_once b b2).
    { split; [congruence|]. split; [congruence|]. exists [].
      split; [rewrite Ht2, Ht1; reflexivity | constructor]. }
    destruct r; cbn [negb].
    + unfold bind, ret.
      destruct (emits_log (R := unit) not_signal (EvSellSwap 0) b2 I)
        as (b3 & Hlog3 & _ & Hem3).
      rewrite Hlog3. unfold await, break_.
      assert (Honce3 : signals_once b b3) by (eapply signals_once_then; eassumption).
      destruct (sellSwap env 0) as [[[|]]|]; eexists _, b3;
        (split; [reflexivity|]; split; [discriminate|]; split; [exact Honce3|]);
        intros b1' b2' Hlog' Hveto; cbv in Hlog'; cbv in Hlog;
          assert (b1' = b1) by congruence; subst b1'; congruence.
    + unfold bind, return_. exists (Return tt), b2.
      split; [reflexivity|]. split; [discriminate|]. split; [exact Honce|].
      intros b1' b2' Hlog' Hveto. cbv in Hlog'; cbv in Hlog.
      assert (b1' = b1) by congruence. subst b1'. split; [reflexivity | congruence].
  - unfold bind at 1. rewrite Hcall. exists (Normal tt), b2.
    split; [reflexivity|]. split; [discriminate|].
    split.
    { split; [congruence|]. split; [congruence|]. exists [].
      split; [rewrite Ht2, Ht1; reflexivity | constructor]. }
    intros b1' b2' Hlog' Hveto. cbv in Hlog'; cbv in Hlog.
    assert (b1' = b1) by congruence. subst b1'. congruence.
Qed.

(** The retry loop of [sell]: no attempt at all when [maxSellRetries] is
    not positive; else one call of [waitForSellSignal], in the first
    attempt. *)
Lemma sell_loop_runs (cfg : BotConfig) (env : SellEnv) (mint : string) (b : Bot) :
  exists c b',
    for_upto (maxSellRetries cfg)
      (fun i => try_catch (sell_attempt cfg env mint i) (ret tt)) b = Some (c, b')
    /\ (c = Normal tt \/ c = Return tt)
    /\ ((maxSellRetries cfg <= 0 /\ b' = b)
        \/ (1 <= maxSellRetries cfg /\ signals_once b b')).
Proof.
  unfold for_upto.
  destruct (Z.to_nat (maxSellRetries cfg)) as [|k] eqn:Hn.
  - exists (Normal tt), b. cbn. split; [reflexivity|]. split; [auto|]. left. split; [lia|reflexivity].
  - assert (Hpos : 1 <= maxSellRetries cfg) by lia.
    cbn [seq for_each].
    destruct (sell_attempt_first cfg env mint b) as (c & b1 & Hrun & Hc & Honce & _).
    rewrite Hrun.
    destruct c as [[]| |[]|]; try congruence.
    + destruct (for_each_runs (emits not_signal)
                  (fun i => try_catch (sell_attempt cfg env mint i) (ret tt))
                  (seq 1 k) (emits_refl not_signal) (emits_trans not_signal)) with (b := b1)
        as (c' & b' & Hrest & Hc' & Hem).
      { intros i b0 Hin. apply in_seq in Hin. apply sell_attempt_later. lia. }
      exists c', b'. split; [exact Hrest|]. split; [exact Hc'|]. right.
      split; [exact Hpos|]. eapply signals_once_then; eassumption.
    + exists (Normal tt), b1. auto.
    + exists (Return tt), b1. auto.
Qed.

Lemma sell_guarded_runs (cfg : BotConfig) (env : SellEnv) (amount : Z) (b : Bot) :
  exists c b',
    try_catch (sell_try cfg env amount) (ret tt) b = Some (c, b')
    /\ (c = Normal tt \/ c = Return tt)
    /\ ((b' = b /\ ~ (reaches_retries env amount /\ 1 <= maxSellRetries cfg))
        \/ signals_once b b').
Proof.
  assert (Hstop : forall c : completion unit unit,
            c = Normal tt \/ c = Return tt ->
            ~ reaches_retries env amount ->
            exists c0 b',
              Some (c, b) = Some (c0, b')
              /\ (c0 = Normal tt \/ c0 = Return tt)
              /\ ((b' = b /\ ~ (reaches_retries env amount /\ 1 <= maxSellRetries cfg))
                  \/ signals_once b b')).
  { intros c Hc Hnot. exists c, b. split; [reflexivity|]. split; [exact Hc|].
    left. split; [reflexivity|]. intros [Hreach _]. contradiction. }
  unfold sell_try. unfold try_catch at 1. unfold bind, ret, return_.
  destruct (poolData env) as [[mint|]|] eqn:Hpool; cbn [await].
  - destruct (Z.eqb_spec amount 0) as [Hzero|Hnonzero].
    { apply Hstop; [auto|]. intros (_ & Hne & _). contradiction. }
    destruct (sellMarket env) as [[]|] eqn:Hmarket; cbn [await].
    2: { apply Hstop; [auto|]. intros (_ & _ & Hm & _). congruence. }
    destruct (sellPoolKeys env) as [[]|] eqn:Hkeys; cbn [await].
    2: { apply Hstop; [auto|]. intros (_ & _ & _ & Hk). congruence. }
    destruct (sell_loop_runs cfg env mint b) as (c & b' & Hloop & Hc & Hcases).
    unfold ret in Hloop. rewrite Hloop.
    exists c, b'. destruct Hc as [-> | ->];
      (split; [reflexivity|]; split; [auto|];
       destruct Hcases as [[Hle ->] | [_ Honce]]; [left | right; exact Honce];
       split; [reflexivity|]; intros [_ Hpos]; lia).
  - apply Hstop; [auto|]. intros ((m & Hm) & _). congruence.
  - apply Hstop; [auto|]. intros ((m & Hm) & _). congruence.
Qed.

Lemma signal_calls_none (evs : list Event) :
  Forall not_signal evs ->
  signal_calls evs = 0%nat /\ forall i, ~ In (EvSellSignal i) evs.
Proof.
  unfold signal_calls.
  induction 1 as [|e evs He _ [IHn IHi]]; [split; [reflexivity | intros i []]|].
  destruct e; try contradiction; cbn; (split; [exact IHn|]);
    intros j [Hj | Hj]; try discriminate; eapply IHi; eassumption.
Qed.

(** A run of [sell] returns without throwing and restores both admission
    counters; it leaves the trace alone (and then it did not reach its retry
    loop with a positive [maxSellRetries]), or it appends one call of
    [waitForSellSignal], with retry index 0, followed by swaps only. *)
Lemma sell_runs (cfg : BotConfig) (env : SellEnv) (amount : Z) (b : Bot) :
  exists c b',
    sell cfg env amount b = Some (c, b')
    /\ (c = Normal tt \/ c = Return tt)
    /\ semaphore b' = semaphore b
    /\ sellExecutionCount b' = sellExecutionCount b
    /\ ((trace b' = trace b
         /\ ~ (reaches_retries env amount /\ 1 <= maxSellRetries cfg))
        \/ exists evs, trace b' = trace b ++ EvSellSignal 0 :: evs
                       /\ Forall not_signal evs).
Proof.
  unfold sell. unfold bind, modify at 1.
  set (b1 := set_sellExecutionCount (sellExecutionCount b + 1) b).
  destruct (sell_guarded_runs cfg env amount b1) as (c & b2 & Hrun & Hc & Hcases).
  unfold try_finally. rewrite Hrun. unfold modify.
  exists c, (set_sellExecutionCount (sellExecutionCount b2 - 1) b2).
  split; [reflexivity|]. split; [exact Hc|].
  destruct Hcases as [[-> Hno] | (Hs & Hcount & evs & Ht & Hok)].
  - subst b1. cbn. split; [reflexivity|]. split; [lia|]. left. split; [reflexivity | exact Hno].
  - cbn. rewrite Hs, Hcount. subst b1. cbn. split; [reflexivity|]. split; [lia|].
    right. exists evs. split; [exact Ht | exact Hok].
Qed.

(** C3, as the code has it: a run of [sell] returns without throwing,
    restores [sellExecutionCount], and calls [waitForSellSignal] at most
    once, only with retry index 0; it calls it exactly once when the pool
    entry is found in the cache, the balance is non-zero, the market lookup
    and the pool keys succeed, and [maxSellRetries >= 1]. *)
Theorem sell_evaluates_exit_signal_once (cfg : BotConfig) (env : SellEnv)
    (amount : Z) (b : Bot) :
  exists c b' evs,
    sell cfg env amount b = Some (c, b')
    /\ (c = Normal tt \/ c = Return tt)
    /\ sellExecutionCount b' = sellExecutionCount b
    /\ trace b' = trace b ++ evs
    /\ (signal_calls evs <= 1)%nat
    /\ (forall i, In (EvSellSignal i) evs -> i = 0%nat)
    /\ (reaches_retries env amount -> 1 <= maxSellRetries cfg ->
        signal_calls evs = 1%nat).
Proof.
  destruct (sell_runs cfg env amount b) as (c & b' & Hrun & Hc & _ & Hcount & Hcases).
  destruct Hcases as [[Ht Hno] | (evs & Ht & Hok)].
  - exists c, b', []. rewrite app_nil_r.
    split; [exact Hrun|]. split; [exact Hc|]. split; [exact Hcount|]. split; [exact Ht|].
    split; [cbn; lia|]. split; [intros i []|].
    intros Hreach Hpos. exfalso. apply Hno. split; assumption.
  - destruct (signal_calls_none evs Hok) as [Hnone Hnotin].
    assert (Hone : signal_calls (EvSellSignal 0 :: evs) = 1%nat).
    { unfold signal_calls in *. cbn. rewrite Hnone. reflexivity. }
    exists c, b', (EvSellSignal 0 :: evs).
    split; [exact Hrun|]. split; [exact Hc|]. split; [exact Hcount|]. split; [exact Ht|].
    split; [lia|]. split; [|intros _ _; exact Hone].
    intros i [Hi | Hi]; [congruence | exfalso; eapply Hnotin; eassumption].
Qed.

Lemma sell_evaluates_exit_signal_once_witness :
  reaches_retries (Scenario.sell_env (Some Scenario.mint) [1000000000]) 5
  /\ 1 <= maxSellRetries Scenario.cfg
  /\ exists c b' evs,
       sell Scenario.cfg (Scenario.sell_env (Some Scenario.mint) [1000000000]) 5
         Scenario.fresh = Some (c, b')
       /\ trace b' = trace Scenario.fresh ++ evs
       /\ signal_calls evs = 1%nat.
Proof.
  assert (Hreach : reaches_retries (Scenario.sell_env (Some Scenario.mint) [1000000000]) 5).
  { split; [exists Scenario.mint; reflexivity|]. repeat split. discriminate. }
  assert (Hpos : 1 <= maxSellRetries Scenario.cfg) by (cbn; lia).
  split; [exact Hreach|]. split; [exact Hpos|].
  destruct (sell_evaluates_exit_signal_once Scenario.cfg
              (Scenario.sell_env (Some Scenario.mint) [1000000000]) 5 Scenario.fresh)
    as (c & b' & evs & Hrun & _ & _ & Ht & _ & _ & Hexact).
  exists c, b', evs. split; [exact Hrun|]. split; [exact Ht|]. exact (Hexact Hreach Hpos).
Defined.

(** C3 as stated fails when the pool entry is not in the cache: with a
    non-zero balance and [maxSellRetries = 3], [sell] returns before its
    retry loop and never calls [waitForSellSignal]. *)
Lemma sell_without_pool_entry_never_evaluates :
  5 <> 0
  /\ 1 <= maxSellRetries Scenario.cfg
  /\ option_map (fun r => (fst r, signal_calls (trace (snd r))))
       (sell Scenario.cfg (Scenario.sell_env None [1000000000]) 5 Scenario.fresh)
     = Some (Return tt, 0%nat).
Proof.
  split; [discriminate|]. split; [cbn; lia|]. vm_compute. reflexivity.
Qed.

(** ** Drawdown veto *)

Lemma prelude_passes_same_map (cfg : BotConfig) (mint : string) (b b' : Bot) :
  stopLoss b' = stopLoss b -> prelude_passes cfg mint b' = prelude_passes cfg mint b.
Proof. unfold prelude_passes. intros ->. reflexivity. Qed.

Lemma trailing_floor_parses (cfg : BotConfig) (a sl : Z) :
  (trailingStopLoss cfg = true -> parses (Config.stopLoss cfg) = true) ->
  exists sl', trailing_floor cfg a sl = Resolved sl'.
Proof.
  unfold trailing_floor, parses. intros Hok.
  destruct (trailingStopLoss cfg); [|eauto].
  destruct (parseBigNumberish (Config.stopLoss cfg)); [eauto|].
  specialize (Hok eq_refl). discriminate Hok.
Qed.

Lemma monitor_tick_veto (cfg : BotConfig) (mint : string) (tp a sl threshold : Z)
    (b : Bot) :
  (trailingStopLoss cfg = true -> parses (Config.stopLoss cfg) = true) ->
  veto_threshold cfg = Resolved (Some threshold) ->
  a < threshold ->
  exists b',
    monitor_tick cfg mint tp (Resolved a) sl b = Some (Return false, b')
    /\ stopLoss b' !! mint = None /\ same_counters b b'.
Proof.
  intros Hok Hthreshold Hlow. rewrite monitor_tick_fetched.
  destruct (trailing_floor_parses cfg a sl Hok) as (sl' & Hfloor). rewrite Hfloor.
  destruct (trailing_floor_raised cfg mint a sl sl' b Hfloor) as (_ & Hsame & _).
  cbv zeta. rewrite Hthreshold. cbn [vetoes].
  replace (a <? threshold) with true by (symmetry; apply Z.ltb_lt; exact Hlow).
  eexists. split; [reflexivity|]. split.
  - rewrite lookup_set_stopLoss. apply lookup_delete_eq.
  - eapply same_counters_trans; [exact Hsame | apply same_counters_set_stopLoss].
Qed.

Lemma veto_threshold_configured (cfg : BotConfig) (rest : Z) :
  (0 <? skipSellingIfLostMoreThan cfg)%float = true ->
  parseBigNumberish (100 - skipSellingIfLostMoreThan cfg)%float = Resolved rest ->
  veto_threshold cfg = Resolved (Some (stopSellingAmount cfg rest)).
Proof. unfold veto_threshold. intros -> ->. reflexivity. Qed.

(** The drawdown threshold in exact arithmetic: for a non-negative quote
    amount and a rest [100 - threshold] that is not negative, an amount is
    below [stopSellingAmount] exactly when it is at least one raw unit below
    [quoteAmount * (100 - threshold) / 100]; when that product is a whole
    number of raw units, exactly when it is below it. *)
Lemma stopSellingAmount_exact (cfg : BotConfig) (rest a : Z) :
  0 <= quoteAmount cfg ->
  0 <= rest ->
  let product := quoteAmount cfg * rest in
  (a < stopSellingAmount cfg rest <-> 100 * a + 100 <= product)
  /\ (product mod 100 = 0 -> (a < stopSellingAmount cfg rest <-> 100 * a < product)).
Proof.
  intros Hq Ht product. unfold stopSellingAmount, fraction_of. fold product.
  assert (Hp : 0 <= product) by (subst product; nia).
  rewrite Z.quot_div_nonneg by lia.
  pose proof (Z.div_mod product 100 ltac:(lia)) as Hdm.
  pose proof (Z.mod_pos_bound product 100 ltac:(lia)) as Hmod.
  split; [lia|]. intros Hzero. lia.
Qed.

(** C6, as the code has it: with a drawdown threshold configured
    ([skipSellingIfLostMoreThan > 0], and [100 - skipSellingIfLostMoreThan]
    a whole number [rest] that the SDK accepts), a tick that fetches an
    amount below [stopSellingAmount]
    (= [quoteAmount * rest / 100] in raw units, the division truncated)
    makes the monitoring loop return [false] with the entry of the mint
    deleted, whatever the stop-loss floor [sl] is, so also when the amount is
    below that floor; the tick reaches the check when the trailing update
    before it does not throw. When the three SDK calls in front of the loop
    accept their numbers, [waitForSellSignal] then returns [false], and the
    [sell] that called it returns without attempting a swap. *)
Theorem drawdown_veto_precedes_stop_loss (cfg : BotConfig) (mint : string)
    (feed : nat -> outcome Z) (a rest : Z) :
  (0 <? skipSellingIfLostMoreThan cfg)%float = true ->
  parseBigNumberish (100 - skipSellingIfLostMoreThan cfg)%float = Resolved rest ->
  a < stopSellingAmount cfg rest ->
  (trailingStopLoss cfg = true -> parses (Config.stopLoss cfg) = true) ->
  (forall (fuel timesChecked : nat) (tp sl : Z) (b : Bot),
     feed timesChecked = Resolved a ->
     exists b',
       monitor_loop (S fuel) cfg mint tp feed timesChecked sl b = Some (Return false, b')
       /\ stopLoss b' !! mint = None)
  /\ (forall b : Bot,
        priceCheckDuration cfg <> 0 -> priceCheckInterval cfg <> 0 ->
        prelude_passes cfg mint b = true ->
        feed 0%nat = Resolved a ->
        (exists b',
           waitForSellSignal_body cfg mint feed b = Some (Return false, b')
           /\ stopLoss b' !! mint = None)
        /\ forall (env : SellEnv) (amount : Z),
             quoteFeed env = feed ->
             poolData env = Resolved (Some mint) -> amount <> 0 ->
             sellMarket env = Resolved tt -> sellPoolKeys env = Resolved tt ->
             1 <= maxSellRetries cfg ->
             exists b',
               sell cfg env amount b = Some (Return tt, b')
               /\ trace b' = trace b ++ [EvSellSignal 0]
               /\ stopLoss b' !! mint = None).
Proof.
  intros Hskip Hrest Hlow Hok.
  pose proof (veto_threshold_configured cfg rest Hskip Hrest) as Hthreshold.
  assert (Hloop : forall (fuel tc : nat) (tp sl : Z) (b : Bot),
            feed tc = Resolved a ->
            exists b',
              monitor_loop (S fuel) cfg mint tp feed tc sl b = Some (Return false, b')
              /\ stopLoss b' !! mint = None /\ same_counters b b').
  { intros fuel tc tp sl b Hfeed. cbn [monitor_loop]. rewrite Hfeed.
    destruct (monitor_tick_veto cfg mint tp a sl _ b Hok Hthreshold Hlow)
      as (b' & Htick & Hgone & Hsame).
    rewrite Htick. exists b'. auto. }
  assert (Hbody : forall b : Bot,
            priceCheckDuration cfg <> 0 -> priceCheckInterval cfg <> 0 ->
            prelude_passes cfg mint b = true ->
            feed 0%nat = Resolved a ->
            exists b',
              waitForSellSignal_body cfg mint feed b = Some (Return false, b')
              /\ stopLoss b' !! mint = None /\ same_counters b b').
  { intros b Hd Hi Hpre Hfeed.
    rewrite (waitForSellSignal_body_cases cfg mint feed b Hd Hi).
    apply prelude_passes_spec in Hpre as (pct & sl & slippage & Htp & Hsl & Hslip).
    rewrite Htp, Hsl, Hslip. cbv zeta. unfold monitor_fuel.
    destruct (Hloop (Z.abs_nat (priceCheckDuration cfg)) 0%nat (takeProfit_amount cfg pct) sl
                (set_stopLoss (<[mint := sl]> (stopLoss b)) b) Hfeed)
      as (b' & Hrun & Hgone & Hsame).
    exists b'. split; [exact Hrun|]. split; [exact Hgone|].
    eapply same_counters_trans; [apply same_counters_set_stopLoss | exact Hsame]. }
  split.
  - intros fuel tc tp sl b Hfeed.
    destruct (Hloop fuel tc tp sl b Hfeed) as (b' & Hrun & Hgone & _). eauto.
  - intros b Hd Hi Hpre Hfeed. split.
    + destruct (Hbody b Hd Hi Hpre Hfeed) as (b' & Hrun & Hgone & _). eauto.
    + intros env amount Henv Hpool Hamount Hmarket Hkeys Hretries.
      unfold sell. unfold bind at 1. unfold modify at 1.
      set (b0 := set_sellExecutionCount (sellExecutionCount b + 1) b).
      destruct (emits_log (R := bool) (fun _ => True) (EvSellSignal 0) b0 I)
        as (b1 & Hlog & Ht1 & _).
      assert (Hpre1 : prelude_passes cfg mint b1 = true).
      { rewrite <- Hpre. apply prelude_passes_same_map.
        cbv in Hlog. inversion Hlog; subst b1. reflexivity. }
      destruct (Hbody b1 Hd Hi Hpre1 Hfeed) as (b2 & Hrun & Hgone & _ & _ & Ht2).
      assert (Htry : try_catch (sell_try cfg env amount) (ret tt) b0 = Some (Return tt, b2)).
      { unfold sell_try. unfold try_catch at 1. unfold bind at 1.
        rewrite Hpool. cbn [await]. unfold bind at 1.
        replace (amount =? 0) with false by (symmetry; apply Z.eqb_neq; assumption).
        unfold ret at 1. unfold bind at 1. rewrite Hmarket. cbn [await].
        unfold bind at 1. rewrite Hkeys. cbn [await].
        unfold for_upto.
        destruct (Z.to_nat (maxSellRetries cfg)) as [|k] eqn:Hn; [lia|].
        cbn [seq for_each].
        destruct (sell_attempt_first cfg env mint b0) as (c & b' & Hattempt & _ & _ & Hveto).
        rewrite Henv in Hveto. destruct (Hveto b1 b2 Hlog Hrun) as [-> ->].
        rewrite Hattempt. reflexivity. }
      unfold try_finally. rewrite Htry. unfold modify.
      eexists. split; [reflexivity|]. split.
      * cbn. rewrite Ht2, Ht1. reflexivity.
      * cbn. exact Hgone.
Qed.

Lemma drawdown_veto_precedes_stop_loss_witness :
  (0 <? skipSellingIfLostMoreThan Scenario.cfg)%float = true
  /\ 400000000 < stopSellingAmount Scenario.cfg 50
  /\ 400000000 < initial_stopLoss Scenario.cfg 10
  /\ exists b',
       waitForSellSignal_body Scenario.cfg Scenario.mint (Scenario.quotes [400000000])
         Scenario.fresh = Some (Return false, b')
       /\ stopLoss b' !! Scenario.mint = None.
Proof.
  assert (Hskip : (0 <? skipSellingIfLostMoreThan Scenario.cfg)%float = true)
    by (vm_compute; reflexivity).
  assert (Hrest : parseBigNumberish (100 - skipSellingIfLostMoreThan Scenario.cfg)%float
                  = Resolved 50) by (vm_compute; reflexivity).
  assert (Hlow : 400000000 < stopSellingAmount Scenario.cfg 50) by (vm_compute; reflexivity).
  split; [exact Hskip|]. split; [exact Hlow|]. split; [vm_compute; reflexivity|].
  apply (proj2 (drawdown_veto_precedes_stop_loss Scenario.cfg Scenario.mint
                  (Scenario.quotes [400000000]) 400000000 50 Hskip Hrest Hlow
                  ltac:(intros _; vm_compute; reflexivity)) Scenario.fresh).
  - cbn. discriminate.
  - cbn. discriminate.
  - vm_compute. reflexivity.
  - reflexivity.
Defined.

(** C6 as stated fails between the truncated and the exact threshold.
    With an initial amount of 123456789 raw units and a threshold of 50%,
    [initialQuoteAmount * (1 - 50%)] is 61728394.5; the code compares with
    61728394, the product divided by 100 in whole raw units. A quote of
    61728394 is below the threshold of the claim and below the stop-loss
    floor 111111111, yet it is not vetoed: [waitForSellSignal] answers
    [true] on the stop-loss trigger and [sell] attempts its swaps. *)
Lemma drawdown_threshold_is_truncated :
  (0 <? skipSellingIfLostMoreThan Scenario.cfg_odd)%float = true
  /\ 100 * 61728394 < quoteAmount Scenario.cfg_odd * (100 - 50)
  /\ stopSellingAmount Scenario.cfg_odd 50 = 61728394
  /\ 61728394 < initial_stopLoss Scenario.cfg_odd 10
  /\ (exists b',
        waitForSellSignal_body Scenario.cfg_odd Scenario.mint (Scenario.quotes [61728394])
          Scenario.fresh = Some (Return true, b')
        /\ stopLoss b' !! Scenario.mint = None)
  /\ exists b',
       sell Scenario.cfg_odd (Scenario.sell_env (Some Scenario.mint) [61728394]) 5
         Scenario.fresh = Some (Normal tt, b')
       /\ trace b' = [EvSellSignal 0; EvSellSwap 0; EvSellSwap 1; EvSellSwap 2].
Proof.
  split; [vm_compute; reflexivity|]. split; [vm_compute; reflexivity|].
  split; [vm_compute; reflexivity|]. split; [vm_compute; reflexivity|].
  split; eexists; split; vm_compute; reflexivity.
Qed.

(** ** AdmissionController *)

Lemma semaphore_acquire_inv {R : Type} (b b' : Bot) (c : completion R unit) :
  semaphore_acquire (R := R) b = Some (c, b') ->
  0 < semaphore b
  /\ semaphore b' = semaphore b - 1
  /\ sellExecutionCount b' = sellExecutionCount b.
Proof.
  unfold semaphore_acquire, Semaphore.acquire.
  destruct (Z.ltb_spec 0 (semaphore b)) as [Hpos|Hnone]; [|discriminate].
  cbv [log_event modify]. intros H. inversion H; subst. cbn. auto.
Qed.

Lemma semaphore_release_inv {R : Type} (b b' : Bot) (c : completion R unit) :
  semaphore_release (R := R) b = Some (c, b') ->
  semaphore b' = semaphore b + 1
  /\ sellExecutionCount b' = sellExecutionCount b.
Proof.
  unfold semaphore_release, Semaphore.release.
  cbv [log_event modify]. intros H. inversion H; subst. cbn. auto.
Qed.

Lemma admitted_has_room (cfg : BotConfig) (b : Bot) :
  admission_denied cfg b = false ->
  0 < semaphore b
  /\ maxTokensAtTheTime cfg - semaphore b + sellExecutionCount b < maxTokensAtTheTime cfg.
Proof.
  unfold admission_denied, numberOfActionsBeingProcessed, Semaphore.isLocked,
    Semaphore.getValue.
  intros H. apply orb_false_elim in H as [Hlocked Hfull].
  apply Z.leb_gt in Hlocked. apply Z.leb_gt in Hfull. split; assumption.
Qed.

Lemma counters_agree_step (cfg : BotConfig) (s s' : Sys) :
  counters_agree cfg s -> step cfg s s' -> counters_agree cfg s'.
Proof.
  intros (Hsem & Hsell & Hbound) Hstep. unfold counters_agree.
  destruct Hstep as [s Hden | s b' Hadm Hacq | s n b' Hn Hrel | s | s n Hn | s b' Hs Hc];
    cbn [bot buysInFlight sellsInFlight].
  - auto.
  - apply semaphore_acquire_inv in Hacq as (Hpos & Hsem' & Hsell').
    rewrite Hsem', Hsell'. repeat split; lia.
  - apply semaphore_release_inv in Hrel as (Hsem' & Hsell').
    rewrite Hsem', Hsell'. repeat split; lia.
  - cbn. repeat split; lia.
  - cbn. repeat split; lia.
  - rewrite Hs, Hc. auto.
Qed.

Lemma reachable_counters_agree (cfg : BotConfig) (s : Sys) :
  reachable cfg s -> counters_agree cfg s.
Proof.
  induction 1 as [|s s' _ IH Hstep].
  - unfold counters_agree. cbn. repeat split; lia.
  - eapply counters_agree_step; eassumption.
Qed.

(** A denied [buy] returns at once and changes nothing. *)
Lemma buy_denied_returns (cfg : BotConfig) (env : BuyEnv) (b : Bot) :
  admission_denied cfg b = true -> buy cfg env b = Some (Return tt, b).
Proof.
  intros Hden. unfold buy, bind, get, return_, ret.
  destruct (useSnipeList cfg && negb (inSnipeList env)); [reflexivity|].
  rewrite Hden. reflexivity.
Qed.

(** C1, as the code has it. In every state the system can reach:
    the semaphore holds [C] minus the buys in flight, [sellExecutionCount]
    is the number of sells in flight, and at most [C] buys are in flight;
    a buy request made while the semaphore is saturated or while
    [(C - availablePermits) + activeSellCount >= C] returns without
    trading and changes nothing; a buy is admitted only when buys plus
    sells in flight stay within [C] with it; a sell request is never
    denied: it enters in every state, and a [sell] that finds its pool
    entry and a balance goes on to evaluate the exit signal whatever the
    counters say. *)
Theorem admission_gates_buys_only (cfg : BotConfig) (s : Sys) :
  reachable cfg s ->
  let C := maxTokensAtTheTime cfg in
  semaphore (bot s) = C - Z.of_nat (buysInFlight s)
  /\ sellExecutionCount (bot s) = Z.of_nat (sellsInFlight s)
  /\ Z.of_nat (buysInFlight s) <= Z.max 0 C
  /\ (forall env : BuyEnv,
        Semaphore.isLocked (semaphore (bot s)) = true
        \/ C <= (C - Semaphore.getValue (semaphore (bot s))) + sellExecutionCount (bot s) ->
        buy cfg env (bot s) = Some (Return tt, bot s))
  /\ (forall s' : Sys,
        step cfg s s' -> buysInFlight s' = S (buysInFlight s) ->
        Z.of_nat (buysInFlight s') + Z.of_nat (sellsInFlight s') <= C)
  /\ step cfg s {| bot := set_sellExecutionCount (sellExecutionCount (bot s) + 1) (bot s);
                   buysInFlight := buysInFlight s;
                   sellsInFlight := S (sellsInFlight s) |}
  /\ (forall (env : SellEnv) (amount : Z),
        reaches_retries env amount -> 1 <= maxSellRetries cfg ->
        exists c b' evs,
          sell cfg env amount (bot s) = Some (c, b')
          /\ trace b' = trace (bot s) ++ EvSellSignal 0 :: evs).
Proof.
  intros Hreach C.
  destruct (reachable_counters_agree cfg s Hreach) as (Hsem & Hsell & Hbound).
  split; [exact Hsem|]. split; [exact Hsell|]. split; [exact Hbound|].
  split; [|split; [|split]].
  - intros env Hfull. apply buy_denied_returns.
    unfold admission_denied, numberOfActionsBeingProcessed.
    destruct Hfull as [Hlocked | Hfull].
    + rewrite Hlocked. reflexivity.
    + apply orb_true_intro. right. apply Z.leb_le. exact Hfull.
  - intros s' Hstep Hmore.
    destruct Hstep as [s Hden | s b' Hadm Hacq | s n b' Hn Hrel | s | s n Hn | s b' Hs Hc];
      cbn [buysInFlight sellsInFlight] in *; try lia.
    apply admitted_has_room in Hadm as [_ Hroom]. fold C in Hroom, Hsem. lia.
  - apply sell_entered.
  - intros env amount Hretries Hpos.
    destruct (sell_runs cfg env amount (bot s)) as (c & b' & Hrun & _ & _ & _ & Hcases).
    destruct Hcases as [[_ Hno] | (evs & Ht & _)].
    + exfalso. apply Hno. split; assumption.
    + exists c, b', evs. split; assumption.
Qed.

Lemma reachable_one_buy : reachable Scenario.cfg Scenario.one_buy.
Proof.
  eapply reach_step; [apply reach_boot|].
  apply (buy_admitted Scenario.cfg (boot Scenario.cfg) Scenario.saturated); reflexivity.
Qed.

Lemma reachable_one_buy_one_sell : reachable Scenario.cfg Scenario.one_buy_one_sell.
Proof.
  eapply reach_step; [apply reachable_one_buy|].
  apply (sell_entered Scenario.cfg Scenario.one_buy).
Qed.

Lemma admission_gates_buys_only_witness :
  reachable Scenario.cfg Scenario.one_buy
  /\ forall env : BuyEnv,
       buy Scenario.cfg env Scenario.saturated = Some (Return tt, Scenario.saturated).
Proof.
  split; [exact reachable_one_buy|].
  intros env.
  apply (admission_gates_buys_only Scenario.cfg Scenario.one_buy reachable_one_buy).
  left. reflexivity.
Defined.

(** C1 as stated fails at the sell entry point. With capacity 1 and one
    buy in flight the semaphore is saturated and a buy is denied, yet the
    system reaches a state with that buy and a sell in flight together, two
    operations for a capacity of one; and a [sell] that enters in the
    saturated state is not denied: it calls the exit signal and attempts its
    swaps. *)
Lemma sell_enters_when_saturated :
  maxTokensAtTheTime Scenario.cfg = 1
  /\ admission_denied Scenario.cfg Scenario.saturated = true
  /\ reachable Scenario.cfg Scenario.one_buy_one_sell
  /\ (buysInFlight Scenario.one_buy_one_sell + sellsInFlight Scenario.one_buy_one_sell = 2)%nat
  /\ option_map (fun r => trace (snd r))
       (sell Scenario.cfg (Scenario.sell_env (Some Scenario.mint) [1250000000]) 5
          Scenario.saturated)
     = Some [EvAcquire; EvSellSignal 0; EvSellSwap 0; EvSellSwap 1; EvSellSwap 2].
Proof.
  split; [reflexivity|]. split; [reflexivity|].
  split; [exact reachable_one_buy_one_sell|]. split; [reflexivity|].
  vm_compute. reflexivity.
Qed.

(** Runs of [buy] along its exits: the second attempt confirms; the clock
    is past the 10 s deadline at the third attempt; the entry gate gives no
    signal; an exception before the gates. Each takes one permit and gives
    it back once. *)
Example buy_exits :
  let observe (r : option (completion unit unit * Bot)) :=
    option_map (fun r => (fst r, semaphore (snd r), trace (snd r))) r in
  observe (buy Scenario.cfg
             (Scenario.entering_env (fun i => Nat.eqb i 1) (fun i => Z.of_nat i))
             Scenario.fresh)
    = Some (Normal tt, 1, [EvAcquire; EvBuySwap 0; EvBuySwap 1; EvRelease])
  /\ observe (buy Scenario.cfg
                (Scenario.entering_env (fun _ => false) (fun i => 6000 * Z.of_nat i))
                Scenario.fresh)
    = Some (Return tt, 1, [EvAcquire; EvBuySwap 0; EvBuySwap 1; EvRelease])
  /\ observe (buy Scenario.cfg Scenario.buy_env Scenario.fresh)
    = Some (Return tt, 1, [EvAcquire; EvRelease])
  /\ observe (buy Scenario.cfg
                {| inSnipeList := false; buyLookups := Rejected; buyPoolKeys := Resolved tt;
                   filterFeed := fun _ => Rejected; priceFeed := Scenario.series_feed;
                   startTime := 0; now := fun _ => 0;
                   buySwap := fun _ => Rejected |}
                Scenario.fresh)
    = Some (Normal tt, 1, [EvAcquire; EvRelease]).
Proof.
  repeat split; vm_compute; reflexivity.
Qed.

(* ================================================================== *)
(** * Further properties *)

(** ** MomentumSignal, beyond the guard *)

(** X1: from 35 samples on, [macdLine] has [n - 26] entries and [signal]
    has [n - 34], every index the function reads is in range, and both
    returned values are numbers (not null). *)
Theorem macd_well_formed_from_35_samples (data : list float) :
  (35 <= length data)%nat ->
  length (macdLine_of data) = (length data - 26)%nat
  /\ length (signal_of (macdLine_of data)) = (length data - 34)%nat
  /\ Forall in_bounds (macd_reads data)
  /\ exists m s, calculateMACDv2 data = {| macd := Some m; signal := Some s |}.
Proof.
  intros Hlen.
  destruct (macd_35_samples data Hlen) as [Hreads Hvalues].
  split; [apply macdLine_length|]. split; [|split; assumption].
  rewrite signal_length, macdLine_length. unfold longPeriod, signalPeriod. lia.
Qed.

Lemma macd_well_formed_from_35_samples_witness :
  (35 <= length Scenario.series)%nat
  /\ length (signal_of (macdLine_of Scenario.series)) = 1%nat.
Proof.
  assert (Hlen : (35 <= length Scenario.series)%nat) by (simpl; lia).
  split; [exact Hlen|].
  apply (macd_well_formed_from_35_samples Scenario.series Hlen).
Defined.

Lemma delta_length (prices : list float) :
  length (delta_of prices) = (length prices - 1)%nat.
Proof.
  unfold delta_of, for_range.
  rewrite (fold_push_length (fun l => l)
             (fun i delta => delta ++ [(at_ prices i - at_ prices (i - 1))%float])).
  - simpl. rewrite length_seq. reflexivity.
  - intros i l. rewrite length_app. simpl. lia.
Qed.

Lemma for_range_last {S : Type} (a b : nat) (body : nat -> S -> S) (init : S) :
  (a <= b)%nat ->
  for_range a (Datatypes.S b) body init = body b (for_range a b body init).
Proof.
  intros Hle. unfold for_range.
  replace (Datatypes.S b - a)%nat with (Datatypes.S (b - a)) by lia.
  rewrite seq_S, fold_left_app. simpl.
  replace (a + (b - a))%nat with b by lia. reflexivity.
Qed.

(** X2: [delta] has one entry less than [prices], yet the smoothing loop
    of [calculateRSIv2] runs up to [prices.length - 1]: on every input of
    15 prices or more its last step reads [delta] one past its end, so that
    step smooths with a gain of 0 and a loss of 0 whatever the prices are. *)
Theorem rsi_last_step_reads_past_delta (prices : list float) :
  (15 <= length prices)%nat ->
  let delta := delta_of prices in
  let last := (length prices - 1)%nat in
  length delta = last
  /\ (exists before : float * float * float,
        calculateRSIv2 prices = snd (rsi_body delta last before))
  /\ forall (prevAvgGain prevAvgLoss cRSI : float),
       rsi_body delta last (prevAvgGain, prevAvgLoss, cRSI) =
         let avgGain := ((prevAvgGain * (14 - 1) + 0) / 14)%float in
         let avgLoss := ((prevAvgLoss * (14 - 1) + 0) / 14)%float in
         (avgGain, avgLoss, (100 - 100 / (1 + avgGain / avgLoss))%float).
Proof.
  intros Hlen delta last.
  assert (Hdelta : length delta = last) by apply delta_length.
  split; [exact Hdelta|]. split.
  - unfold calculateRSIv2. fold delta.
    destruct (for_range 0 period (sums_body delta) (0%float, 0%float)) as [gainSum lossSum].
    replace (length prices) with (Datatypes.S last) by (subst last; lia).
    rewrite for_range_last by (unfold period; subst last; lia).
    eexists. reflexivity.
  - intros pg pl c. unfold rsi_body.
    replace (at_ delta last) with nan
      by (unfold at_; symmetry; apply nth_overflow; lia).
    reflexivity.
Qed.

Lemma rsi_last_step_reads_past_delta_witness :
  (15 <= length Scenario.series)%nat
  /\ length (delta_of Scenario.series) = 34%nat.
Proof.
  assert (Hlen : (15 <= length Scenario.series)%nat) by (simpl; lia).
  split; [exact Hlen|].
  apply (rsi_last_step_reads_past_delta Scenario.series Hlen).
Defined.

(** ** EntryGate, beyond the entry rule *)

Lemma calculateRSIv2_short (prices : list float) :
  (length prices < 15)%nat -> calculateRSIv2 prices = 0%float.
Proof.
  intros Hlen. unfold calculateRSIv2.
  destruct (for_range 0 period (sums_body (delta_of prices)) (0%float, 0%float))
    as [gainSum lossSum].
  rewrite for_range_empty by (unfold period; lia). reflexivity.
Qed.

(** The entry rule of the code cannot hold on fewer than 35 prices: MACD
    is null below 34 and the signal is NaN at 34. *)
Lemma buy_condition_needs_35 (r : float) (prices : list float) :
  buy_condition r (calculateMACDv2 prices) = true -> (35 <= length prices)%nat.
Proof.
  intros Hbuy.
  destruct (Nat.lt_ge_cases (length prices) 34%nat) as [Hshort | Hlong].
  - rewrite macd_null_below_guard in Hbuy by assumption.
    unfold buy_condition in Hbuy. cbn [macd signal truthy] in Hbuy.
    rewrite !andb_false_r in Hbuy. discriminate.
  - destruct (Nat.eq_dec (length prices) 34%nat) as [H34 | Hne]; [|lia].
    destruct (macd_34_samples prices H34) as (_ & _ & m & s & Hm & Hnan).
    rewrite Hm in Hbuy. unfold buy_condition in Hbuy. cbn [macd signal truthy] in Hbuy.
    rewrite Hnan in Hbuy. cbn [negb] in Hbuy.
    rewrite !andb_false_r in Hbuy. discriminate.
Qed.

Lemma push_price_length (prices : list float) (price : float) :
  (length (push_price prices price) <= S (length prices))%nat.
Proof.
  unfold push_price. destruct (_ || _); [rewrite length_app; simpl|]; lia.
Qed.

Lemma at_app_last (l : list float) (x : float) : at_ (l ++ [x]) (length l) = x.
Proof. unfold at_. rewrite app_nth2, Nat.sub_diag by lia. reflexivity. Qed.

Lemma at_app_before (l : list float) (x : float) (i : nat) :
  (i < length l)%nat -> at_ (l ++ [x]) i = at_ l i.
Proof. intros Hi. unfold at_. apply app_nth1. exact Hi. Qed.

Lemma at_last_as_index (l : list float) (n : nat) :
  length l = S n -> at_last l = at_ l n.
Proof.
  intros Hlen. unfold at_last, at_.
  destruct (exists_last (l := l)) as (l' & x & ->).
  { intros ->. discriminate. }
  rewrite length_app in Hlen. simpl in Hlen.
  rewrite last_last, app_nth2 by lia.
  replace (n - length l')%nat with 0%nat by lia. reflexivity.
Qed.

Lemma push_price_no_repeat (prices : list float) (price : float) :
  no_repeat prices -> no_repeat (push_price prices price).
Proof.
  intros Hprices. unfold push_price.
  destruct (length prices) as [|n] eqn:Hlen.
  - cbn [Nat.eqb orb]. destruct prices; [|discriminate].
    intros i Hi. simpl in Hi. lia.
  - cbn [Nat.eqb orb]. destruct (price =? at_last prices)%float eqn:Hsame; cbn [negb].
    + exact Hprices.
    + intros i Hi. rewrite length_app in Hi. simpl in Hi.
      destruct (Nat.eq_dec (S i) (length prices)) as [Hnew | Hold].
      * rewrite Hnew, at_app_last, at_app_before by lia.
        rewrite (at_last_as_index prices n Hlen) in Hsame.
        replace i with n by lia. exact Hsame.
      * rewrite !at_app_before by lia. apply Hprices. lia.
Qed.

(** What every tick keeps: at most one price per tick, none repeated. *)
Lemma signal_tick_keeps (fetched : outcome float) (st : GateState) :
  (length (prices st) <= timesChecked st)%nat ->
  no_repeat (prices st) ->
  let r := signal_tick fetched st in
  (length (prices (snd r)) <= timesChecked (snd r))%nat
  /\ no_repeat (prices (snd r))
  /\ (fst r = Return true ->
      buy_condition (calculateRSIv2 (prices (snd r)))
        (calculateMACDv2 (prices (snd r))) = true).
Proof.
  intros Hlen Hrep. unfold signal_tick, signal_try.
  destruct fetched as [price|].
  - pose proof (push_price_length (prices st) price) as Hpush.
    pose proof (push_price_no_repeat (prices st) price Hrep) as Hrep'.
    destruct (abort_condition _ _ _); cbn [fst snd prices timesChecked].
    + split; [lia|]. split; [exact Hrep' | discriminate].
    + destruct (buy_condition _ _) eqn:Hbuy; cbn [fst snd prices timesChecked].
      * split; [lia|]. split; [exact Hrep'|]. intros _. exact Hbuy.
      * split; [lia|]. split; [exact Hrep' | discriminate].
  - cbn [fst snd prices timesChecked]. split; [lia|]. split; [exact Hrep | discriminate].
Qed.

Lemma signal_loop_keeps (feed : nat -> outcome float) (fuel : nat) :
  forall (st st' : GateState) (b : bool),
    (length (prices st) <= timesChecked st)%nat ->
    no_repeat (prices st) ->
    signal_loop fuel feed st = Some (b, st') ->
    (length (prices st') <= timesChecked st')%nat
    /\ no_repeat (prices st')
    /\ (b = true ->
        buy_condition (calculateRSIv2 (prices st')) (calculateMACDv2 (prices st')) = true).
Proof.
  induction fuel as [|fuel IH]; intros st st' b Hlen Hrep Hrun; [discriminate|].
  rewrite signal_loop_unfold in Hrun.
  pose proof (signal_tick_keeps (feed (timesChecked st)) st Hlen Hrep) as Hkeep.
  destruct (signal_tick (feed (timesChecked st)) st) as [c st1].
  cbn [fst snd] in Hkeep. destruct Hkeep as (Hlen1 & Hrep1 & Htrue).
  assert (Hnext : (if (timesChecked st1 <? timesToCheck)%nat
                   then signal_loop fuel feed st1 else Some (false, st1)) = Some (b, st') ->
                  (length (prices st') <= timesChecked st')%nat
                  /\ no_repeat (prices st')
                  /\ (b = true ->
                      buy_condition (calculateRSIv2 (prices st'))
                        (calculateMACDv2 (prices st')) = true)).
  { destruct (timesChecked st1 <? timesToCheck)%nat.
    - apply IH; assumption.
    - intros H. inversion H; subst. split; [assumption|]. split; [assumption | discriminate]. }
  destruct c as [[]| |r|]; try (apply Hnext; exact Hrun).
  inversion Hrun; subst. split; [assumption|]. split; [assumption|].
  intros ->. apply Htrue. reflexivity.
Qed.

(** X3: [waitForBuySignal] cannot return [true] before its 35th tick: when
    it returns [true] it has collected at least 35 prices, one per
    tick at most, and the entry rule of line 247 holds on them. *)
Theorem buy_signal_needs_35_prices (cfg : BotConfig) (feed : nat -> outcome float)
    (st : GateState) :
  waitForBuySignal cfg feed = Some (true, st) ->
  (35 <= length (prices st) <= timesChecked st)%nat
  /\ buy_condition (calculateRSIv2 (prices st)) (calculateMACDv2 (prices st)) = true.
Proof.
  unfold waitForBuySignal. intros Hrun.
  apply signal_loop_keeps in Hrun as (Hlen & _ & Hbuy).
  - specialize (Hbuy eq_refl). split; [|exact Hbuy].
    split; [eapply buy_condition_needs_35; exact Hbuy | exact Hlen].
  - simpl. lia.
  - intros i Hi. simpl in Hi. lia.
Qed.

Lemma buy_signal_needs_35_prices_witness :
  exists st,
    waitForBuySignal Scenario.cfg Scenario.entry_feed = Some (true, st)
    /\ (35 <= length (prices st) <= timesChecked st)%nat.
Proof.
  destruct (waitForBuySignal Scenario.cfg Scenario.entry_feed) as [[[|] st]|] eqn:Hrun;
    try (vm_compute in Hrun; discriminate).
  exists st. split; [reflexivity|].
  apply (buy_signal_needs_35_prices Scenario.cfg Scenario.entry_feed st Hrun).
Defined.

(** X4: the price list [waitForBuySignal] ends with never holds the same
    price twice in a row (it pushes a price only when it differs from the
    last one pushed), and holds at most one price per tick. *)
Theorem gate_prices_are_deduplicated (cfg : BotConfig) (feed : nat -> outcome float)
    (b : bool) (st : GateState) :
  waitForBuySignal cfg feed = Some (b, st) ->
  no_repeat (prices st) /\ (length (prices st) <= timesChecked st)%nat.
Proof.
  unfold waitForBuySignal. intros Hrun.
  apply signal_loop_keeps in Hrun as (Hlen & Hrep & _).
  - split; assumption.
  - simpl. lia.
  - intros i Hi. simpl in Hi. lia.
Qed.

Lemma gate_prices_are_deduplicated_witness :
  exists st,
    waitForBuySignal Scenario.cfg Scenario.series_feed = Some (false, st)
    /\ no_repeat (prices st) /\ length (prices st) = 35%nat.
Proof.
  destruct (waitForBuySignal Scenario.cfg Scenario.series_feed) as [[[|] st]|] eqn:Hrun;
    try (vm_compute in Hrun; discriminate).
  exists st. split; [reflexivity|]. split.
  - apply (gate_prices_are_deduplicated Scenario.cfg Scenario.series_feed false st Hrun).
  - vm_compute in Hrun. inversion Hrun. reflexivity.
Defined.

Lemma signal_loop_all_failing (feed : nat -> outcome float) (fuel : nat) :
  (forall k, feed k = Rejected) ->
  forall tc : nat,
    (tc < 300)%nat -> (300 <= tc + fuel)%nat ->
    signal_loop fuel feed {| timesChecked := tc; prices := []; slept := [] |}
    = Some (false, {| timesChecked := 300; prices := []; slept := [] |}).
Proof.
  intros Hfeed. induction fuel as [|fuel IH]; intros tc Htc Hfuel; [lia|].
  rewrite signal_loop_unfold. cbn [timesChecked]. rewrite Hfeed.
  unfold signal_tick, signal_try. cbn [timesChecked prices slept].
  rewrite timesToCheck_300.
  destruct (Nat.ltb_spec (S tc) 300) as [Hmore | Hdone].
  - apply IH; lia.
  - replace (S tc) with 300%nat by lia. reflexivity.
Qed.


(** A tick adds a sleep or a price only when its fetch succeeded. *)
Lemma signal_tick_counts (feed : nat -> outcome float) (st : GateState) :
  let n := fetched_count feed (timesChecked st) in
  (length (slept st) <= n)%nat -> (length (prices st) <= n)%nat ->
  let st' := snd (signal_tick (feed (timesChecked st)) st) in
  let n' := fetched_count feed (timesChecked st') in
  (length (slept st') <= n')%nat /\ (length (prices st') <= n')%nat.
Proof.
  intros n Hs Hp. unfold signal_tick, signal_try.
  pose proof (fetched_count_S feed (timesChecked st)) as Hcount.
  destruct (feed (timesChecked st)) as [price|].
  - pose proof (push_price_length (prices st) price) as Hpush.
    destruct (abort_condition _ _ _); [|destruct (buy_condition _ _)];
      cbn [snd timesChecked prices slept]; rewrite Hcount, ?length_app; simpl; lia.
  - cbn [snd timesChecked prices slept]. rewrite Hcount. lia.
Qed.

Lemma signal_loop_counts (feed : nat -> outcome float) (fuel : nat) :
  forall (st st' : GateState) (b : bool),
    (length (slept st) <= fetched_count feed (timesChecked st))%nat ->
    (length (prices st) <= fetched_count feed (timesChecked st))%nat ->
    signal_loop fuel feed st = Some (b, st') ->
    (length (slept st') <= fetched_count feed (timesChecked st'))%nat
    /\ (length (prices st') <= fetched_count feed (timesChecked st'))%nat.
Proof.
  induction fuel as [|fuel IH]; intros st st' b Hs Hp Hrun; [discriminate|].
  rewrite signal_loop_unfold in Hrun.
  pose proof (signal_tick_counts feed st Hs Hp) as Hkeep.
  destruct (signal_tick (feed (timesChecked st)) st) as [c st1].
  cbn [snd] in Hkeep. destruct Hkeep as [Hs1 Hp1].
  assert (Hnext : (if (timesChecked st1 <? timesToCheck)%nat
                   then signal_loop fuel feed st1 else Some (false, st1)) = Some (b, st') ->
                  (length (slept st') <= fetched_count feed (timesChecked st'))%nat
                  /\ (length (prices st') <= fetched_count feed (timesChecked st'))%nat).
  { destruct (timesChecked st1 <? timesToCheck)%nat.
    - apply IH; assumption.
    - intros H. inversion H; subst. split; assumption. }
  destruct c as [[]| |r|]; try (apply Hnext; exact Hrun).
  inversion Hrun; subst. split; assumption.
Qed.

(** X5: a failing price fetch is not fatal and is not followed by a
    sleep. In every run of [waitForBuySignal] the sleeps made and the
    prices collected are each at most as many as the fetches that
    succeeded; when every fetch throws, the run goes through all 300 ticks
    without sleeping, collects no price, and returns [false]. *)
Theorem gate_survives_failing_fetches (cfg : BotConfig) (feed : nat -> outcome float)
    (b : bool) (st : GateState) :
  waitForBuySignal cfg feed = Some (b, st) ->
  (length (slept st) <= fetched_count feed (timesChecked st))%nat
  /\ (length (prices st) <= fetched_count feed (timesChecked st))%nat
  /\ ((forall k, feed k = Rejected) ->
      b = false /\ st = {| timesChecked := 300; prices := []; slept := [] |}).
Proof.
  intros Hrun.
  assert (Hcounts : (length (slept st) <= fetched_count feed (timesChecked st))%nat
                    /\ (length (prices st) <= fetched_count feed (timesChecked st))%nat).
  { unfold waitForBuySignal in Hrun.
    apply (signal_loop_counts feed _ _ _ _) in Hrun; [exact Hrun | simpl; lia | simpl; lia]. }
  destruct Hcounts as [Hs Hp]. split; [exact Hs|]. split; [exact Hp|].
  intros Hfeed. unfold waitForBuySignal in Hrun.
  rewrite signal_loop_all_failing in Hrun;
    [|exact Hfeed | lia | rewrite timesToCheck_300; lia].
  inversion Hrun. split; reflexivity.
Qed.

Lemma gate_survives_failing_fetches_witness :
  waitForBuySignal Scenario.cfg (fun _ => Rejected)
  = Some (false, {| timesChecked := 300; prices := []; slept := [] |})
  /\ (length (slept {| timesChecked := 300; prices := []; slept := [] |})
      <= fetched_count (fun _ : nat => @Rejected float) 300)%nat.
Proof.
  assert (Hrun : waitForBuySignal Scenario.cfg (fun _ => Rejected)
                 = Some (false, {| timesChecked := 300; prices := []; slept := [] |})).
  { vm_compute. reflexivity. }
  split; [exact Hrun|].
  apply (gate_survives_failing_fetches Scenario.cfg (fun _ => Rejected) false _ Hrun).
Defined.

Lemma push_price_same (p : float) :
  is_nan p = false -> push_price [] p = [p] /\ push_price [p] p = [p].
Proof.
  intros Hnan. unfold is_nan in Hnan. apply negb_false_iff in Hnan.
  split; [reflexivity|]. unfold push_price. cbn [length Nat.eqb orb at_last List.last].
  rewrite Hnan. reflexivity.
Qed.

(** One tick on a price list that holds a single price and gets the same
    price again: it sleeps before tick 60 and gives up from tick 60 on. *)
Lemma signal_tick_constant (p : float) (tc : nat) (sl : list Z) (ps : list float) :
  push_price ps p = [p] ->
  signal_tick (Resolved p) {| timesChecked := tc; prices := ps; slept := sl |}
  = if (60 <=? tc)%nat
    then (Return false, {| timesChecked := S tc; prices := [p]; slept := sl |})
    else (Normal tt, {| timesChecked := S tc; prices := [p]; slept := sl ++ [1000] |}).
Proof.
  intros Hpush. unfold signal_tick, signal_try. cbn [timesChecked prices slept].
  rewrite Hpush, calculateRSIv2_short, macd_null_below_guard by (simpl; lia).
  unfold abort_condition, buy_condition, maxSignalWaitTries.
  cbn [macd signal truthy negb].
  destruct (60 <=? tc)%nat; reflexivity.
Qed.

Lemma signal_loop_constant (p : float) (fuel : nat) :
  is_nan p = false ->
  forall tc : nat,
    (1 <= tc <= 60)%nat -> (61 <= tc + fuel)%nat ->
    signal_loop fuel (fun _ => Resolved p)
      {| timesChecked := tc; prices := [p]; slept := repeat 1000 tc |}
    = Some (false, {| timesChecked := 61; prices := [p]; slept := repeat 1000 60 |}).
Proof.
  intros Hnan. induction fuel as [|fuel IH]; intros tc Htc Hfuel; [lia|].
  rewrite signal_loop_unfold. cbn [timesChecked].
  rewrite signal_tick_constant by (apply push_price_same; exact Hnan).
  destruct (Nat.leb_spec 60 tc) as [Hlast | Hmore].
  - replace tc with 60%nat by lia. reflexivity.
  - cbn [timesChecked]. rewrite timesToCheck_300.
    replace (S tc <? 300)%nat with true by (symmetry; apply Nat.ltb_lt; lia).
    replace (repeat 1000 tc ++ [1000]) with (repeat 1000 (S tc))
      by (rewrite <- repeat_cons; reflexivity).
    apply IH; lia.
Qed.

(** X6: when the pool quotes the same price at every tick, the gate keeps
    a single price, sleeps through its first 60 ticks, and gives up at the
    61st with [false]: RSI is still 0 and there is no MACD value. *)
Theorem gate_gives_up_on_constant_price (cfg : BotConfig) (p : float) :
  is_nan p = false ->
  waitForBuySignal cfg (fun _ => Resolved p)
  = Some (false, {| timesChecked := 61; prices := [p]; slept := repeat 1000 60 |}).
Proof.
  intros Hnan. unfold waitForBuySignal.
  replace timesToCheck with (S 299) by (rewrite timesToCheck_300; reflexivity).
  rewrite signal_loop_unfold. cbn [timesChecked].
  rewrite signal_tick_constant by (apply push_price_same; exact Hnan).
  cbn [Nat.leb timesChecked]. rewrite timesToCheck_300.
  change (1 <? 300)%nat with true. cbn iota.
  apply (signal_loop_constant p 299 Hnan 1); lia.
Qed.

Lemma gate_gives_up_on_constant_price_witness :
  is_nan 1.5%float = false
  /\ waitForBuySignal Scenario.cfg (fun _ => Resolved 1.5%float)
     = Some (false, {| timesChecked := 61; prices := [1.5%float];
                       slept := repeat 1000 60 |}).
Proof.
  split; [reflexivity|].
  apply (gate_gives_up_on_constant_price Scenario.cfg 1.5%float). reflexivity.
Defined.

(** ** ExitMonitor, beyond the floor *)

(** What one tick does to the map and what its completion tells. *)
Lemma monitor_tick_facts (cfg : BotConfig) (mint : string) (tp : Z)
    (quoted : outcome Z) (sl : Z) (b : Bot) :
  exists c b',
    monitor_tick cfg mint tp quoted sl b = Some (c, b')
    /\ same_counters b b'
    /\ (forall other : string, other <> mint -> stopLoss b' !! other = stopLoss b !! other)
    /\ (quoted = Rejected -> c = Normal sl /\ b' = b)
    /\ (c = Return false ->
        exists a threshold,
          quoted = Resolved a
          /\ veto_threshold cfg = Resolved (Some threshold) /\ a < threshold)
    /\ c <> Return true /\ c <> Throw
    /\ (forall a, quoted = Resolved a -> tp < a ->
        trailing_floor cfg a sl <> Rejected -> veto_threshold cfg <> Rejected ->
        (c = Break \/ c = Return false) /\ stopLoss b' !! mint = None).
Proof.
  destruct quoted as [a|].
  - rewrite monitor_tick_fetched.
    destruct (trailing_floor cfg a sl) as [sl'|] eqn:Hfloor.
    2:{ exists (Normal sl), b. split; [reflexivity|]. split; [apply same_counters_refl|].
        split; [reflexivity|]. split; [discriminate|]. split; [discriminate|].
        split; [discriminate|]. split; [discriminate|].
        intros a0 Ha0 _ Hne. inversion Ha0; subst a0. congruence. }
    destruct (trailing_floor_raised cfg mint a sl sl' b Hfloor)
      as (_ & Hsame & Hframe & _).
    cbv zeta.
    set (b1 := if sl <? sl' then set_stopLoss (<[mint := sl']> (stopLoss b)) b else b) in *.
    set (closed := set_stopLoss (delete mint (stopLoss b1)) b1).
    assert (Hclosed : same_counters b closed
                      /\ (forall other, other <> mint ->
                            stopLoss closed !! other = stopLoss b !! other)
                      /\ stopLoss closed !! mint = None).
    { subst closed. split; [|split].
      - eapply same_counters_trans; [exact Hsame | apply same_counters_set_stopLoss].
      - intros other Hne. rewrite lookup_set_stopLoss, lookup_delete_ne by congruence.
        apply Hframe. exact Hne.
      - rewrite lookup_set_stopLoss. apply lookup_delete_eq. }
    destruct Hclosed as (Hsame' & Hframe' & Hgone).
    destruct (veto_threshold cfg) as [threshold|] eqn:Hthreshold.
    2:{ exists (Normal sl'), b1. split; [reflexivity|]. split; [exact Hsame|].
        split; [exact Hframe|]. split; [discriminate|]. split; [discriminate|].
        split; [discriminate|]. split; [discriminate|].
        intros a0 _ _ _ Hne. contradiction. }
    destruct (vetoes threshold a) eqn:Hveto.
    + destruct threshold as [t|]; [|discriminate Hveto].
      cbn [vetoes] in Hveto. apply Z.ltb_lt in Hveto.
      exists (Return false), closed. split; [reflexivity|].
      split; [exact Hsame'|]. split; [exact Hframe'|]. split; [discriminate|].
      split; [intros _; exists a, t; auto|].
      split; [discriminate|]. split; [discriminate|]. intros a0 _ _ _ _. auto.
    + destruct (a <? sl') eqn:Hstop.
      * exists Break, closed. split; [reflexivity|].
        split; [exact Hsame'|]. split; [exact Hframe'|]. split; [discriminate|].
        split; [discriminate|]. split; [discriminate|]. split; [discriminate|].
        intros a0 _ _ _ _. auto.
      * destruct (Z.ltb_spec tp a) as [Htake | Hnot].
        -- exists Break, closed. split; [reflexivity|].
           split; [exact Hsame'|]. split; [exact Hframe'|]. split; [discriminate|].
           split; [discriminate|]. split; [discriminate|]. split; [discriminate|].
           intros a0 _ _ _ _. auto.
        -- exists (Normal sl'), b1. split; [reflexivity|].
           split; [exact Hsame|]. split; [exact Hframe|]. split; [discriminate|].
           split; [discriminate|]. split; [discriminate|]. split; [discriminate|].
           intros a0 Ha0 Htake. inversion Ha0; subst. lia.
  - rewrite monitor_tick_failed. exists (Normal sl), b. split; [reflexivity|].
    split; [apply same_counters_refl|]. split; [reflexivity|]. split; [auto|].
    split; [discriminate|]. split; [discriminate|]. split; [discriminate|].
    intros a Ha. discriminate.
Qed.

(** What a run of the loop from tick [timesChecked] on does. *)
Lemma monitor_loop_facts (cfg : BotConfig) (mint : string) (tp : Z)
    (feed : nat -> outcome Z) :
  forall (fuel timesChecked : nat) (sl : Z) (b b' : Bot) (c : completion bool unit),
    monitor_loop fuel cfg mint tp feed timesChecked sl b = Some (c, b') ->
    (exists r, c = Return r)
    /\ (forall other : string, other <> mint -> stopLoss b' !! other = stopLoss b !! other)
    /\ (c = Return false ->
        exists k a threshold,
          (timesChecked <= k)%nat /\ feed k = Resolved a
          /\ veto_threshold cfg = Resolved (Some threshold) /\ a < threshold)
    /\ ((forall k, feed k = Rejected) -> c = Return true /\ b' = b).
Proof.
  induction fuel as [|fuel IH]; intros tc sl b b' c Hrun; [discriminate|].
  cbn [monitor_loop] in Hrun.
  destruct (monitor_tick_facts cfg mint tp (feed tc) sl b)
    as (c1 & b1 & Htick & _ & Hframe & Hfail & Hveto & Hnottrue & Hnothrow & _).
  rewrite Htick in Hrun.
  destruct c1 as [sl1| |r|].
  - destruct (below_ratio _ _ _).
    + destruct (IH _ _ _ _ _ Hrun) as (Hret & Hframe' & Hveto' & Hfail').
      split; [exact Hret|]. split; [|split].
      * intros other Hne. rewrite Hframe', Hframe by exact Hne. reflexivity.
      * intros Hc. destruct (Hveto' Hc) as (k & a & t & Hk & Hfeed & Ht & Hlow).
        exists k, a, t. split; [lia|]. auto.
      * intros Hall. destruct (Hfail (Hall tc)) as [_ ->]. apply Hfail'. exact Hall.
    + inversion Hrun; subst. split; [eauto|]. split; [exact Hframe|].
      split; [discriminate|]. intros Hall. destruct (Hfail (Hall tc)) as [_ ->]. auto.
  - inversion Hrun; subst. split; [eauto|]. split; [exact Hframe|].
    split; [discriminate|]. intros Hall. destruct (Hfail (Hall tc)) as [Hc _]. discriminate.
  - inversion Hrun; subst. split; [eauto|]. split; [exact Hframe|]. split.
    + intros Hc. inversion Hc; subst.
      destruct (Hveto eq_refl) as (a & t & Hfeed & Ht & Hlow).
      exists tc, a, t. auto.
    + intros Hall. destruct (Hfail (Hall tc)) as [Hc _]. discriminate.
  - congruence.
Qed.

Lemma veto_threshold_some (cfg : BotConfig) (threshold : Z) :
  veto_threshold cfg = Resolved (Some threshold) ->
  (0 <? skipSellingIfLostMoreThan cfg)%float = true
  /\ exists rest,
       parseBigNumberish (100 - skipSellingIfLostMoreThan cfg)%float = Resolved rest
       /\ threshold = stopSellingAmount cfg rest.
Proof.
  unfold veto_threshold.
  destruct (0 <? skipSellingIfLostMoreThan cfg)%float; [|discriminate].
  destruct (parseBigNumberish (100 - skipSellingIfLostMoreThan cfg)%float) as [rest|];
    [|discriminate].
  intros H. inversion H; subst. eauto.
Qed.

(** A run of the body from its first line, with what the loop adds. *)
Lemma waitForSellSignal_body_facts (cfg : BotConfig) (mint : string)
    (feed : nat -> outcome Z) (b : Bot) :
  exists c b',
    waitForSellSignal_body cfg mint feed b = Some (c, b')
    /\ same_counters b b'
    /\ (c = Return true \/ c = Return false \/ c = Throw)
    /\ (c = Throw <->
        priceCheckDuration cfg <> 0 /\ priceCheckInterval cfg <> 0
        /\ prelude_passes cfg mint b = false)
    /\ (forall other : string, other <> mint -> stopLoss b' !! other = stopLoss b !! other)
    /\ (c = Return false ->
        exists k a threshold,
          feed k = Resolved a
          /\ veto_threshold cfg = Resolved (Some threshold) /\ a < threshold)
    /\ ((forall k, feed k = Rejected) -> c <> Throw ->
        c = Return true
        /\ (priceCheckDuration cfg = 0 \/ priceCheckInterval cfg = 0 -> b' = b)
        /\ (priceCheckDuration cfg <> 0 -> priceCheckInterval cfg <> 0 ->
            exists sl, entry_floor cfg mint b = Some sl
                       /\ stopLoss b' = <[mint := sl]> (stopLoss b))).
Proof.
  destruct (waitForSellSignal_body_runs cfg mint feed b)
    as (c & b' & Hrun & Hsame & Hc & Hthrow & _).
  exists c, b'. split; [exact Hrun|]. split; [exact Hsame|]. split; [exact Hc|].
  split; [exact Hthrow|].
  destruct (Z.eq_dec (priceCheckDuration cfg) 0) as [Hd | Hd];
    [|destruct (Z.eq_dec (priceCheckInterval cfg) 0) as [Hi | Hi]].
  - revert Hrun. unfold waitForSellSignal_body.
    replace (priceCheckDuration cfg =? 0) with true by (symmetry; apply Z.eqb_eq; exact Hd).
    cbn [orb]. intros H. inversion H; subst.
    split; [reflexivity|]. split; [discriminate|]. intros _ _.
    split; [reflexivity|]. split; [reflexivity | contradiction].
  - revert Hrun. unfold waitForSellSignal_body.
    replace (priceCheckInterval cfg =? 0) with true by (symmetry; apply Z.eqb_eq; exact Hi).
    rewrite orb_true_r. intros H. inversion H; subst.
    split; [reflexivity|]. split; [discriminate|]. intros _ _.
    split; [reflexivity|]. split; [reflexivity | contradiction].
  - revert Hrun. rewrite (waitForSellSignal_body_cases cfg mint feed b Hd Hi).
    destruct (parseBigNumberish (takeProfit cfg)) as [pct|].
    2:{ intros H. inversion H; subst. split; [reflexivity|]. split; [discriminate|].
        intros _ Hne. congruence. }
    destruct (entry_floor cfg mint b) as [sl|] eqn:Hsl.
    2:{ intros H. inversion H; subst. split; [reflexivity|]. split; [discriminate|].
        intros _ Hne. congruence. }
    cbv zeta.
    assert (Hinit : forall other : string, other <> mint ->
              stopLoss (set_stopLoss (<[mint := sl]> (stopLoss b)) b) !! other
              = stopLoss b !! other).
    { intros other Hne. rewrite lookup_set_stopLoss. apply lookup_insert_ne. congruence. }
    destruct (parseBigNumberish (sellSlippage cfg)) as [slippage|].
    2:{ intros H. inversion H; subst. split; [exact Hinit|]. split; [discriminate|].
        intros _ Hne. congruence. }
    intros Hrun.
    apply monitor_loop_facts in Hrun as (_ & Hframe & Hveto & Hfail).
    split; [intros other Hne; rewrite Hframe by exact Hne; apply Hinit; exact Hne|].
    split.
    + intros Hfalse. destruct (Hveto Hfalse) as (k & a & t & _ & Hfeed & Ht & Hlow).
      exists k, a, t. auto.
    + intros Hall _. destruct (Hfail Hall) as [-> ->].
      split; [reflexivity|]. split; [intros [H | H]; contradiction|].
      intros _ _. exists sl. split; reflexivity.
Qed.

(** X7: a run of [waitForSellSignal] ends in one of three ways: it
    answers [true], it answers [false], or it throws. It answers [false] only
    through the drawdown veto: a threshold is configured and some tick
    fetched an amount below [stopSellingAmount]. It throws exactly when
    monitoring is switched on and one of the three SDK calls in front of the
    loop rejects its configuration number. Every other way out (a trigger,
    the end of the tick budget, failing fetches, exceptions inside a tick,
    monitoring switched off) answers [true]. *)
Theorem sell_signal_false_only_by_veto (cfg : BotConfig) (mint : string)
    (feed : nat -> outcome Z) (b : Bot) :
  exists c b',
    waitForSellSignal_body cfg mint feed b = Some (c, b')
    /\ (c = Return true \/ c = Return false \/ c = Throw)
    /\ (c = Return false ->
        (0 <? skipSellingIfLostMoreThan cfg)%float = true
        /\ exists (k : nat) (a rest : Z),
             feed k = Resolved a
             /\ parseBigNumberish (100 - skipSellingIfLostMoreThan cfg)%float
                = Resolved rest
             /\ a < stopSellingAmount cfg rest)
    /\ (c = Throw <->
        priceCheckDuration cfg <> 0 /\ priceCheckInterval cfg <> 0
        /\ prelude_passes cfg mint b = false).
Proof.
  destruct (waitForSellSignal_body_facts cfg mint feed b)
    as (c & b' & Hrun & _ & Hc & Hthrow & _ & Hveto & _).
  exists c, b'. split; [exact Hrun|]. split; [exact Hc|]. split; [|exact Hthrow].
  intros Hfalse. destruct (Hveto Hfalse) as (k & a & t & Hfeed & Ht & Hlow).
  apply veto_threshold_some in Ht as (Hskip & rest & Hrest & ->).
  split; [exact Hskip|]. exists k, a, rest. auto.
Qed.

(** X8: monitoring one mint never touches the stop-loss entry of another
    mint, nor the semaphore, [sellExecutionCount] or the trace, however the
    run ends. *)
Theorem monitoring_leaves_other_mints_alone (cfg : BotConfig) (mint : string)
    (feed : nat -> outcome Z) (b : Bot) :
  exists c b',
    waitForSellSignal_body cfg mint feed b = Some (c, b')
    /\ same_counters b b'
    /\ forall other : string, other <> mint -> stopLoss b' !! other = stopLoss b !! other.
Proof.
  destruct (waitForSellSignal_body_facts cfg mint feed b)
    as (c & b' & Hrun & Hsame & _ & _ & Hframe & _).
  exists c, b'. auto.
Qed.

(** X9: the monitor fails open. When every quote fetch throws and the
    SDK calls in front of the loop accept the configured numbers (or
    monitoring is switched off), [waitForSellSignal] returns [true] (sell),
    and all it has done to the bot is to create the entry of the mint if
    there was none. *)
Theorem monitor_fails_open (cfg : BotConfig) (mint : string)
    (feed : nat -> outcome Z) (b : Bot) :
  (forall k, feed k = Rejected) ->
  priceCheckDuration cfg = 0 \/ priceCheckInterval cfg = 0
  \/ prelude_passes cfg mint b = true ->
  exists b',
    waitForSellSignal_body cfg mint feed b = Some (Return true, b')
    /\ same_counters b b'
    /\ (priceCheckDuration cfg <> 0 -> priceCheckInterval cfg <> 0 ->
        exists sl, entry_floor cfg mint b = Some sl
                   /\ stopLoss b' = <[mint := sl]> (stopLoss b))
    /\ (priceCheckDuration cfg = 0 \/ priceCheckInterval cfg = 0 -> b' = b).
Proof.
  intros Hall Hok.
  destruct (waitForSellSignal_body_facts cfg mint feed b)
    as (c & b' & Hrun & Hsame & _ & Hthrow & _ & _ & Hfail).
  assert (Hne : c <> Throw).
  { intros Hc. apply Hthrow in Hc as (Hd & Hi & Hpre).
    destruct Hok as [H | [H | H]]; congruence. }
  destruct (Hfail Hall Hne) as (-> & Hoff & Hon).
  exists b'. auto.
Qed.

Lemma monitor_fails_open_witness :
  exists b',
    waitForSellSignal_body Scenario.cfg Scenario.mint (Scenario.quotes []) Scenario.fresh
    = Some (Return true, b')
    /\ same_counters Scenario.fresh b'.
Proof.
  destruct (monitor_fails_open Scenario.cfg Scenario.mint (Scenario.quotes [])
              Scenario.fresh) as (b' & Hrun & Hsame & _).
  - intros k. unfold Scenario.quotes. destruct k; reflexivity.
  - right. right. vm_compute. reflexivity.
  - exists b'. split; assumption.
Defined.

Lemma monitor_loop_budget (cfg : BotConfig) (mint : string) (tp : Z)
    (feed feed' : nat -> outcome Z) :
  (forall k : nat,
     below_ratio (Z.of_nat k) (priceCheckDuration cfg) (priceCheckInterval cfg) = true ->
     feed k = feed' k) ->
  forall (fuel timesChecked : nat) (sl : Z) (b : Bot),
    feed timesChecked = feed' timesChecked ->
    monitor_loop fuel cfg mint tp feed timesChecked sl b
    = monitor_loop fuel cfg mint tp feed' timesChecked sl b.
Proof.
  intros Hagree fuel. induction fuel as [|fuel IH]; intros tc sl b Htc; [reflexivity|].
  cbn [monitor_loop]. rewrite Htc.
  destruct (monitor_tick cfg mint tp (feed' tc) sl b) as [[[sl1| |r|] b1]|]; try reflexivity.
  destruct (below_ratio _ _ _) eqn:Hmore; [|reflexivity].
  apply IH. apply Hagree. exact Hmore.
Qed.

(** X10: the tick budget. [waitForSellSignal] always makes its first tick
    and after it only ticks [k] with [k < priceCheckDuration / priceCheckInterval]:
    two quote feeds that agree on those ticks give the same answer and the
    same state, whatever they quote later. *)
Theorem monitor_reads_only_its_budget (cfg : BotConfig) (mint : string)
    (feed feed' : nat -> outcome Z) (b : Bot) :
  feed 0%nat = feed' 0%nat ->
  (forall k : nat,
     below_ratio (Z.of_nat k) (priceCheckDuration cfg) (priceCheckInterval cfg) = true ->
     feed k = feed' k) ->
  waitForSellSignal_body cfg mint feed b = waitForSellSignal_body cfg mint feed' b.
Proof.
  intros Hfirst Hagree. unfold waitForSellSignal_body.
  destruct ((priceCheckDuration cfg =? 0) || (priceCheckInterval cfg =? 0)); [reflexivity|].
  unfold bind.
  destruct (percent_of (quoteAmount cfg) (takeProfit cfg) b) as [[[pf| |r|] b0]|];
    try reflexivity.
  destruct (stopLoss_init cfg mint b0) as [[[sl| |r|] b1]|]; try reflexivity.
  destruct (sync (parseBigNumberish (sellSlippage cfg)) b1) as [[[slippage| |r|] b2]|];
    try reflexivity.
  apply monitor_loop_budget; assumption.
Qed.

Lemma monitor_reads_only_its_budget_witness :
  waitForSellSignal_body Scenario.cfg Scenario.mint
    (Scenario.quotes [1000000000; 1000000000; 1000000000; 400000000]) Scenario.fresh
  = waitForSellSignal_body Scenario.cfg Scenario.mint
      (Scenario.quotes [1000000000; 1000000000; 1000000000]) Scenario.fresh.
Proof.
  apply monitor_reads_only_its_budget.
  - reflexivity.
  - intros k Hk. unfold below_ratio in Hk. cbn in Hk.
    apply Z.ltb_lt in Hk.
    assert (Hlt : (k < 3)%nat) by lia.
    destruct k as [|[|[|k]]]; [reflexivity | reflexivity | reflexivity | lia].
Defined.

(** X11: a quote above the take-profit amount [tp] that the function
    computed on entry ends the monitoring at that tick with the entry of the
    mint deleted, and the answer is [true] unless the drawdown veto applies
    to the same quote; this needs the tick to reach its tests, that is, the
    SDK to accept the stop-loss percentage (when trailing is on) and
    [100 - skipSellingIfLostMoreThan] (when a threshold is configured). *)
Theorem take_profit_ends_monitoring (cfg : BotConfig) (mint : string)
    (feed : nat -> outcome Z) (fuel timesChecked : nat) (tp sl a : Z) (b : Bot) :
  feed timesChecked = Resolved a ->
  tp < a ->
  (trailingStopLoss cfg = true -> parses (Config.stopLoss cfg) = true) ->
  veto_threshold cfg <> Rejected ->
  exists r b',
    monitor_loop (S fuel) cfg mint tp feed timesChecked sl b = Some (Return r, b')
    /\ stopLoss b' !! mint = None
    /\ (r = false ->
        exists threshold,
          veto_threshold cfg = Resolved (Some threshold) /\ a < threshold).
Proof.
  intros Hfeed Htake Hok Hcheck. cbn [monitor_loop]. rewrite Hfeed.
  destruct (monitor_tick_facts cfg mint tp (Resolved a) sl b)
    as (c & b' & Htick & _ & _ & _ & Hveto & _ & _ & Hclose).
  rewrite Htick.
  destruct (trailing_floor_parses cfg a sl Hok) as (sl' & Hfloor).
  destruct (Hclose a eq_refl Htake) as [[-> | ->] Hgone];
    [rewrite Hfloor; discriminate | exact Hcheck | |].
  - exists true, b'. split; [reflexivity|]. split; [exact Hgone | discriminate].
  - exists false, b'. split; [reflexivity|]. split; [exact Hgone|]. intros _.
    destruct (Hveto eq_refl) as (a0 & t & Ha0 & Ht & Hlow). inversion Ha0; subst. eauto.
Qed.

Lemma take_profit_ends_monitoring_witness :
  takeProfit_amount Scenario.cfg 20 < 1250000000
  /\ exists r b',
       monitor_loop 1 Scenario.cfg Scenario.mint (takeProfit_amount Scenario.cfg 20)
         (Scenario.quotes [1250000000]) 0 900000000 Scenario.holding
       = Some (Return r, b')
       /\ stopLoss b' !! Scenario.mint = None
       /\ (r = false ->
           exists threshold,
             veto_threshold Scenario.cfg = Resolved (Some threshold)
             /\ 1250000000 < threshold).
Proof.
  assert (Htake : takeProfit_amount Scenario.cfg 20 < 1250000000)
    by (vm_compute; reflexivity).
  split; [exact Htake|].
  apply (take_profit_ends_monitoring Scenario.cfg Scenario.mint
           (Scenario.quotes [1250000000]) 0 0 (takeProfit_amount Scenario.cfg 20)
           900000000 1250000000 Scenario.holding);
    [reflexivity | exact Htake | intros _; vm_compute; reflexivity
     | vm_compute; discriminate].
Defined.

(** ** The quality filter *)

Lemma filter_try_fetched (cfg : BotConfig) (executed : outcome bool) (mc : Z) (b : Bot) :
  filter_try cfg executed mc b =
    match executed with
    | Resolved true =>
        if consecutiveMatchCount cfg <=? mc + 1 then Some (Return true, b)
        else Some (Normal (mc + 1), b)
    | Resolved false => Some (Normal 0, b)
    | Rejected => Some (Throw, b)
    end.
Proof.
  unfold filter_try, bind, await, ret, return_.
  destruct executed as [[|]|]; try reflexivity.
  destruct (consecutiveMatchCount cfg <=? mc + 1); reflexivity.
Qed.

(** [matchCount] counts the positive evaluations that end at the tick
    before the current one; the loop answers [true] only on a streak. *)
Lemma filter_loop_true (cfg : BotConfig) (feed : nat -> outcome bool) :
  forall (fuel timesChecked : nat) (mc : Z) (b b' : Bot),
    0 <= mc <= Z.of_nat timesChecked ->
    (timesChecked = 0%nat
     \/ below_ratio (Z.of_nat timesChecked) (filterCheckDuration cfg)
          (filterCheckInterval cfg) = true) ->
    (forall j : nat,
       Z.of_nat timesChecked - mc <= Z.of_nat j < Z.of_nat timesChecked ->
       feed j = Resolved true) ->
    filter_loop fuel cfg feed timesChecked mc b = Some (Return true, b') ->
    b' = b
    /\ exists k : nat,
         (k = 0%nat
          \/ below_ratio (Z.of_nat k) (filterCheckDuration cfg) (filterCheckInterval cfg)
             = true)
         /\ Z.max 1 (consecutiveMatchCount cfg) <= Z.of_nat k + 1
         /\ forall j : nat,
              Z.of_nat k - Z.max 1 (consecutiveMatchCount cfg) < Z.of_nat j <= Z.of_nat k ->
              feed j = Resolved true.
Proof.
  induction fuel as [|fuel IH]; intros tc mc b b' Hmc Hin Hstreak Hrun; [discriminate|].
  revert Hrun. cbn [filter_loop]. rewrite filter_try_fetched.
  destruct (feed tc) as [[|]|] eqn:Hfeed; cbv beta iota.
  - destruct (Z.leb_spec (consecutiveMatchCount cfg) (mc + 1)) as [Henough | Hnot];
      cbv beta iota.
    + intros H. inversion H; subst. split; [reflexivity|].
      exists tc. split; [exact Hin|]. split; [lia|].
      intros j Hj. destruct (Nat.eq_dec j tc) as [-> | Hne]; [exact Hfeed|].
      apply Hstreak. lia.
    + destruct (below_ratio (Z.of_nat (S tc)) (filterCheckDuration cfg)
               (filterCheckInterval cfg)) eqn:Hmore; [|intros H; discriminate H].
      intros Hrun. apply IH in Hrun; [exact Hrun | lia | right; exact Hmore |].
      intros j Hj. destruct (Nat.eq_dec j tc) as [-> | Hne]; [exact Hfeed|].
      apply Hstreak. lia.
  - destruct (below_ratio (Z.of_nat (S tc)) (filterCheckDuration cfg)
               (filterCheckInterval cfg)) eqn:Hmore; [|intros H; discriminate H].
    intros Hrun. apply IH in Hrun; [exact Hrun | lia | right; exact Hmore |].
    intros j Hj. lia.
  - intros H; discriminate H.
Qed.

(** X12: with the filter check switched on, [filterMatch] answers [true]
    only on a full streak: some tick [k] within the budget
    ([k = 0] or [k < filterCheckDuration / filterCheckInterval]) that is at
    least the [consecutiveMatchCount]-th tick of the run, such that it and
    the [consecutiveMatchCount - 1] ticks before it all evaluated positive
    (one positive tick is enough when [consecutiveMatchCount] is 1 or less);
    the bot's state is not touched. *)
Theorem filter_match_needs_a_streak (cfg : BotConfig) (feed : nat -> outcome bool)
    (b b' : Bot) :
  filterCheckInterval cfg <> 0 -> filterCheckDuration cfg <> 0 ->
  filterMatch_body cfg feed b = Some (Return true, b') ->
  b' = b
  /\ exists k : nat,
       (k = 0%nat
        \/ below_ratio (Z.of_nat k) (filterCheckDuration cfg) (filterCheckInterval cfg) = true)
       /\ Z.max 1 (consecutiveMatchCount cfg) <= Z.of_nat k + 1
       /\ forall j : nat,
            Z.of_nat k - Z.max 1 (consecutiveMatchCount cfg) < Z.of_nat j <= Z.of_nat k ->
            feed j = Resolved true.
Proof.
  intros Hi Hd. unfold filterMatch_body.
  replace (filterCheckInterval cfg =? 0) with false by (symmetry; apply Z.eqb_neq; exact Hi).
  replace (filterCheckDuration cfg =? 0) with false by (symmetry; apply Z.eqb_neq; exact Hd).
  cbn [orb]. intros Hrun.
  apply filter_loop_true in Hrun; [exact Hrun | lia | left; reflexivity |].
  intros j Hj. lia.
Qed.

Lemma filter_match_needs_a_streak_witness :
  exists k : nat,
    filterMatch_body Scenario.cfg_filter
      (Scenario.evaluations [true; false; true; true]) Scenario.fresh
    = Some (Return true, Scenario.fresh)
    /\ 2 <= Z.of_nat k + 1
    /\ forall j : nat,
         Z.of_nat k - 2 < Z.of_nat j <= Z.of_nat k ->
         Scenario.evaluations [true; false; true; true] j = Resolved true.
Proof.
  assert (Hrun : filterMatch_body Scenario.cfg_filter
                   (Scenario.evaluations [true; false; true; true]) Scenario.fresh
                 = Some (Return true, Scenario.fresh)) by (vm_compute; reflexivity).
  destruct (filter_match_needs_a_streak Scenario.cfg_filter
              (Scenario.evaluations [true; false; true; true])
              Scenario.fresh Scenario.fresh) as (_ & k & _ & Hroom & Hstreak).
  - cbn. discriminate.
  - cbn. discriminate.
  - exact Hrun.
  - exists k. split; [exact Hrun|]. split; [exact Hroom | exact Hstreak].
Defined.

(** A single positive tick is no streak of two: the check answers
    [false]. *)
Example filter_rejects_a_short_streak :
  filterMatch_body Scenario.cfg_filter
    (Scenario.evaluations [true; false; false; false]) Scenario.fresh
  = Some (Return false, Scenario.fresh).
Proof. vm_compute. reflexivity. Qed.

(** ** What [buy] hands to the executor *)

Lemma log_event_recorded {R : Type} (e : Event) (b : Bot) :
  log_event (R := R) e b = Some (Normal tt, recorded e b).
Proof. reflexivity. Qed.

(** One buy attempt in closed form. *)
Lemma buy_attempt_cases (cfg : BotConfig) (env : BuyEnv) (i : nat) (b : Bot) :
  try_catch (buy_attempt cfg env i) (ret tt) b =
    if 10000 <? now env i - startTime env then Some (Return tt, b)
    else if confirms (buySwap env i) then Some (Break, recorded (EvBuySwap i) b)
    else Some (Normal tt, recorded (EvBuySwap i) b).
Proof.
  unfold buy_attempt, try_catch, bind, return_, ret.
  destruct (10000 <? now env i - startTime env); [reflexivity|].
  rewrite log_event_recorded. unfold await, break_, confirms.
  destruct (buySwap env i) as [[[|]]|]; reflexivity.
Qed.

(** The retry loop of [buy], from attempt [a] with [n] attempts left. *)
Lemma buy_loop_shape (cfg : BotConfig) (env : BuyEnv) (n : nat) :
  forall (a : nat) (b : Bot),
  exists c b' k,
    for_each (seq a n) (fun i => try_catch (buy_attempt cfg env i) (ret tt)) b
    = Some (c, b')
    /\ (c = Normal tt \/ c = Return tt)
    /\ same_but_trace b b'
    /\ trace b' = trace b ++ map EvBuySwap (seq a k)
    /\ (k <= n)%nat
    /\ (forall i, (a <= i < a + k)%nat -> now env i - startTime env <= 10000)
    /\ (forall i, (a <= i)%nat -> (S i < a + k)%nat -> confirms (buySwap env i) = false)
    /\ ((k < n)%nat ->
        10000 < now env (a + k)%nat - startTime env
        \/ ((0 < k)%nat /\ confirms (buySwap env (a + k - 1)%nat) = true)).
Proof.
  induction n as [|n IH]; intros a b.
  - exists (Normal tt), b, 0%nat. cbn. rewrite app_nil_r.
    repeat split; auto; intros; lia.
  - cbn [seq for_each]. rewrite buy_attempt_cases.
    destruct (Z.ltb_spec 10000 (now env a - startTime env)) as [Hlate | Hintime].
    + exists (Return tt), b, 0%nat. cbn. rewrite app_nil_r.
      split; [reflexivity|]. split; [auto|]. split; [repeat split|].
      split; [reflexivity|]. split; [lia|]. split; [intros; lia|]. split; [intros; lia|].
      intros _. left. rewrite Nat.add_0_r. exact Hlate.
    + destruct (confirms (buySwap env a)) eqn:Hconf.
      * exists (Normal tt), (recorded (EvBuySwap a) b), 1%nat.
        split; [reflexivity|]. split; [auto|]. split; [repeat split|].
        split; [reflexivity|]. split; [lia|].
        split; [intros i Hi; replace i with a by lia; exact Hintime|].
        split; [intros; lia|].
        intros _. right. split; [lia|]. replace (a + 1 - 1)%nat with a by lia. exact Hconf.
      * destruct (IH (S a) (recorded (EvBuySwap a) b))
          as (c & b' & k & Hrun & Hc & (Hs & Hcount & Hmap) & Ht & Hk & Hclock & Hnot & Hstop).
        exists c, b', (S k). split; [exact Hrun|]. split; [exact Hc|].
        split; [repeat split; assumption|].
        split; [rewrite Ht; cbn; rewrite <- app_assoc; reflexivity|].
        split; [lia|].
        split.
        { intros i Hi. destruct (Nat.eq_dec i a) as [-> | Hne]; [exact Hintime|].
          apply Hclock. lia. }
        split.
        { intros i Hi Hlast. destruct (Nat.eq_dec i a) as [-> | Hne]; [exact Hconf|].
          apply Hnot; lia. }
        intros Hless. destruct Hstop as [Hlate | [Hpos Hconf']]; [lia | |].
        -- left. replace (a + S k)%nat with (S a + k)%nat by lia. exact Hlate.
        -- right. split; [lia|].
           replace (a + S k - 1)%nat with (S a + k - 1)%nat by lia. exact Hconf'.
Qed.

(** ** The gates in front of the buy attempts *)

Lemma filter_loop_state_free (cfg : BotConfig) (feed : nat -> outcome bool) :
  forall (fuel timesChecked : nat) (mc : Z) (b b0 : Bot),
    filter_loop fuel cfg feed timesChecked mc b0 =
      match filter_loop fuel cfg feed timesChecked mc b with
      | Some (c, _) => Some (c, b0)
      | None => None
      end.
Proof.
  induction fuel as [|fuel IH]; intros tc mc b b0; [reflexivity|].
  cbn [filter_loop]. rewrite !filter_try_fetched.
  destruct (feed tc) as [[|]|]; try reflexivity.
  - destruct (consecutiveMatchCount cfg <=? mc + 1); [reflexivity|].
    destruct (below_ratio (Z.of_nat (S tc)) (filterCheckDuration cfg)
                (filterCheckInterval cfg)); [apply IH | reflexivity].
  - destruct (below_ratio (Z.of_nat (S tc)) (filterCheckDuration cfg)
                (filterCheckInterval cfg)); [apply IH | reflexivity].
Qed.

Lemma filterMatch_state_free {R : Type} (cfg : BotConfig) (feed : nat -> outcome bool)
    (b b' : Bot) (c : completion R bool) :
  filterMatch (R := R) cfg feed b = Some (c, b') ->
  forall b0 : Bot, filterMatch (R := R) cfg feed b0 = Some (c, b0).
Proof.
  unfold filterMatch, call, filterMatch_body. intros Hrun b0.
  destruct ((filterCheckInterval cfg =? 0) || (filterCheckDuration cfg =? 0)).
  - unfold return_ in *. inversion Hrun; subst. reflexivity.
  - rewrite (filter_loop_state_free cfg feed (filter_fuel cfg) 0 0 b b0).
    destruct (filter_loop (filter_fuel cfg) cfg feed 0 0 b) as [[[[]|  |r|] b1]|];
      inversion Hrun; subst; reflexivity.
Qed.

(** The guarded [try] block of [buy]: the swaps it hands over are the
    attempts [0 .. k-1]; they start only past both gates, and past the gates
    they stop early only for the deadline or a confirmed swap. *)
Lemma buy_guarded_shape (cfg : BotConfig) (env : BuyEnv) (b : Bot) :
  exists c b' k,
    try_catch (buy_try cfg env) (ret tt) b = Some (c, b')
    /\ (c = Normal tt \/ c = Return tt)
    /\ same_but_trace b b'
    /\ trace b' = trace b ++ map EvBuySwap (seq 0 k)
    /\ (k <= Z.to_nat (maxBuyRetries cfg))%nat
    /\ (forall i, (i < k)%nat -> now env i - startTime env <= 10000)
    /\ (forall i, (S i < k)%nat -> confirms (buySwap env i) = false)
    /\ ((0 < k)%nat -> gates_passed cfg env)
    /\ (gates_passed cfg env -> (k < Z.to_nat (maxBuyRetries cfg))%nat ->
        10000 < now env k - startTime env
        \/ ((0 < k)%nat /\ confirms (buySwap env (k - 1)%nat) = true)).
Proof.
  assert (Hstop : forall c : completion unit unit, c = Normal tt \/ c = Return tt ->
            ~ gates_passed cfg env ->
            exists c0 b' k, Some (c, b) = Some (c0, b')
              /\ (c0 = Normal tt \/ c0 = Return tt)
              /\ same_but_trace b b'
              /\ trace b' = trace b ++ map EvBuySwap (seq 0 k)
              /\ (k <= Z.to_nat (maxBuyRetries cfg))%nat
              /\ (forall i, (i < k)%nat -> now env i - startTime env <= 10000)
              /\ (forall i, (S i < k)%nat -> confirms (buySwap env i) = false)
              /\ ((0 < k)%nat -> gates_passed cfg env)
              /\ (gates_passed cfg env -> (k < Z.to_nat (maxBuyRetries cfg))%nat ->
                  10000 < now env k - startTime env
                  \/ ((0 < k)%nat /\ confirms (buySwap env (k - 1)%nat) = true))).
  { intros c Hc Hno. exists c, b, 0%nat. split; [reflexivity|]. split; [exact Hc|].
    split; [repeat split|]. split; [cbn; rewrite app_nil_r; reflexivity|].
    split; [lia|]. split; [intros i Hi; lia|]. split; [intros i Hi; lia|].
    split; [intros Hk; lia|]. intros Hg. contradiction. }
  unfold buy_try. unfold try_catch at 1. unfold bind, ret, return_.
  destruct (buyLookups env) as [[]|] eqn:Hlook; cbn [await];
    [|apply Hstop; [auto | intros (Hl & _); congruence]].
  destruct (buyPoolKeys env) as [[]|] eqn:Hkeys; cbn [await];
    [|apply Hstop; [auto | intros (_ & Hk & _); congruence]].
  assert (Hgate :
    (useSnipeList cfg = false ->
      forall b0 : Bot,
        filterMatch (R := unit) cfg (filterFeed env) b0 = Some (Normal true, b0)) ->
    exists c0 b' k,
      try_catch
        (buySignal <- waitForBuySignal_call cfg (priceFeed env) ;;
         (if negb buySignal then return_ tt else ret tt) ;;;
         for_upto (maxBuyRetries cfg)
           (fun i => try_catch (buy_attempt cfg env i) (ret tt)))
        (ret tt) b = Some (c0, b')
      /\ (c0 = Normal tt \/ c0 = Return tt)
      /\ same_but_trace b b'
      /\ trace b' = trace b ++ map EvBuySwap (seq 0 k)
      /\ (k <= Z.to_nat (maxBuyRetries cfg))%nat
      /\ (forall i, (i < k)%nat -> now env i - startTime env <= 10000)
      /\ (forall i, (S i < k)%nat -> confirms (buySwap env i) = false)
      /\ ((0 < k)%nat -> gates_passed cfg env)
      /\ (gates_passed cfg env -> (k < Z.to_nat (maxBuyRetries cfg))%nat ->
          10000 < now env k - startTime env
          \/ ((0 < k)%nat /\ confirms (buySwap env (k - 1)%nat) = true))).
  { intros Hfilter. unfold try_catch at 1. unfold bind, ret, return_.
    unfold waitForBuySignal_call.
    destruct (waitForBuySignal cfg (priceFeed env)) as [[r st]|] eqn:Hsig.
    2:{ destruct (waitForBuySignal_call_runs (R := unit) cfg (priceFeed env) b)
          as (r & Hcall).
        unfold waitForBuySignal_call in Hcall. rewrite Hsig in Hcall. discriminate Hcall. }
    destruct r; cbn [negb].
    2:{ apply Hstop; [auto|]. intros (_ & _ & _ & st' & Hst'). congruence. }
    destruct (buy_loop_shape cfg env (Z.to_nat (maxBuyRetries cfg)) 0 b)
      as (c & b' & k & Hloop & Hc & Hsame & Htr & Hk & Hclock & Hconf & Hearly).
    unfold for_upto. unfold ret in Hloop. rewrite Hloop. exists c, b', k.
    split; [destruct Hc as [-> | ->]; reflexivity|].
    split; [exact Hc|]. split; [exact Hsame|]. split; [exact Htr|].
    split; [exact Hk|].
    split; [intros i Hi; apply Hclock; lia|].
    split; [intros i Hi; apply Hconf; lia|].
    split.
    - intros _. split; [exact Hlook|]. split; [exact Hkeys|].
      split; [exact Hfilter|]. exists st. exact Hsig.
    - intros _ Hlt. exact (Hearly Hlt). }
  unfold try_catch at 1 in Hgate. unfold bind, ret, return_ in Hgate.
  destruct (useSnipeList cfg) eqn:Hsnipe; cbn [negb].
  - apply Hgate. intros Hf; discriminate Hf.
  - destruct (filterMatch_runs (R := unit) cfg (filterFeed env) b) as (c & Hfil & Hc).
    rewrite Hfil. destruct Hc as [-> | [[|] ->]]; cbn [negb].
    + apply Hstop; [auto|]. intros (_ & _ & Hf & _).
      specialize (Hf Hsnipe b). congruence.
    + apply Hgate. intros _ b0. exact (filterMatch_state_free cfg _ _ _ _ Hfil b0).
    + apply Hstop; [auto|]. intros (_ & _ & Hf & _).
      specialize (Hf Hsnipe b). congruence.
Qed.

(** One run of [buy], in closed form: either it is turned away before the
    permit and leaves the bot as it is, or its trace is the permit, the
    attempts [0 .. k-1] and the release. *)
Lemma buy_shape (cfg : BotConfig) (env : BuyEnv) (b : Bot) :
  exists c b' k,
    buy cfg env b = Some (c, b')
    /\ (c = Normal tt \/ c = Return tt)
    /\ same_but_trace b b'
    /\ ((b' = b /\ k = 0%nat
         /\ (useSnipeList cfg && negb (inSnipeList env) = true
             \/ admission_denied cfg b = true))
        \/ (useSnipeList cfg && negb (inSnipeList env) = false
            /\ admission_denied cfg b = false
            /\ trace b' = trace b ++ EvAcquire :: map EvBuySwap (seq 0 k) ++ [EvRelease]))
    /\ (k <= Z.to_nat (maxBuyRetries cfg))%nat
    /\ (forall i, (i < k)%nat -> now env i - startTime env <= 10000)
    /\ (forall i, (S i < k)%nat -> confirms (buySwap env i) = false)
    /\ ((0 < k)%nat -> gates_passed cfg env)
    /\ (useSnipeList cfg && negb (inSnipeList env) = false ->
        admission_denied cfg b = false ->
        gates_passed cfg env -> (k < Z.to_nat (maxBuyRetries cfg))%nat ->
        10000 < now env k - startTime env
        \/ ((0 < k)%nat /\ confirms (buySwap env (k - 1)%nat) = true)).
Proof.
  assert (Hskip : useSnipeList cfg && negb (inSnipeList env) = true
                  \/ admission_denied cfg b = true ->
          exists c b' k,
            Some (Return tt, b) = Some (c, b')
            /\ (c = Normal tt \/ c = Return tt)
            /\ same_but_trace b b'
            /\ ((b' = b /\ k = 0%nat
                 /\ (useSnipeList cfg && negb (inSnipeList env) = true
                     \/ admission_denied cfg b = true))
                \/ (useSnipeList cfg && negb (inSnipeList env) = false
                    /\ admission_denied cfg b = false
                    /\ trace b' = trace b ++ EvAcquire :: map EvBuySwap (seq 0 k) ++ [EvRelease]))
            /\ (k <= Z.to_nat (maxBuyRetries cfg))%nat
            /\ (forall i, (i < k)%nat -> now env i - startTime env <= 10000)
            /\ (forall i, (S i < k)%nat -> confirms (buySwap env i) = false)
            /\ ((0 < k)%nat -> gates_passed cfg env)
            /\ (useSnipeList cfg && negb (inSnipeList env) = false ->
                admission_denied cfg b = false ->
                gates_passed cfg env -> (k < Z.to_nat (maxBuyRetries cfg))%nat ->
                10000 < now env k - startTime env
                \/ ((0 < k)%nat /\ confirms (buySwap env (k - 1)%nat) = true))).
  { intros Hwhy. exists (Return tt), b, 0%nat.
    split; [reflexivity|]. split; [right; reflexivity|].
    split; [repeat split|]. split; [left; auto|].
    split; [lia|]. split; [intros i Hi; lia|]. split; [intros i Hi; lia|].
    split; [intros Hk; lia|].
    intros Hs Ha. destruct Hwhy as [Hw | Hw]; congruence. }
  unfold buy, bind, get, return_, ret.
  destruct (useSnipeList cfg && negb (inSnipeList env)) eqn:Hsnipe;
    [apply Hskip; left; reflexivity|].
  destruct (admission_denied cfg b) eqn:Hadm; [apply Hskip; right; reflexivity|].
  clear Hskip.
  pose proof Hadm as Hlocked.
  unfold admission_denied in Hlocked. apply orb_false_elim in Hlocked as [Hlocked _].
  unfold Semaphore.isLocked in Hlocked. apply Z.leb_gt in Hlocked.
  unfold semaphore_acquire, Semaphore.acquire.
  replace (0 <? semaphore b) with true by (symmetry; apply Z.ltb_lt; assumption).
  rewrite log_event_recorded.
  set (b2 := recorded EvAcquire (set_semaphore (semaphore b - 1) b)).
  destruct (buy_guarded_shape cfg env b2)
    as (c & b3 & k & Hrun & Hc & (Hs3 & Hn3 & Hl3) & Ht3 & Hk & Hclock & Hconf
        & Hgates & Hearly).
  unfold try_finally. unfold ret in Hrun. rewrite Hrun.
  unfold semaphore_release. rewrite log_event_recorded.
  exists c, (recorded EvRelease (set_semaphore (Semaphore.release (semaphore b3)) b3)), k.
  split; [reflexivity|]. split; [exact Hc|].
  split.
  { unfold same_but_trace. cbn. rewrite Hs3, Hn3, Hl3. subst b2. cbn.
    unfold Semaphore.release. repeat split. lia. }
  split.
  { right. split; [reflexivity|]. split; [reflexivity|].
    cbn. rewrite Ht3. subst b2. cbn. rewrite <- !app_assoc. reflexivity. }
  split; [exact Hk|]. split; [exact Hclock|]. split; [exact Hconf|].
  split; [exact Hgates|].
  intros _ _. exact Hearly.
Qed.

(** X13: the swaps of one run of [buy] are the attempts [0, 1, .., k-1] in
    this order, framed by the permit; [k] is at most [maxBuyRetries], every
    attempt that reached the executor read a clock within 10 s of the start,
    and no attempt follows a confirmed one. Nothing but the trace of the bot
    changes. *)
Theorem buy_attempts_are_bounded (cfg : BotConfig) (env : BuyEnv) (b : Bot) :
  exists c b' k,
    buy cfg env b = Some (c, b')
    /\ same_but_trace b b'
    /\ (b' = b
        \/ trace b' = trace b ++ EvAcquire :: map EvBuySwap (seq 0 k) ++ [EvRelease])
    /\ (k <= Z.to_nat (maxBuyRetries cfg))%nat
    /\ (forall i, (i < k)%nat -> now env i - startTime env <= 10000)
    /\ (forall i, (S i < k)%nat -> confirms (buySwap env i) = false).
Proof.
  destruct (buy_shape cfg env b)
    as (c & b' & k & Hrun & _ & Hsame & Htrace & Hk & Hclock & Hconf & _).
  exists c, b', k. split; [exact Hrun|]. split; [exact Hsame|].
  split; [|split; [exact Hk | split; [exact Hclock | exact Hconf]]].
  destruct Htrace as [(Hb & _) | (_ & _ & Ht)]; [left; exact Hb | right; exact Ht].
Qed.

(** X14: [buy] hands a swap to the executor only past all its gates: the
    mint is in the snipe list when that mode is on, admission was granted,
    the lookups and the pool keys succeeded, the filter check (outside
    snipe-list mode) answered [true], and the entry gate gave a buy signal. *)
Theorem buy_trades_only_past_its_gates (cfg : BotConfig) (env : BuyEnv) (b b' : Bot)
    (c : completion unit unit) (evs : list Event) (i : nat) :
  buy cfg env b = Some (c, b') ->
  trace b' = trace b ++ evs ->
  In (EvBuySwap i) evs ->
  (useSnipeList cfg = true -> inSnipeList env = true)
  /\ admission_denied cfg b = false
  /\ gates_passed cfg env.
Proof.
  intros Hrun Hevs Hin.
  destruct (buy_shape cfg env b)
    as (c0 & b0 & k & Hrun0 & _ & _ & Htrace & _ & _ & _ & Hgates & _).
  rewrite Hrun in Hrun0. inversion Hrun0; subst c0 b0.
  destruct Htrace as [(Hb & _) | (Hsnipe & Hadm & Ht)].
  - subst b'. rewrite <- (app_nil_r (trace b)) in Hevs at 1.
    apply app_inv_head in Hevs. subst evs. destruct Hin.
  - rewrite Hevs in Ht. apply app_inv_head in Ht. subst evs.
    split; [|split; [exact Hadm|]].
    + intros Hon. rewrite Hon in Hsnipe. cbn in Hsnipe.
      destruct (inSnipeList env); [reflexivity | discriminate Hsnipe].
    + apply Hgates. destruct k as [|k]; [|lia].
      cbn in Hin. destruct Hin as [Hin | [Hin | []]]; discriminate Hin.
Qed.

Lemma buy_trades_only_past_its_gates_witness :
  (useSnipeList Scenario.cfg = true ->
   inSnipeList (Scenario.entering_env (fun i => Nat.eqb i 1) (fun i => Z.of_nat i)) = true)
  /\ admission_denied Scenario.cfg Scenario.fresh = false
  /\ gates_passed Scenario.cfg
       (Scenario.entering_env (fun i => Nat.eqb i 1) (fun i => Z.of_nat i)).
Proof.
  apply (buy_trades_only_past_its_gates Scenario.cfg
           (Scenario.entering_env (fun i => Nat.eqb i 1) (fun i => Z.of_nat i))
           Scenario.fresh
           {| semaphore := 1; sellExecutionCount := 0; stopLoss := ∅;
              trace := [EvAcquire; EvBuySwap 0; EvBuySwap 1; EvRelease] |}
           (Normal tt)
           [EvAcquire; EvBuySwap 0; EvBuySwap 1; EvRelease] 1%nat).
  - vm_compute. reflexivity.
  - reflexivity.
  - cbn. auto.
Defined.

(** X15: past its gates [buy] keeps retrying: when it was let in and both
    gates passed, it takes the permit, and it makes fewer than
    [maxBuyRetries] attempts only if the clock read at the next attempt was
    more than 10 s past the start, or its last attempt was confirmed. *)
Theorem buy_retries_until_deadline_or_fill (cfg : BotConfig) (env : BuyEnv) (b : Bot) :
  useSnipeList cfg && negb (inSnipeList env) = false ->
  admission_denied cfg b = false ->
  gates_passed cfg env ->
  exists c b' k,
    buy cfg env b = Some (c, b')
    /\ trace b' = trace b ++ EvAcquire :: map EvBuySwap (seq 0 k) ++ [EvRelease]
    /\ (k <= Z.to_nat (maxBuyRetries cfg))%nat
    /\ ((k < Z.to_nat (maxBuyRetries cfg))%nat ->
        10000 < now env k - startTime env
        \/ ((0 < k)%nat /\ confirms (buySwap env (k - 1)%nat) = true)).
Proof.
  intros Hsnipe Hadm Hpassed.
  destruct (buy_shape cfg env b)
    as (c & b' & k & Hrun & Hc & _ & Htrace & Hk & _ & _ & _ & Hearly).
  exists c, b', k. split; [exact Hrun|].
  destruct Htrace as [(_ & _ & [Hw | Hw]) | (_ & _ & Ht)]; try congruence.
  split; [exact Ht|]. split; [exact Hk|].
  intros Hlt. apply Hearly; assumption.
Qed.

Lemma buy_retries_until_deadline_or_fill_witness :
  let env := Scenario.entering_env (fun i => Nat.eqb i 1) (fun i => Z.of_nat i) in
  exists c b' k,
    buy Scenario.cfg env Scenario.fresh = Some (c, b')
    /\ trace b' = trace Scenario.fresh
                    ++ EvAcquire :: map EvBuySwap (seq 0 k) ++ [EvRelease]
    /\ (k <= Z.to_nat (maxBuyRetries Scenario.cfg))%nat
    /\ ((k < Z.to_nat (maxBuyRetries Scenario.cfg))%nat ->
        10000 < now env k - startTime env
        \/ ((0 < k)%nat /\ confirms (buySwap env (k - 1)%nat) = true)).
Proof.
  intros env.
  apply (buy_retries_until_deadline_or_fill Scenario.cfg env Scenario.fresh).
  - reflexivity.
  - reflexivity.
  - split; [reflexivity|]. split; [reflexivity|].
    split; [intros _ b0; reflexivity|].
    eexists. vm_compute. reflexivity.
Defined.

(** ** What [sell] hands to the executor *)

(** A later sell attempt in closed form: it evaluates no exit signal. *)
Lemma sell_attempt_later_cases (cfg : BotConfig) (env : SellEnv) (mint : string)
    (i : nat) (b : Bot) :
  (1 <= i)%nat ->
  try_catch (sell_attempt cfg env mint i) (ret tt) b =
    if confirms (sellSwap env i) then Some (Break, recorded (EvSellSwap i) b)
    else Some (Normal tt, recorded (EvSellSwap i) b).
Proof.
  intros Hi. unfold sell_attempt, try_catch, bind, ret.
  replace (i <? 1)%nat with false by (symmetry; apply Nat.ltb_ge; assumption).
  rewrite log_event_recorded. unfold await, break_, confirms.
  destruct (sellSwap env i) as [[[|]]|]; reflexivity.
Qed.

(** The first sell attempt in closed form: the exit signal is evaluated
    on the bot with the call recorded. The swap follows on [true]; [false]
    ends the run; an exception of the evaluation is caught by the [catch] of
    the attempt, which goes on to the next attempt without a swap. *)
Lemma sell_attempt_first_cases (cfg : BotConfig) (env : SellEnv) (mint : string)
    (b : Bot) :
  exists answer b2,
    waitForSellSignal_body cfg mint (quoteFeed env) (recorded (EvSellSignal 0) b)
      = Some (answer_completion answer, b2)
    /\ same_counters (recorded (EvSellSignal 0) b) b2
    /\ try_catch (sell_attempt cfg env mint 0) (ret tt) b =
         match answer with
         | Some true =>
             if confirms (sellSwap env 0) then Some (Break, recorded (EvSellSwap 0) b2)
             else Some (Normal tt, recorded (EvSellSwap 0) b2)
         | Some false => Some (Return tt, b2)
         | None => Some (Normal tt, b2)
         end.
Proof.
  destruct (waitForSellSignal_runs (R := unit) cfg mint (quoteFeed env)
              (recorded (EvSellSignal 0) b))
    as (b2 & Hsame & [(r & Hcall & Hbody) | (Hcall & Hbody)]).
  - exists (Some r), b2. split; [exact Hbody|]. split; [exact Hsame|].
    unfold sell_attempt, try_catch. unfold bind at 1 2.
    cbn [Nat.ltb Nat.leb]. rewrite log_event_recorded.
    unfold bind at 1. rewrite Hcall.
    destruct r; cbn [negb].
    + unfold bind, ret. rewrite log_event_recorded. unfold await, break_, confirms.
      destruct (sellSwap env 0) as [[[|]]|]; reflexivity.
    + reflexivity.
  - exists None, b2. split; [exact Hbody|]. split; [exact Hsame|].
    unfold sell_attempt, try_catch. unfold bind at 1 2.
    cbn [Nat.ltb Nat.leb]. rewrite log_event_recorded.
    unfold bind at 1. rewrite Hcall. reflexivity.
Qed.

(** The retry loop of [sell] past its first attempt. *)
Lemma sell_loop_shape (cfg : BotConfig) (env : SellEnv) (mint : string) (n : nat) :
  forall (a : nat) (b : Bot),
  (1 <= a)%nat ->
  exists b' k,
    for_each (seq a n) (fun i => try_catch (sell_attempt cfg env mint i) (ret tt)) b
    = Some (Normal tt, b')
    /\ same_but_trace b b'
    /\ trace b' = trace b ++ map EvSellSwap (seq a k)
    /\ (k <= n)%nat
    /\ (forall i, (a <= i)%nat -> (S i < a + k)%nat -> confirms (sellSwap env i) = false)
    /\ ((k < n)%nat -> (0 < k)%nat /\ confirms (sellSwap env (a + k - 1)%nat) = true).
Proof.
  induction n as [|n IH]; intros a b Ha.
  - exists b, 0%nat. cbn. rewrite app_nil_r.
    split; [reflexivity|]. split; [repeat split|]. split; [reflexivity|].
    split; [lia|]. split; intros; lia.
  - cbn [seq for_each]. rewrite sell_attempt_later_cases by exact Ha.
    destruct (confirms (sellSwap env a)) eqn:Hconf.
    + exists (recorded (EvSellSwap a) b), 1%nat.
      split; [reflexivity|]. split; [repeat split|]. split; [reflexivity|].
      split; [lia|]. split; [intros; lia|].
      intros _. split; [lia|]. replace (a + 1 - 1)%nat with a by lia. exact Hconf.
    + destruct (IH (S a) (recorded (EvSellSwap a) b))
        as (b' & k & Hrun & (Hs & Hcount & Hmap) & Ht & Hk & Hnot & Hstop); [lia|].
      exists b', (S k). split; [exact Hrun|].
      split; [repeat split; assumption|].
      split; [rewrite Ht; cbn; rewrite <- app_assoc; reflexivity|].
      split; [lia|].
      split.
      { intros i Hi Hlast. destruct (Nat.eq_dec i a) as [-> | Hne]; [exact Hconf|].
        apply Hnot; lia. }
      intros Hless. destruct Hstop as [Hpos Hconf']; [lia|].
      split; [lia|].
      replace (a + S k - 1)%nat with (S a + k - 1)%nat by lia. exact Hconf'.
Qed.

(** The guarded [try] block of [sell] in closed form: [answer] is what
    the exit monitor came to, [b2] the bot as it left it, and the swaps are
    the [k] attempts from [first_swap answer] on. *)
Lemma sell_guarded_shape (cfg : BotConfig) (env : SellEnv) (amount : Z) (b : Bot) :
  exists c b' answer k,
    try_catch (sell_try cfg env amount) (ret tt) b = Some (c, b')
    /\ (c = Normal tt \/ c = Return tt)
    /\ ((b' = b /\ k = 0%nat
         /\ ~ (reaches_retries env amount /\ 1 <= maxSellRetries cfg))
        \/ (exists mint b2,
              poolData env = Resolved (Some mint)
              /\ reaches_retries env amount /\ 1 <= maxSellRetries cfg
              /\ waitForSellSignal_body cfg mint (quoteFeed env)
                   (recorded (EvSellSignal 0) b) = Some (answer_completion answer, b2)
              /\ same_counters (recorded (EvSellSignal 0) b) b2
              /\ same_but_trace b2 b'
              /\ trace b' = trace b2 ++ map EvSellSwap (seq (first_swap answer) k)
              /\ (answer = Some false -> k = 0%nat)
              /\ (answer <> Some false ->
                  ((first_swap answer + k)%nat < Z.to_nat (maxSellRetries cfg))%nat ->
                  (0 < k)%nat)
              /\ (answer = Some true -> (0 < k)%nat)))
    /\ (first_swap answer + k <= Z.to_nat (maxSellRetries cfg))%nat
    /\ (forall i, (first_swap answer <= i)%nat -> (S i < first_swap answer + k)%nat ->
        confirms (sellSwap env i) = false)
    /\ ((0 < k)%nat -> (first_swap answer + k < Z.to_nat (maxSellRetries cfg))%nat ->
        confirms (sellSwap env (first_swap answer + k - 1)%nat) = true).
Proof.
  assert (Hstop : forall c : completion unit unit,
            c = Normal tt \/ c = Return tt ->
            ~ (reaches_retries env amount /\ 1 <= maxSellRetries cfg) ->
            exists c0 b' answer k,
              Some (c, b) = Some (c0, b')
              /\ (c0 = Normal tt \/ c0 = Return tt)
              /\ ((b' = b /\ k = 0%nat
                   /\ ~ (reaches_retries env amount /\ 1 <= maxSellRetries cfg))
                  \/ (exists mint b2,
                        poolData env = Resolved (Some mint)
                        /\ reaches_retries env amount /\ 1 <= maxSellRetries cfg
                        /\ waitForSellSignal_body cfg mint (quoteFeed env)
                             (recorded (EvSellSignal 0) b)
                           = Some (answer_completion answer, b2)
                        /\ same_counters (recorded (EvSellSignal 0) b) b2
                        /\ same_but_trace b2 b'
                        /\ trace b' = trace b2 ++ map EvSellSwap (seq (first_swap answer) k)
                        /\ (answer = Some false -> k = 0%nat)
                        /\ (answer <> Some false ->
                            ((first_swap answer + k)%nat
                             < Z.to_nat (maxSellRetries cfg))%nat ->
                            (0 < k)%nat)
                        /\ (answer = Some true -> (0 < k)%nat)))
              /\ (first_swap answer + k <= Z.to_nat (maxSellRetries cfg))%nat
              /\ (forall i, (first_swap answer <= i)%nat ->
                  (S i < first_swap answer + k)%nat ->
                  confirms (sellSwap env i) = false)
              /\ ((0 < k)%nat ->
                  (first_swap answer + k < Z.to_nat (maxSellRetries cfg))%nat ->
                  confirms (sellSwap env (first_swap answer + k - 1)%nat) = true)).
  { intros c Hc Hnot. exists c, b, (Some true), 0%nat.
    split; [reflexivity|]. split; [exact Hc|].
    split; [left; auto|]. cbn [first_swap]. split; [lia|]. split; intros; lia. }
  unfold sell_try. unfold try_catch at 1. unfold bind, ret, return_.
  destruct (poolData env) as [[mint|]|] eqn:Hpool; cbn [await].
  2: { apply Hstop; [auto|]. intros (((m & Hm) & _) & _). congruence. }
  2: { apply Hstop; [auto|]. intros (((m & Hm) & _) & _). congruence. }
  destruct (Z.eqb_spec amount 0) as [Hzero|Hnonzero].
  { apply Hstop; [auto|]. intros ((_ & Hne & _) & _). contradiction. }
  destruct (sellMarket env) as [[]|] eqn:Hmarket; cbn [await].
  2: { apply Hstop; [auto|]. intros ((_ & _ & Hm & _) & _). congruence. }
  destruct (sellPoolKeys env) as [[]|] eqn:Hkeys; cbn [await].
  2: { apply Hstop; [auto|]. intros ((_ & _ & _ & Hk) & _). congruence. }
  assert (Hreach : reaches_retries env amount).
  { split; [exists mint; exact Hpool|]. split; [exact Hnonzero|].
    split; [exact Hmarket | exact Hkeys]. }
  unfold for_upto.
  destruct (Z.to_nat (maxSellRetries cfg)) as [|n] eqn:Hn.
  { cbn [seq for_each]. apply Hstop; [auto|]. intros (_ & Hpos). lia. }
  assert (Hpos : 1 <= maxSellRetries cfg) by lia.
  cbn [seq for_each].
  destruct (sell_attempt_first_cases cfg env mint b)
    as (answer & b2 & Hbody & Hsame & Hfirst).
  fold (@ret Bot unit unit tt). rewrite Hfirst.
  destruct answer as [[|]|].
  - (* the monitor answered true: the swap of attempt 0 *)
    destruct (confirms (sellSwap env 0)) eqn:Hconf.
    + exists (Normal tt), (recorded (EvSellSwap 0) b2), (Some true), 1%nat.
      split; [reflexivity|]. split; [auto|].
      split.
      { right. exists mint, b2. split; [reflexivity|].
        split; [exact Hreach|]. split; [exact Hpos|]. split; [exact Hbody|].
        split; [exact Hsame|]. split; [repeat split|]. split; [reflexivity|].
        split; [discriminate|]. split; intros; lia. }
      cbn [first_swap]. split; [lia|]. split; [intros; lia|]. intros _ _. exact Hconf.
    + destruct (sell_loop_shape cfg env mint n 1 (recorded (EvSellSwap 0) b2))
        as (b' & k & Hrun & (Hs & Hcount & Hmap) & Ht & Hk & Hnot & Hend); [lia|].
      unfold ret in Hrun |- *. rewrite Hrun. exists (Normal tt), b', (Some true), (S k).
      split; [reflexivity|]. split; [auto|].
      split.
      { right. exists mint, b2. split; [reflexivity|].
        split; [exact Hreach|]. split; [exact Hpos|]. split; [exact Hbody|].
        split; [exact Hsame|]. split; [repeat split; assumption|].
        split; [rewrite Ht; cbn; rewrite <- app_assoc; reflexivity|].
        split; [discriminate|]. split; intros; lia. }
      cbn [first_swap]. split; [lia|].
      split.
      { intros i _ Hi. destruct (Nat.eq_dec i 0%nat) as [-> | Hne]; [exact Hconf|].
        apply Hnot; lia. }
      intros _ Hless. destruct Hend as [Hk0 Hlast]; [lia|].
      replace (0 + S k - 1)%nat with (1 + k - 1)%nat by lia. exact Hlast.
  - (* the monitor answered false *)
    exists (Return tt), b2, (Some false), 0%nat.
    split; [reflexivity|]. split; [auto|].
    split.
    { right. exists mint, b2. split; [reflexivity|].
      split; [exact Hreach|]. split; [exact Hpos|]. split; [exact Hbody|].
      split; [exact Hsame|]. split; [repeat split|].
      split; [cbn; rewrite app_nil_r; reflexivity|].
      split; [reflexivity|]. split; [congruence | discriminate]. }
    cbn [first_swap]. split; [lia|]. split; intros; lia.
  - (* the evaluation threw: the loop goes on with attempt 1 *)
    destruct (sell_loop_shape cfg env mint n 1 b2)
      as (b' & k & Hrun & Hsame' & Ht & Hk & Hnot & Hend); [lia|].
    unfold ret in Hrun |- *. rewrite Hrun. exists (Normal tt), b', None, k.
    split; [reflexivity|]. split; [auto|].
    split.
    { right. exists mint, b2. split; [reflexivity|].
      split; [exact Hreach|]. split; [exact Hpos|]. split; [exact Hbody|].
      split; [exact Hsame|]. split; [exact Hsame'|]. split; [exact Ht|].
      split; [discriminate|]. split; [|discriminate].
      cbn [first_swap]. intros _ Hless. apply Hend. lia. }
    cbn [first_swap]. split; [lia|]. split; [exact Hnot|].
    intros _ Hless. apply Hend. lia.
Qed.

(** One run of [sell] in closed form. *)
Lemma sell_shape (cfg : BotConfig) (env : SellEnv) (amount : Z) (b : Bot) :
  exists c b' answer k,
    sell cfg env amount b = Some (c, b')
    /\ (c = Normal tt \/ c = Return tt)
    /\ semaphore b' = semaphore b
    /\ sellExecutionCount b' = sellExecutionCount b
    /\ ((trace b' = trace b /\ stopLoss b' = stopLoss b /\ k = 0%nat
         /\ ~ (reaches_retries env amount /\ 1 <= maxSellRetries cfg))
        \/ (exists mint b2,
              poolData env = Resolved (Some mint)
              /\ reaches_retries env amount /\ 1 <= maxSellRetries cfg
              /\ waitForSellSignal_body cfg mint (quoteFeed env)
                   (recorded (EvSellSignal 0)
                      (set_sellExecutionCount (sellExecutionCount b + 1) b))
                 = Some (answer_completion answer, b2)
              /\ stopLoss b' = stopLoss b2
              /\ trace b' = trace b
                   ++ EvSellSignal 0 :: map EvSellSwap (seq (first_swap answer) k)
              /\ (answer = Some false -> k = 0%nat)
              /\ (answer <> Some false ->
                  ((first_swap answer + k)%nat < Z.to_nat (maxSellRetries cfg))%nat ->
                  (0 < k)%nat)
              /\ (answer = Some true -> (0 < k)%nat)))
    /\ (first_swap answer + k <= Z.to_nat (maxSellRetries cfg))%nat
    /\ (forall i, (first_swap answer <= i)%nat -> (S i < first_swap answer + k)%nat ->
        confirms (sellSwap env i) = false)
    /\ ((0 < k)%nat -> (first_swap answer + k < Z.to_nat (maxSellRetries cfg))%nat ->
        confirms (sellSwap env (first_swap answer + k - 1)%nat) = true).
Proof.
  unfold sell. unfold bind, modify at 1.
  set (b1 := set_sellExecutionCount (sellExecutionCount b + 1) b).
  destruct (sell_guarded_shape cfg env amount b1)
    as (c & b2' & answer & k & Hrun & Hc & Hcases & Hk & Hnot & Hend).
  unfold try_finally. rewrite Hrun. unfold modify.
  exists c, (set_sellExecutionCount (sellExecutionCount b2' - 1) b2'), answer, k.
  split; [reflexivity|]. split; [exact Hc|].
  destruct Hcases as [(-> & Hk0 & Hno)
                     | (mint & b2 & Hpool & Hreach & Hpos & Hbody
                        & (Hs2 & Hc2 & Ht2) & (Hs & Hcount & Hmap) & Ht & Hfalse
                        & Hmore & Htrue)].
  - subst b1. cbn. split; [reflexivity|]. split; [lia|].
    split; [left; auto|]. split; [exact Hk|]. split; [exact Hnot | exact Hend].
  - cbn. rewrite Hs, Hcount, Hs2, Hc2. subst b1. cbn.
    split; [reflexivity|]. split; [lia|].
    split; [|split; [exact Hk | split; [exact Hnot | exact Hend]]].
    right. exists mint, b2. split; [exact Hpool|]. split; [exact Hreach|].
    split; [exact Hpos|]. split; [exact Hbody|]. split; [exact Hmap|].
    split; [|auto]. rewrite Ht, Ht2. cbn. rewrite <- app_assoc. reflexivity.
Qed.

Lemma in_map_swaps (i first k : nat) :
  In (EvSellSwap i) (EvSellSignal 0 :: map EvSellSwap (seq first k)) ->
  (first <= i < first + k)%nat.
Proof.
  intros [H | H]; [discriminate H|].
  apply in_map_iff in H as (j & Hj & Hin). inversion Hj; subst j.
  apply in_seq in Hin. exact Hin.
Qed.

(** X16: [sell] hands a swap to the executor only after the pool entry
    was found, the balance was non-zero, the market lookup and the pool keys
    succeeded and [waitForSellSignal], called on the bot with the sell
    counted in [sellExecutionCount], either answered [true] or threw: the
    [catch] of the attempt swallows the exception, and the attempts from
    index 1 on swap without any answer. It never swaps after the answer
    [false], and attempt 0 swaps only on [true]. The stop-loss map it leaves
    is the one the exit monitor left. *)
Theorem sell_trades_after_true_or_exception (cfg : BotConfig) (env : SellEnv)
    (amount : Z) (b b' : Bot) (c : completion unit unit) (evs : list Event) (i : nat) :
  sell cfg env amount b = Some (c, b') ->
  trace b' = trace b ++ evs ->
  In (EvSellSwap i) evs ->
  exists mint b2,
    poolData env = Resolved (Some mint)
    /\ amount <> 0
    /\ sellMarket env = Resolved tt
    /\ sellPoolKeys env = Resolved tt
    /\ 1 <= maxSellRetries cfg
    /\ stopLoss b' = stopLoss b2
    /\ let entered :=
         recorded (EvSellSignal 0) (set_sellExecutionCount (sellExecutionCount b + 1) b) in
       waitForSellSignal_body cfg mint (quoteFeed env) entered = Some (Return true, b2)
       \/ (waitForSellSignal_body cfg mint (quoteFeed env) entered = Some (Throw, b2)
           /\ (1 <= i)%nat
           /\ prelude_passes cfg mint b = false).
Proof.
  intros Hrun Hevs Hin.
  destruct (sell_shape cfg env amount b)
    as (c0 & b0 & answer & k & Hrun0 & _ & _ & _ & Hcases & _).
  rewrite Hrun in Hrun0. inversion Hrun0; subst c0 b0.
  destruct Hcases as [(Ht & _) | (mint & b2 & Hpool & Hreach & Hpos & Hbody
                                  & Hmap & Ht & Hfalse & _)].
  - rewrite <- (app_nil_r (trace b)) in Ht. rewrite Hevs in Ht.
    apply app_inv_head in Ht. subst evs. destruct Hin.
  - rewrite Hevs in Ht. apply app_inv_head in Ht. subst evs.
    apply in_map_swaps in Hin.
    destruct Hreach as (_ & Hne & Hmarket & Hkeys).
    exists mint, b2. split; [exact Hpool|]. split; [exact Hne|].
    split; [exact Hmarket|]. split; [exact Hkeys|]. split; [exact Hpos|].
    split; [exact Hmap|]. cbv zeta.
    destruct answer as [[|]|]; cbn [answer_completion first_swap] in *.
    + left. exact Hbody.
    + specialize (Hfalse eq_refl). lia.
    + right. split; [exact Hbody|]. split; [lia|].
      destruct (waitForSellSignal_body_runs cfg mint (quoteFeed env)
                  (recorded (EvSellSignal 0)
                     (set_sellExecutionCount (sellExecutionCount b + 1) b)))
        as (c1 & b1 & Hrun1 & _ & _ & Hthrow & _).
      rewrite Hbody in Hrun1. inversion Hrun1; subst c1 b1.
      destruct (proj1 Hthrow eq_refl) as (_ & _ & Hpre).
      rewrite <- Hpre. symmetry. apply prelude_passes_same_map. reflexivity.
Qed.

Lemma sell_trades_after_true_or_exception_witness :
  let env := Scenario.sell_env (Some Scenario.mint) [1000000000] in
  exists mint b2,
    poolData env = Resolved (Some mint)
    /\ 5 <> 0
    /\ sellMarket env = Resolved tt
    /\ sellPoolKeys env = Resolved tt
    /\ 1 <= maxSellRetries Scenario.cfg_fraction
    /\ stopLoss {| semaphore := 1; sellExecutionCount := 0; stopLoss := ∅;
                   trace := [EvSellSignal 0; EvSellSwap 1; EvSellSwap 2] |}
       = stopLoss b2
    /\ let entered :=
         recorded (EvSellSignal 0)
           (set_sellExecutionCount (sellExecutionCount Scenario.fresh + 1) Scenario.fresh) in
       waitForSellSignal_body Scenario.cfg_fraction mint (quoteFeed env) entered
       = Some (Return true, b2)
       \/ (waitForSellSignal_body Scenario.cfg_fraction mint (quoteFeed env) entered
           = Some (Throw, b2)
           /\ (1 <= 1)%nat
           /\ prelude_passes Scenario.cfg_fraction mint Scenario.fresh = false).
Proof.
  intros env.
  apply (sell_trades_after_true_or_exception Scenario.cfg_fraction env 5 Scenario.fresh
           {| semaphore := 1; sellExecutionCount := 0; stopLoss := ∅;
              trace := [EvSellSignal 0; EvSellSwap 1; EvSellSwap 2] |}
           (Normal tt)
           [EvSellSignal 0; EvSellSwap 1; EvSellSwap 2] 1%nat).
  - vm_compute. reflexivity.
  - reflexivity.
  - cbn. auto.
Defined.

(** X17: the swaps of one run of [sell] are consecutive attempts in
    order, after the one call of [waitForSellSignal]: they start with attempt
    0, or with attempt 1 when the evaluation of the exit signal threw (then
    monitoring is on and one of the SDK calls in front of its loop rejected
    its number). The last attempt is below [maxSellRetries], no attempt
    follows a confirmed one, and once a swap was attempted the run stops
    short of [maxSellRetries] only on a confirmed swap (there is no
    deadline, unlike in [buy]). *)
Theorem sell_attempts_stop_at_fill (cfg : BotConfig) (env : SellEnv)
    (amount : Z) (b : Bot) :
  exists c b' first k,
    sell cfg env amount b = Some (c, b')
    /\ semaphore b' = semaphore b
    /\ sellExecutionCount b' = sellExecutionCount b
    /\ ((trace b' = trace b /\ stopLoss b' = stopLoss b /\ k = 0%nat)
        \/ trace b' = trace b ++ EvSellSignal 0 :: map EvSellSwap (seq first k))
    /\ (first = 0%nat
        \/ (first = 1%nat
            /\ exists mint,
                 poolData env = Resolved (Some mint)
                 /\ priceCheckDuration cfg <> 0 /\ priceCheckInterval cfg <> 0
                 /\ prelude_passes cfg mint b = false))
    /\ (first + k <= Z.to_nat (maxSellRetries cfg))%nat
    /\ (forall i, (first <= i)%nat -> (S i < first + k)%nat ->
        confirms (sellSwap env i) = false)
    /\ ((0 < k)%nat -> (first + k < Z.to_nat (maxSellRetries cfg))%nat ->
        confirms (sellSwap env (first + k - 1)%nat) = true).
Proof.
  destruct (sell_shape cfg env amount b)
    as (c & b' & answer & k & Hrun & _ & Hs & Hcount & Hcases & Hk & Hnot & Hend).
  destruct Hcases as [(Ht & Hmap & Hk0 & _)
                     | (mint & b2 & Hpool & _ & _ & Hbody & _ & Ht & _)].
  - subst k. exists c, b', 0%nat, 0%nat. split; [exact Hrun|]. split; [exact Hs|].
    split; [exact Hcount|]. split; [left; auto|]. split; [left; reflexivity|].
    split; [lia|]. split; intros; lia.
  - exists c, b', (first_swap answer), k. split; [exact Hrun|]. split; [exact Hs|].
    split; [exact Hcount|]. split; [right; exact Ht|].
    split; [|split; [exact Hk | split; [exact Hnot | exact Hend]]].
    destruct answer as [[|]|]; cbn [first_swap answer_completion] in *;
      [left; reflexivity | left; reflexivity |].
    right. split; [reflexivity|]. exists mint. split; [exact Hpool|].
    destruct (waitForSellSignal_body_runs cfg mint (quoteFeed env)
                (recorded (EvSellSignal 0)
                   (set_sellExecutionCount (sellExecutionCount b + 1) b)))
      as (c1 & b1 & Hrun1 & _ & _ & Hthrow & _).
    rewrite Hbody in Hrun1. inversion Hrun1; subst c1 b1.
    destruct (proj1 Hthrow eq_refl) as (Hd & Hi & Hpre).
    split; [exact Hd|]. split; [exact Hi|].
    rewrite <- Hpre. symmetry. apply prelude_passes_same_map. reflexivity.
Qed.

(** The run of the witness above: with a take-profit of 12.5 percent the
    first SDK call of [waitForSellSignal] throws, attempt 0 ends without a
    swap, and attempts 1 and 2 swap although no exit signal was given. The
    same happens for a take-profit of [2^53 - 1]. *)
Example sell_swaps_after_rejected_percentage :
  parseBigNumberish (takeProfit Scenario.cfg_fraction) = Rejected
  /\ parseBigNumberish 9007199254740991 = Rejected
  /\ (exists b',
        waitForSellSignal_body Scenario.cfg_fraction Scenario.mint
          (Scenario.quotes [1000000000]) Scenario.fresh = Some (Throw, b'))
  /\ exists b',
       sell Scenario.cfg_fraction (Scenario.sell_env (Some Scenario.mint) [1000000000]) 5
         Scenario.fresh = Some (Normal tt, b')
       /\ trace b' = [EvSellSignal 0; EvSellSwap 1; EvSellSwap 2].
Proof.
  split; [vm_compute; reflexivity|]. split; [vm_compute; reflexivity|].
  split; eexists; [|split]; vm_compute; reflexivity.
Qed.

(** ** Admission, in terms of the runs in flight *)

(** X18: in every state the system can reach, a buy is denied exactly
    when the buys and sells in flight together fill the capacity; the
    separate test of the semaphore ([isLocked]) never decides, for a locked
    semaphore makes the combined count reach the capacity too. *)
Theorem admission_counts_runs_in_flight (cfg : BotConfig) (s : Sys) :
  reachable cfg s ->
  admission_denied cfg (bot s)
    = (maxTokensAtTheTime cfg <=? Z.of_nat (buysInFlight s) + Z.of_nat (sellsInFlight s))
  /\ (Semaphore.isLocked (semaphore (bot s)) = true ->
      (maxTokensAtTheTime cfg <=? numberOfActionsBeingProcessed cfg (bot s)) = true).
Proof.
  intros Hreach.
  destruct (reachable_counters_agree cfg s Hreach) as (Hsem & Hsell & Hbound).
  unfold admission_denied, numberOfActionsBeingProcessed, Semaphore.isLocked,
    Semaphore.getValue.
  rewrite Hsem, Hsell. split.
  - destruct (Z.leb_spec (maxTokensAtTheTime cfg - Z.of_nat (buysInFlight s)) 0);
      destruct (Z.leb_spec (maxTokensAtTheTime cfg)
                  (maxTokensAtTheTime cfg
                   - (maxTokensAtTheTime cfg - Z.of_nat (buysInFlight s))
                   + Z.of_nat (sellsInFlight s)));
      destruct (Z.leb_spec (maxTokensAtTheTime cfg)
                  (Z.of_nat (buysInFlight s) + Z.of_nat (sellsInFlight s)));
      cbn; try reflexivity; lia.
  - intros Hlocked. apply Z.leb_le in Hlocked. apply Z.leb_le. lia.
Qed.

Lemma admission_counts_runs_in_flight_witness :
  admission_denied Scenario.cfg (bot Scenario.one_buy_one_sell)
    = (maxTokensAtTheTime Scenario.cfg
       <=? Z.of_nat (buysInFlight Scenario.one_buy_one_sell)
           + Z.of_nat (sellsInFlight Scenario.one_buy_one_sell))
  /\ (Semaphore.isLocked (semaphore (bot Scenario.one_buy_one_sell)) = true ->
      (maxTokensAtTheTime Scenario.cfg
       <=? numberOfActionsBeingProcessed Scenario.cfg (bot Scenario.one_buy_one_sell))
      = true).
Proof.
  apply (admission_counts_runs_in_flight Scenario.cfg Scenario.one_buy_one_sell).
  exact reachable_one_buy_one_sell.
Defined.

(** ** The filter check, the other way round *)

(** A run that is at tick [timesChecked <= k], with [matchCount] at least the
    number of ticks since the streak ending at tick [k] began, answers
    [true]. *)
Lemma filter_loop_streak (cfg : BotConfig) (feed : nat -> outcome bool) (k : nat) :
  (forall j : nat, (1 <= j <= k)%nat ->
     below_ratio (Z.of_nat j) (filterCheckDuration cfg) (filterCheckInterval cfg) = true) ->
  (forall j : nat, (j <= k)%nat -> feed j <> Rejected) ->
  (forall j : nat,
     Z.of_nat k - Z.max 1 (consecutiveMatchCount cfg) < Z.of_nat j <= Z.of_nat k ->
     feed j = Resolved true) ->
  forall (fuel timesChecked : nat) (mc : Z) (b : Bot),
    (timesChecked <= k)%nat ->
    (k - timesChecked < fuel)%nat ->
    0 <= mc ->
    Z.of_nat timesChecked - (Z.of_nat k + 1 - Z.max 1 (consecutiveMatchCount cfg)) <= mc ->
    filter_loop fuel cfg feed timesChecked mc b = Some (Return true, b).
Proof.
  intros Hbudget Hanswers Hstreak.
  induction fuel as [|fuel IH]; intros tc mc b Htc Hfuel Hmc Hcount; [lia|].
  cbn [filter_loop]. rewrite filter_try_fetched.
  destruct (feed tc) as [[|]|] eqn:Hfeed.
  - destruct (Z.leb_spec (consecutiveMatchCount cfg) (mc + 1)) as [Henough | Hnot];
      [reflexivity|].
    assert (Hlt : (tc < k)%nat) by lia.
    rewrite (Hbudget (S tc)) by lia.
    apply IH; lia.
  - assert (Hout : Z.of_nat tc <= Z.of_nat k - Z.max 1 (consecutiveMatchCount cfg)).
    { destruct (Z.leb_spec (Z.of_nat tc)
                  (Z.of_nat k - Z.max 1 (consecutiveMatchCount cfg))) as [Hle | Hin];
        [exact Hle|].
      rewrite Hstreak in Hfeed by lia. discriminate Hfeed. }
    assert (Hlt : (tc < k)%nat) by lia.
    rewrite (Hbudget (S tc)) by lia.
    apply IH; lia.
  - exfalso. exact (Hanswers tc Htc Hfeed).
Qed.

(** X19: with the filter check switched on, [filterMatch] answers [true]
    whenever the evaluations up to some tick [k] within the budget all
    answered (none threw) and the last [consecutiveMatchCount] of them (one,
    when that setting is 1 or less) were positive. Together with
    the converse this fixes when the check passes. *)
Theorem filter_match_passes_on_a_streak (cfg : BotConfig) (feed : nat -> outcome bool)
    (b : Bot) (k : nat) :
  filterCheckInterval cfg <> 0 -> filterCheckDuration cfg <> 0 ->
  (forall j : nat, (1 <= j <= k)%nat ->
     below_ratio (Z.of_nat j) (filterCheckDuration cfg) (filterCheckInterval cfg) = true) ->
  (forall j : nat, (j <= k)%nat -> feed j <> Rejected) ->
  Z.max 1 (consecutiveMatchCount cfg) <= Z.of_nat k + 1 ->
  (forall j : nat,
     Z.of_nat k - Z.max 1 (consecutiveMatchCount cfg) < Z.of_nat j <= Z.of_nat k ->
     feed j = Resolved true) ->
  filterMatch_body cfg feed b = Some (Return true, b).
Proof.
  intros Hi Hd Hbudget Hanswers Hroom Hstreak. unfold filterMatch_body.
  replace (filterCheckInterval cfg =? 0) with false by (symmetry; apply Z.eqb_neq; exact Hi).
  replace (filterCheckDuration cfg =? 0) with false by (symmetry; apply Z.eqb_neq; exact Hd).
  cbn [orb].
  apply (filter_loop_streak cfg feed k Hbudget Hanswers Hstreak); try lia.
  unfold filter_fuel. destruct k as [|k]; [lia|].
  assert (Hbound : Z.of_nat (S k) <= Z.abs (filterCheckDuration cfg)).
  { apply (below_ratio_bound _ _ (filterCheckInterval cfg)); [exact Hi | lia|].
    apply Hbudget. lia. }
  lia.
Qed.

Lemma filter_match_passes_on_a_streak_witness :
  filterMatch_body Scenario.cfg_filter
    (Scenario.evaluations [true; false; true; true]) Scenario.fresh
  = Some (Return true, Scenario.fresh).
Proof.
  apply (filter_match_passes_on_a_streak Scenario.cfg_filter
           (Scenario.evaluations [true; false; true; true]) Scenario.fresh 3).
  - cbn. discriminate.
  - cbn. discriminate.
  - intros j Hj.
    destruct j as [|[|[|[|j]]]]; [lia | reflexivity | reflexivity | reflexivity | lia].
  - intros j Hj.
    destruct j as [|[|[|[|j]]]]; [discriminate | discriminate | discriminate | discriminate | lia].
  - cbn. lia.
  - intros j Hj. cbn in Hj.
    destruct j as [|[|[|[|j]]]]; [lia | lia | reflexivity | reflexivity | lia].
Defined.

(** ** The raise of the floor and the stop-loss test of the same tick *)

Lemma trailing_candidate_at_most (pct a : Z) :
  0 <= a -> 0 <= pct <= 100 -> trailing_candidate pct a <= a.
Proof.
  intros Ha Hpct. unfold trailing_candidate, fraction_of.
  assert (0 <= Z.quot (a * pct) 100); [|lia].
  apply Z.quot_pos; nia.
Qed.

(** X20: a tick raises the floor before it tests it, yet the raise never
    triggers the stop-loss: for a quote [a >= 0] and a stop-loss percentage
    between 0 and 100 the candidate floor is at most [a]. So the tick ends the
    loop for a sale exactly when it reaches its tests (neither of its two SDK
    products throws), there is no drawdown veto, and [a] is below the floor
    the tick started with, or above the take-profit amount [tp]. A tick
    whose product throws ends without any test. *)
Theorem trailing_raise_never_triggers_stop (cfg : BotConfig) (mint : string)
    (tp a sl : Z) (b : Bot) :
  0 <= a ->
  (forall pct, parseBigNumberish (Config.stopLoss cfg) = Resolved pct -> 0 <= pct <= 100) ->
  exists c b',
    monitor_tick cfg mint tp (Resolved a) sl b = Some (c, b')
    /\ (c = Break <->
        trailing_floor cfg a sl <> Rejected
        /\ (exists threshold,
              veto_threshold cfg = Resolved threshold /\ vetoes threshold a = false)
        /\ (a < sl \/ tp < a)).
Proof.
  intros Ha Hpct. rewrite monitor_tick_fetched.
  destruct (trailing_floor cfg a sl) as [sl'|] eqn:Hfloor.
  2:{ eexists _, _. split; [reflexivity|]. split; [discriminate|].
      intros (Hne & _). congruence. }
  assert (Hsame : (a <? sl') = (a <? sl)).
  { revert Hfloor. unfold trailing_floor.
    destruct (trailingStopLoss cfg); [|intros H; inversion H; reflexivity].
    destruct (parseBigNumberish (Config.stopLoss cfg)) as [pct|] eqn:Hparse;
      [|discriminate].
    intros H. inversion H; subst sl'.
    pose proof (trailing_candidate_at_most pct a Ha (Hpct pct eq_refl)) as Hcand.
    destruct (Z.ltb_spec a (Z.max sl (trailing_candidate pct a)));
      destruct (Z.ltb_spec a sl); try reflexivity; lia. }
  cbv zeta. rewrite Hsame.
  destruct (veto_threshold cfg) as [threshold|] eqn:Hthreshold.
  2:{ eexists _, _. split; [reflexivity|]. split; [discriminate|].
      intros (_ & (t & Ht & _) & _). discriminate Ht. }
  destruct (vetoes threshold a) eqn:Hveto.
  - eexists _, _. split; [reflexivity|]. split; [discriminate|].
    intros (_ & (t & Ht & Hno) & _). inversion Ht; subst t. congruence.
  - destruct (Z.ltb_spec a sl) as [Hbelow | Habove].
    + eexists _, _. split; [reflexivity|]. split; [|reflexivity].
      intros _. split; [discriminate|]. split; [eauto | auto].
    + destruct (Z.ltb_spec tp a) as [Htake | Hnot].
      * eexists _, _. split; [reflexivity|]. split; [|reflexivity].
        intros _. split; [discriminate|]. split; [eauto | auto].
      * eexists _, _. split; [reflexivity|]. split; [discriminate|].
        intros (_ & _ & [H | H]); lia.
Qed.

Lemma trailing_raise_never_triggers_stop_witness :
  exists c b',
    monitor_tick Scenario.cfg Scenario.mint 1200000000 (Resolved 1100000000) 900000000
      Scenario.holding = Some (c, b')
    /\ (c = Break <->
        trailing_floor Scenario.cfg 1100000000 900000000 <> Rejected
        /\ (exists threshold,
              veto_threshold Scenario.cfg = Resolved threshold
              /\ vetoes threshold 1100000000 = false)
        /\ (1100000000 < 900000000 \/ 1200000000 < 1100000000)).
Proof.
  apply (trailing_raise_never_triggers_stop Scenario.cfg Scenario.mint
           1200000000 1100000000 900000000 Scenario.holding).
  - lia.
  - intros pct Hparse. vm_compute in Hparse. inversion Hparse. lia.
Defined.

(** A drawdown setting that the SDK rejects switches off every exit of the
    tick: with [skipSellingIfLostMoreThan = 2^54] the product of line 672
    throws, so a quote above the take-profit amount neither sells nor
    deletes the entry, and the tick only keeps the raised floor. *)
Example rejected_threshold_skips_the_triggers :
  let cfg := Scenario.cfg_huge_skip in
  veto_threshold cfg = Rejected
  /\ exists b',
       monitor_tick cfg Scenario.mint 1200000000 (Resolved 1250000000) 900000000
         Scenario.holding = Some (Normal 1125000000, b')
       /\ stopLoss b' !! Scenario.mint = Some 1125000000.
Proof.
  split; [vm_compute; reflexivity|]. eexists. split; vm_compute; reflexivity.
Qed.
